(** * crossNoso backend: job submission, pipeline runner, worker pool, status facade

    A shallow embedding of
      - [routers/api_anitform.py]  (job ids, upload, worker pool, status,
        result list, download)
      - [pipeline/anti_pipeline.py] ([run_pipeline])
      - [routers/api_search.py] ([check_job_id])
      - [routers/result_pages/api_query_page.py] ([parse_query_table])
    and the properties of these functions.

    Conventions.  A Python [str] is held as its UTF-8 encoding, a [string]
    of bytes, and so is the text of a file; a character is the one to four
    bytes that encode it (module [Utf8]).  What Python decides character by
    character ([str.strip], [str.splitlines], the classes of [re]) is
    decided here on the characters, not on the bytes.  Where the separator
    is an ASCII character ([split], [join], the slash of a path) the bytes
    can be cut directly: in UTF-8 an ASCII byte is never part of the
    encoding of another character.
    The file system is a finite map from absolute locations (lists of
    directory entries, the root being [[]]) to nodes; there are no symbolic
    links.  What the program cannot decide by itself (exit status of the Perl
    and R tools, I/O errors of the operating system, the contents of the files
    the tools leave behind, the clock, the random generator) is an explicit
    environment. *)

From Stdlib Require Import Ascii ZArith Lia Bool DecimalString DecimalNat.
From stdpp Require Import gmap strings list fin_maps.

(** ** UTF-8: the characters of a text *)
Module Utf8.

Definition between (lo hi : nat) (b : ascii) : bool :=
  (lo <=? nat_of_ascii b) && (nat_of_ascii b <=? hi).

(** a continuation byte *)
Definition cont (b : ascii) : bool := between 128 191 b.

(** The well-formed encodings of one character, by their length (the
    Unicode standard, table 3-7, which the decoder of Python follows): no
    overlong form, no surrogate, nothing above U+10FFFF. *)
Definition one (b0 : ascii) : bool := between 0 127 b0.

Definition two (b0 b1 : ascii) : bool := between 194 223 b0 && cont b1.

Definition three (b0 b1 b2 : ascii) : bool :=
  ((between 224 224 b0 && between 160 191 b1)
   || (between 225 236 b0 && cont b1)
   || (between 237 237 b0 && between 128 159 b1)
   || (between 238 239 b0 && cont b1))
  && cont b2.

Definition four (b0 b1 b2 b3 : ascii) : bool :=
  ((between 240 240 b0 && between 144 191 b1)
   || (between 241 243 b0 && cont b1)
   || (between 244 244 b0 && between 128 143 b1))
  && cont b2 && cont b3.

(** The characters of a text in order, each as the bytes that encode it;
    [None] when the bytes are not UTF-8 (then they are the encoding of no
    [str], and [bytes.decode("utf-8")] raises [UnicodeDecodeError]). *)
Fixpoint chars (s : string) : option (list string) :=
  match s with
  | EmptyString => Some []
  | String b0 r0 =>
      if one b0 then cons (String b0 EmptyString) <$> chars r0
      else
        match r0 with
        | EmptyString => None
        | String b1 r1 =>
            if two b0 b1
            then cons (String b0 (String b1 EmptyString)) <$> chars r1
            else
              match r1 with
              | EmptyString => None
              | String b2 r2 =>
                  if three b0 b1 b2
                  then cons (String b0 (String b1 (String b2 EmptyString)))
                         <$> chars r2
                  else
                    match r2 with
                    | EmptyString => None
                    | String b3 r3 =>
                        if four b0 b1 b2 b3
                        then cons (String b0 (String b1 (String b2
                                     (String b3 EmptyString))))
                               <$> chars r3
                        else None
                    end
              end
        end
  end.

(** the text made of a list of characters *)
Definition text (cs : list string) : string :=
  fold_right String.append EmptyString cs.

(** the characters of a text of ASCII bytes: every byte is one *)
Fixpoint singles (s : string) : list string :=
  match s with
  | EmptyString => []
  | String b r => String b EmptyString :: singles r
  end.

(** the string of the bytes with the given values *)
Definition bytes (l : list nat) : string :=
  fold_right (fun n s => String (ascii_of_nat n) s) EmptyString l.

End Utf8.

(** ** Python string primitives *)
Module Py.

Definition tab : ascii := "009"%char.
Definition newline : ascii := "010"%char.
Definition carriage_return : ascii := "013"%char.

Definition tab_s : string := String tab EmptyString.
Definition nl : string := String newline EmptyString.
Definition cr : string := String carriage_return EmptyString.

(** The characters [str.isspace] holds of (general category Zs, or
    bidirectional class WS, B or S), by their encodings: U+0009 to U+000D,
    U+001C to U+0020, U+0085, U+00A0, U+1680, U+2000 to U+200A, U+2028,
    U+2029, U+202F, U+205F and U+3000. *)
Definition whitespace : list string :=
  map Utf8.bytes
    [ [9]; [10]; [11]; [12]; [13]; [28]; [29]; [30]; [31]; [32];
      [194; 133]; [194; 160]; [225; 154; 128];
      [226; 128; 128]; [226; 128; 129]; [226; 128; 130]; [226; 128; 131];
      [226; 128; 132]; [226; 128; 133]; [226; 128; 134]; [226; 128; 135];
      [226; 128; 136]; [226; 128; 137]; [226; 128; 138];
      [226; 128; 168]; [226; 128; 169]; [226; 128; 175];
      [226; 129; 159]; [227; 128; 128] ].

(** [ch.isspace()] for a character [ch] *)
Definition isspace (ch : string) : bool := bool_decide (ch ∈ whitespace).

Definition isdigit (c : ascii) : bool :=
  let n := nat_of_ascii c in (48 <=? n) && (n <=? 57).

Definition islower (c : ascii) : bool :=
  let n := nat_of_ascii c in (97 <=? n) && (n <=? 122).

Definition isupper (c : ascii) : bool :=
  let n := nat_of_ascii c in (65 <=? n) && (n <=? 90).

(** the class [[0-9A-Za-z]] *)
Definition isalnum (c : ascii) : bool := isdigit c || islower c || isupper c.

(** [s.lstrip()] and [s.rstrip()] on the characters of [s] *)
Fixpoint lstrip (cs : list string) : list string :=
  match cs with
  | [] => []
  | c :: r => if isspace c then lstrip r else cs
  end.

Fixpoint rstrip (cs : list string) : list string :=
  match cs with
  | [] => []
  | c :: r =>
      match rstrip r with
      | [] => if isspace c then [] else [c]
      | r' => c :: r'
      end
  end.

(** [s.strip()]: the white space characters at both ends are removed.
    Bytes that are not UTF-8 are no [str]; they are left as they are. *)
Definition strip (s : string) : string :=
  match Utf8.chars s with
  | Some cs => Utf8.text (rstrip (lstrip cs))
  | None => s
  end.

(** [s.split(sep)] for a separator of one character; never the empty list. *)
Fixpoint split (sep : ascii) (s : string) : list string :=
  match s with
  | EmptyString => [EmptyString]
  | String c r =>
      if Ascii.eqb c sep then EmptyString :: split sep r
      else match split sep r with
           | [] => [String c EmptyString]
           | w :: ws => String c w :: ws
           end
  end.

(** [s.split(sep, 1)] *)
Fixpoint split1 (sep : ascii) (s : string) : list string :=
  match s with
  | EmptyString => [EmptyString]
  | String c r =>
      if Ascii.eqb c sep then [EmptyString; r]
      else match split1 sep r with
           | [] => [String c EmptyString]
           | w :: ws => String c w :: ws
           end
  end.

(** [sep.join(parts)] *)
Fixpoint join (sep : string) (parts : list string) : string :=
  match parts with
  | [] => EmptyString
  | [p] => p
  | p :: ps => p +:+ sep +:+ join sep ps
  end.

(** [f.readline()] on the text of a file: up to and including the first
    line feed. *)
Fixpoint readline (s : string) : string :=
  match s with
  | EmptyString => EmptyString
  | String c r => if Ascii.eqb c newline then String c EmptyString
                  else String c (readline r)
  end.

Definition startswith_char (c : ascii) (s : string) : bool :=
  match s with
  | String d _ => Ascii.eqb c d
  | EmptyString => false
  end.

Fixpoint endswith_char (c : ascii) (s : string) : bool :=
  match s with
  | EmptyString => false
  | String d EmptyString => Ascii.eqb c d
  | String _ r => endswith_char c r
  end.

Fixpoint string_forallb (p : ascii -> bool) (s : string) : bool :=
  match s with
  | EmptyString => true
  | String c r => p c && string_forallb p r
  end.

Fixpoint repeat_char (c : ascii) (n : nat) : string :=
  match n with
  | O => EmptyString
  | S k => String c (repeat_char c k)
  end.

(** [str(n)] for a natural number *)
Definition str_of_nat (n : nat) : string :=
  NilEmpty.string_of_uint (Nat.to_uint n).

(** the format specification [:02d] on a natural number: decimal digits,
    padded with zeros on the left up to a width of two, never truncated *)
Definition format_02d (n : nat) : string :=
  let s := str_of_nat n in
  repeat_char "0"%char (2 - String.length s) +:+ s.

(** [d.get(k, None)] on a literal dictionary written as an association list *)
Fixpoint dict_get (d : list (string * string)) (k : string) : option string :=
  match d with
  | [] => None
  | (k', v) :: r => if String.eqb k' k then Some v else dict_get r k
  end.

End Py.

(** ** [posixpath]: the lexical operations on path names *)
Module PosixPath.

Definition sep : ascii := "/"%char.

Definition isabs (p : string) : bool := Py.startswith_char sep p.

(** [os.path.join(a, b)] *)
Definition join (a b : string) : string :=
  if isabs b then b
  else if String.eqb a "" || Py.endswith_char sep a then a +:+ b
  else a +:+ "/" +:+ b.

(** [os.path.join(a, b, c)] *)
Definition join3 (a b c : string) : string := join (join a b) c.

(** One component of a path name applied to an absolute location: what both
    the kernel and [normpath] do on a path that starts at the root. *)
Definition step (loc : list string) (comp : string) : list string :=
  if String.eqb comp "" || String.eqb comp "." then loc
  else if String.eqb comp ".." then removelast loc
  else loc ++ [comp].

(** The absolute location a path name denotes, read lexically. *)
Definition locate (cwd : list string) (p : string) : list string :=
  fold_left step (Py.split sep p) (if isabs p then [] else cwd).

Definition count_leading (c : ascii) : string -> nat :=
  fix go s := match s with
              | String d r => if Ascii.eqb c d then S (go r) else 0
              | EmptyString => 0
              end.

(** the loop of [normpath] over the components, [rooted] telling whether the
    path has initial slashes *)
Definition norm_step (rooted : bool) (new_comps : list string) (comp : string)
  : list string :=
  if String.eqb comp "" || String.eqb comp "." then new_comps
  else if negb (String.eqb comp "..")
          || (negb rooted && bool_decide (new_comps = []))
          || bool_decide (last new_comps = Some "..")
       then new_comps ++ [comp]
       else removelast new_comps.

(** [os.path.normpath(path)] *)
Definition normpath (path : string) : string :=
  if String.eqb path "" then "."
  else
    let initial_slashes :=
      if isabs path then (if count_leading sep path =? 2 then 2 else 1) else 0 in
    let comps :=
      fold_left (norm_step (negb (initial_slashes =? 0))) (Py.split sep path) [] in
    let path' := Py.repeat_char sep initial_slashes +:+ Py.join "/" comps in
    if String.eqb path' "" then "." else path'.

(** [os.path.abspath(path)] with [os.getcwd()] given *)
Definition abspath (getcwd : string) (path : string) : string :=
  normpath (if isabs path then path else join getcwd path).

(** a directory entry: not empty, not [.] or [..], no slash in it *)
Definition is_name (n : string) : bool :=
  negb (String.eqb n "") && negb (String.eqb n ".") && negb (String.eqb n "..")
  && Py.string_forallb (fun c => negb (Ascii.eqb c sep)) n.

End PosixPath.

(** ** The file system *)
Module Fs.

Inductive node : Type :=
| Dir
| File (content : string).

#[global] Instance node_eq_dec : EqDecision node.
Proof. solve_decision. Defined.

(** A file system: absolute locations to nodes.  The root is always a
    directory and is not stored. *)
Abbreviation fs := (gmap (list string) node).

Definition node_at (t : fs) (loc : list string) : option node :=
  match loc with
  | [] => Some Dir
  | _ => t !! loc
  end.

Definition is_dir (t : fs) (loc : list string) : bool :=
  bool_decide (node_at t loc = Some Dir).

(** Path resolution as the kernel does it: a component is looked up in the
    location reached so far, which has to be a directory. *)
Fixpoint walk (t : fs) (loc : list string) (comps : list string)
  : option (list string) :=
  match comps with
  | [] => Some loc
  | c :: cs => if is_dir t loc then walk t (PosixPath.step loc c) cs else None
  end.

Definition resolve (t : fs) (cwd : list string) (p : string)
  : option (list string) :=
  if String.eqb p "" then None
  else walk t (if PosixPath.isabs p then [] else cwd) (Py.split PosixPath.sep p).

(** [os.stat(p)] *)
Definition stat (t : fs) (cwd : list string) (p : string) : option node :=
  match resolve t cwd p with
  | Some loc => node_at t loc
  | None => None
  end.

(** [os.path.exists(p)] *)
Definition exists_ (t : fs) (cwd : list string) (p : string) : bool :=
  bool_decide (is_Some (stat t cwd p)).

(** [os.path.isdir(p)] *)
Definition isdir (t : fs) (cwd : list string) (p : string) : bool :=
  bool_decide (stat t cwd p = Some Dir).

(** the non-empty prefixes of a location, shortest first *)
Fixpoint ancestors (loc : list string) : list (list string) :=
  match loc with
  | [] => []
  | c :: r => [c] :: map (cons c) (ancestors r)
  end.

(** [os.makedirs(p, exist_ok=True)] when it succeeds: every missing
    directory on the way is created, what exists stays. *)
Definition mkdir1 (m : fs) (p : list string) : fs :=
  match m !! p with
  | None => <[p := Dir]> m
  | Some _ => m
  end.

Definition makedirs (t : fs) (loc : list string) : fs :=
  fold_left mkdir1 (ancestors loc) t.

(** the text of a regular file, empty when there is none *)
Definition text_at (t : fs) (loc : list string) : string :=
  match t !! loc with
  | Some (File c) => c
  | _ => ""
  end.

(** [open(p, "w")], write, close: the file is created or truncated *)
Definition write (t : fs) (loc : list string) (text : string) : fs :=
  <[loc := File text]> t.

(** [open(p, "a")], write, close: the file is created or extended *)
Definition append (t : fs) (loc : list string) (text : string) : fs :=
  <[loc := File (text_at t loc +:+ text)]> t.

End Fs.

(** ** The environment and the monad of effects *)
Module Eff.

(** the calls that can fail with an [OSError] *)
Inductive io_op : Type :=
| MakeDirs (path : string)
| OpenW (path : string)
| OpenA (path : string).

(** what a run leaves behind, in the order it happened.  [EvRun] is
    recorded when the tool is started, the others when the call succeeded. *)
Inductive event : Type :=
| EvMkdir (path : string)
| EvRun (cmd : list string)
| EvCreate (path : string)
| EvAppend (path : string)
| EvTaskDone.

#[global] Instance event_eq_dec : EqDecision event.
Proof. solve_decision. Defined.

(** a call returns a value or raises an exception [e], kept as [str(e)] *)
Inductive outcome (A : Type) : Type :=
| Done (a : A)
| Raised (msg : string).
Arguments Done {A} a.
Arguments Raised {A} msg.

Record env : Type := {
  (** [os.getcwd()], an absolute normalised path *)
  getcwd : string;
  (** [subprocess.run(cmd, check=True)]: [None] for exit status 0, [Some e]
      when the call raises (non-zero exit status, tool not found, ...) *)
  subprocess_run : list string -> option string;
  (** the [OSError] of a directory creation or of an [open] for writing *)
  os_error : io_op -> option string;
  (** the text a file opened with [open(p, "r", encoding="utf-8")] gives
      (decoded, line endings translated to a line feed, as text mode does),
      for a file this program does not write itself *)
  read_text : string -> outcome string;
  (** the rows [csv.reader(open(p), delimiter=TAB)] yields *)
  read_csv : string -> outcome (list (list string))
}.

Record world : Type := {
  files : Fs.fs;
  trace : list event
}.

Definition M (A : Type) : Type := world -> world * outcome A.

Definition ret {A} (a : A) : M A := fun w => (w, Done a).

Definition bind {A B} (m : M A) (k : A -> M B) : M B :=
  fun w => match m w with
           | (w', Done a) => k a w'
           | (w', Raised e) => (w', Raised e)
           end.

Definition raise {A} (e : string) : M A := fun w => (w, Raised e).

(** [try: body  except Exception as e: handler(e)] *)
Definition try_except {A} (body : M A) (handler : string -> M A) : M A :=
  fun w => match body w with
           | (w', Done a) => (w', Done a)
           | (w', Raised e) => handler e w'
           end.

(** [try: body  except Exception as e: handler(e); return] followed by the
    rest [k] of the function: the rest runs only when the body raised
    nothing. *)
Definition try_or_return {A} (body : M A) (handler : string -> M unit)
    (k : A -> M unit) : M unit :=
  fun w => match body w with
           | (w', Done a) => k a w'
           | (w', Raised e) => handler e w'
           end.

(** [try: body  finally: cleanup] *)
Definition try_finally {A} (body : M A) (cleanup : M unit) : M A :=
  fun w => match body w with
           | (w', r) => match cleanup w' with
                        | (w'', Done _) => (w'', r)
                        | (w'', Raised e) => (w'', Raised e)
                        end
           end.

Declare Scope eff_scope.
Delimit Scope eff_scope with eff.
Notation "x <- m ;; k" := (bind m (fun x => k))
  (at level 100, m at next level, right associativity) : eff_scope.
Notation "m ;; k" := (bind m (fun _ => k))
  (at level 100, right associativity) : eff_scope.

Section Ops.
Context (E : env).

Definition cwd_loc : list string := PosixPath.locate [] (getcwd E).

(** where a path name of the program lands *)
Definition loc_of (p : string) : list string := PosixPath.locate cwd_loc p.

Definition log (ev : event) (w : world) : world :=
  {| files := files w; trace := trace w ++ [ev] |}.

(** [os.makedirs(path, exist_ok=True)]; whether the call fails, and with
    which [OSError], is the answer of the environment *)
Definition makedirs (path : string) : M unit :=
  fun w => match os_error E (MakeDirs path) with
           | Some e => (w, Raised e)
           | None =>
               ({| files := Fs.makedirs (files w) (loc_of path);
                   trace := trace w ++ [EvMkdir path] |}, Done tt)
           end.

(** [subprocess.run(cmd, check=True)].  What the program that is started
    does to the disk is not known here and is not recorded in [files],
    which holds what this program itself makes; the files a tool leaves
    behind are read through [read_text] and [read_csv]. *)
Definition run (cmd : list string) : M unit :=
  fun w => match subprocess_run E cmd with
           | None => (log (EvRun cmd) w, Done tt)
           | Some e => (log (EvRun cmd) w, Raised e)
           end.

(** [with open(path, "w") as f: f.write(text)]; with the empty text this is
    [open(path, "w").close()] *)
Definition open_w (path text : string) : M unit :=
  fun w => match os_error E (OpenW path) with
           | Some e => (w, Raised e)
           | None =>
               ({| files := Fs.write (files w) (loc_of path) text;
                   trace := trace w ++ [EvCreate path] |}, Done tt)
           end.

(** [with open(path, "a") as f: f.write(text)] *)
Definition open_a (path text : string) : M unit :=
  fun w => match os_error E (OpenA path) with
           | Some e => (w, Raised e)
           | None =>
               ({| files := Fs.append (files w) (loc_of path) text;
                   trace := trace w ++ [EvAppend path] |}, Done tt)
           end.

(** a path is present when its location holds a node *)
Definition present (w : world) (path : string) : Prop :=
  is_Some (files w !! loc_of path).

End Ops.

(** *** reading a trace *)

(** the paths created by [open(p, "w")], in order *)
Definition created (tr : list event) : list string :=
  omap (fun ev => match ev with EvCreate p => Some p | _ => None end) tr.

(** the commands started, in order *)
Definition runs (tr : list event) : list (list string) :=
  omap (fun ev => match ev with EvRun c => Some c | _ => None end) tr.

(** the program of a command *)
Definition program (cmd : list string) : string := hd "" cmd.

(** the programs started, in order *)
Definition programs (tr : list event) : list string := map program (runs tr).

(** what happened between two worlds of one run *)
Definition emitted (w w' : world) : list event :=
  drop (length (trace w)) (trace w').

End Eff.

(** ** [pipeline/anti_pipeline.py] *)
Module Pipeline.
Import Eff.
Local Open Scope eff_scope.

(** the species table of [run_pipeline] *)
Definition mapping : list (string * string) :=
  [ ("Acinetobacter_baumannii", "AB");
    ("Enterococcus_faecium", "EF");
    ("Klebsiella_pneumoniae", "KP");
    ("Pseudomonas_aeruginosa", "PA");
    ("Staphylococcus_aureus", "SA") ].

(** the set literal of the branch test *)
Definition known_organisms : list string := ["AB"; "EF"; "KP"; "PA"; "SA"].

(** [organism in {"AB", "EF", "KP", "PA", "SA"}] *)
Definition is_known (organism : option string) : bool :=
  match organism with
  | Some o => bool_decide (o ∈ known_organisms)
  | None => false
  end.

(** lines 101-113: from the text of [taxAssign.result] to the abbreviation *)
Definition species_key (text : string) : string :=
  let first_line := Py.strip (Py.readline text) in
  let sp_full := hd "" (Py.split Py.tab first_line) in
  let sp_parts := Py.split1 "_"%char sp_full in
  match sp_parts with
  | [p0; p1] => p0 +:+ "_" +:+ p1
  | _ => sp_full
  end.

(** the body of the loop over the rows of [hits_summary.tsv], lines 249-252;
    the result is the last value of [country] *)
Fixpoint hits_loop (rows : list (list string)) (country : option string)
  : outcome (option string) :=
  match rows with
  | [] => Done country
  | row :: rest =>
      if length row <? 7 then hits_loop rest country
      else match row !! 0 with
           | Some c => hits_loop rest (Some c)
           | None => Raised "list index out of range"
           end
  end.

Section Run.
Context (E : env).

(** [ensure_dir(path)] *)
Definition ensure_dir (path : string) : M unit := makedirs E path.

(** lines 98-115: the organism of the job, [None] when the species is not
    one of the five or the result file cannot be read *)
Definition resolve_organism (job_dir : string) : option string :=
  let result_file :=
    PosixPath.join3 job_dir "1.taxAssign" "taxAssign.result" in
  match read_text E result_file with
  | Done text => Py.dict_get mapping (species_key text)
  | Raised _ => None
  end.

Definition error_log (job_dir : string) : string :=
  PosixPath.join job_dir "error.log".

Definition failed_msg (label e : string) : string :=
  label +:+ " failed:" +:+ Py.nl +:+ e +:+ Py.nl.

(** *** the bodies of the [try] blocks *)

(** lines 74-89 *)
Definition taxAssign_body (job_dir fasta_path : string) : M unit :=
  let out_dir1 := PosixPath.join job_dir "1.taxAssign" in
  ensure_dir out_dir1 ;;
  let cmd1 :=
    [ "1.Taxonomic-Assignments.pl"; "-i"; fasta_path;
      "-d"; "/home/chieh/antibiogram_platform/databases/silva/silva_db_all";
      "-o"; out_dir1; "-p"; "12" ] in
  run E cmd1 ;;
  open_w E (PosixPath.join job_dir "taxAssign_ok") "".

(** lines 122-138 *)
Definition queryProfile_body (job_dir fasta_path organism : string) : M unit :=
  let out_dir2 := PosixPath.join job_dir "2.QueryProfile" in
  ensure_dir out_dir2 ;;
  let cmd2 :=
    [ "2.Query-Profiling.pl"; "-i"; fasta_path;
      "-d"; "/home/chieh/antibiogram_platform/databases/cgMLST_db";
      "-b"; organism; "-o"; out_dir2; "-p"; "12" ] in
  run E cmd2 ;;
  open_w E (PosixPath.join job_dir "queryProfile_ok") "".

(** lines 146-163 *)
Definition abProfilesCmp_body (job_dir fasta_path organism : string) : M unit :=
  let out_dir2 := PosixPath.join job_dir "2.QueryProfile" in
  let out_dir3 := PosixPath.join job_dir "3.abProfilesCmp" in
  ensure_dir out_dir3 ;;
  let allele_matrix := PosixPath.join out_dir2 "alleleMatrix.1" in
  let cmd3 :=
    [ "3.Antibiogram-Comparison-alleticDist.pl"; "-i"; fasta_path;
      "-j"; allele_matrix; "-b"; organism; "-o"; out_dir3; "-p"; "12" ] in
  run E cmd3 ;;
  open_w E (PosixPath.join job_dir "abProfilesCmp_ok") "".

(** lines 174-193 *)
Definition cgProfiles_body (job_dir organism : string) : M unit :=
  let out_dir2 := PosixPath.join job_dir "2.QueryProfile" in
  let out_dir3 := PosixPath.join job_dir "3.abProfilesCmp" in
  let out_dir4 := PosixPath.join job_dir "4.cgProfiles" in
  ensure_dir out_dir4 ;;
  let hits_table := PosixPath.join out_dir3 "hits_table.tsv" in
  let cmd4 :=
    [ "4.cgMLST-Profiler-alleticDist.pl"; "-i"; out_dir2;
      "-d"; "/home/chieh/antibiogram_platform/databases/cgMLST_db";
      "-h"; hits_table; "-b"; organism; "-o"; out_dir4; "-p"; "12" ] in
  run E cmd4 ;;
  open_w E (PosixPath.join job_dir "cgProfiles_ok") "".

(** lines 201-212 *)
Definition DendroPlot_body (job_dir : string) : M unit :=
  let out_dir4 := PosixPath.join job_dir "4.cgProfiles" in
  let out_dir5 := PosixPath.join job_dir "5.DendroPlot" in
  ensure_dir out_dir5 ;;
  let cmd5 := [ "5.Dendro-Plotter_NJ.pl"; "-i"; out_dir4; "-o"; out_dir5 ] in
  run E cmd5 ;;
  let cmd_heatmap :=
    [ "/home/ngp/R-4.3.2/bin/Rscript";
      "/home/ngp/R_code/5NosoAE/12_13_heatmap_new.R";
      PosixPath.abspath (getcwd E) job_dir ] in
  run E cmd_heatmap ;;
  open_w E (PosixPath.join job_dir "DendroPlot_ok") "".

(** lines 221-233 *)
Definition simpleCmp_body (job_dir fasta_path : string) : M unit :=
  let out_dir3 := PosixPath.join job_dir "3.abProfilesCmp" in
  ensure_dir out_dir3 ;;
  let cmd3_simple :=
    [ "3.Antibiogram-Comparison.pl"; "-i"; fasta_path;
      "-o"; out_dir3; "-p"; "12" ] in
  run E cmd3_simple ;;
  open_w E (PosixPath.join job_dir "abProfilesCmp_ok") "".

(** lines 241-252: [next(reader)] raises [StopIteration], whose text is
    empty, on a file without a first row *)
Definition parseHits_body (job_dir : string) : M unit :=
  let out_dir3 := PosixPath.join job_dir "3.abProfilesCmp" in
  let hits_summary_path := PosixPath.join out_dir3 "hits_summary.tsv" in
  fun w =>
    match read_csv E hits_summary_path with
    | Raised e => (w, Raised e)
    | Done [] => (w, Raised "")
    | Done (_header :: rows) =>
        match hits_loop rows None with
        | Done _ => (w, Done tt)
        | Raised e => (w, Raised e)
        end
    end.

(** lines 260-262 *)
Definition finalize (job_dir : string) : M unit :=
  let complete_flag := PosixPath.join job_dir "complete_ok" in
  open_w E complete_flag "" ;;
  open_w E (PosixPath.join job_dir "country") "".

(** [run_pipeline(job_dir)], lines 37-262.  The value read from
    [formData.json] (lines 62-70) is never used and has no effect. *)
Definition run_pipeline (job_dir : string) : M unit :=
  let job_dir := PosixPath.abspath (getcwd E) job_dir in
  let fasta_path := PosixPath.join job_dir "contigFile.fa" in
  try_or_return (taxAssign_body job_dir fasta_path)
    (fun e => open_w E (error_log job_dir)
                (failed_msg "Taxonomic Assignment" e))
  (fun _ =>
  let organism := resolve_organism job_dir in
  if is_known organism then
    let organism := default "" organism in
    try_or_return (queryProfile_body job_dir fasta_path organism)
      (fun e => open_a E (error_log job_dir) (failed_msg "Query-Profiling" e))
    (fun _ =>
    try_or_return (abProfilesCmp_body job_dir fasta_path organism)
      (fun e => open_a E (error_log job_dir)
                  (failed_msg "Ab-Comparison-alleticDist" e))
    (fun _ =>
    try_or_return (cgProfiles_body job_dir organism)
      (fun e => open_a E (error_log job_dir) (failed_msg "cgMLST-Profiler" e))
    (fun _ =>
    try_or_return (DendroPlot_body job_dir)
      (fun e => open_a E (error_log job_dir)
                  (failed_msg "Dendrogram or Heatmap" e))
    (fun _ => finalize job_dir))))
  else
    try_or_return (simpleCmp_body job_dir fasta_path)
      (fun e => open_a E (error_log job_dir)
                  (failed_msg "Simple Ab-Comparison" e))
    (fun _ =>
    try_or_return (parseHits_body job_dir)
      (fun e => open_a E (error_log job_dir)
                  (failed_msg "Parsing hits_summary" e))
    (fun _ => finalize job_dir))).

(** *** the [try] blocks as a list

    [run_pipeline] is a chain of blocks of one shape: a body, and a handler
    that writes [error.log] and returns.  [stages] lists them in the order
    the function tries them; [run_stages] is the chain written once.  The
    fields [marker] and [tools] only describe a body: the marker file it
    creates last and the programs it starts. *)
Inductive log_mode : Type := ModeW | ModeA.

Record stage : Type := {
  label : string;
  mode : log_mode;
  body : M unit;
  marker : option string;
  tools : list string
}.

Definition tax_stage (job_dir : string) : stage :=
  {| label := "Taxonomic Assignment"; mode := ModeW;
     body := taxAssign_body job_dir (PosixPath.join job_dir "contigFile.fa");
     marker := Some "taxAssign_ok";
     tools := ["1.Taxonomic-Assignments.pl"] |}.

Definition query_stage (job_dir organism : string) : stage :=
  {| label := "Query-Profiling"; mode := ModeA;
     body := queryProfile_body job_dir
               (PosixPath.join job_dir "contigFile.fa") organism;
     marker := Some "queryProfile_ok";
     tools := ["2.Query-Profiling.pl"] |}.

Definition allelic_stage (job_dir organism : string) : stage :=
  {| label := "Ab-Comparison-alleticDist"; mode := ModeA;
     body := abProfilesCmp_body job_dir
               (PosixPath.join job_dir "contigFile.fa") organism;
     marker := Some "abProfilesCmp_ok";
     tools := ["3.Antibiogram-Comparison-alleticDist.pl"] |}.

Definition cgmlst_stage (job_dir organism : string) : stage :=
  {| label := "cgMLST-Profiler"; mode := ModeA;
     body := cgProfiles_body job_dir organism;
     marker := Some "cgProfiles_ok";
     tools := ["4.cgMLST-Profiler-alleticDist.pl"] |}.

Definition dendro_stage (job_dir : string) : stage :=
  {| label := "Dendrogram or Heatmap"; mode := ModeA;
     body := DendroPlot_body job_dir;
     marker := Some "DendroPlot_ok";
     tools := ["5.Dendro-Plotter_NJ.pl"; "/home/ngp/R-4.3.2/bin/Rscript"] |}.

Definition simple_stage (job_dir : string) : stage :=
  {| label := "Simple Ab-Comparison"; mode := ModeA;
     body := simpleCmp_body job_dir (PosixPath.join job_dir "contigFile.fa");
     marker := Some "abProfilesCmp_ok";
     tools := ["3.Antibiogram-Comparison.pl"] |}.

Definition parse_stage (job_dir : string) : stage :=
  {| label := "Parsing hits_summary"; mode := ModeA;
     body := parseHits_body job_dir;
     marker := None;
     tools := [] |}.

Definition stages (job_dir : string) : list stage :=
  tax_stage job_dir ::
  let organism := resolve_organism job_dir in
  if is_known organism then
    let organism := default "" organism in
    [ query_stage job_dir organism; allelic_stage job_dir organism;
      cgmlst_stage job_dir organism; dendro_stage job_dir ]
  else
    [ simple_stage job_dir; parse_stage job_dir ].

(** the call that opens [error.log] in the handler of a stage *)
Definition log_op (job_dir : string) (s : stage) : io_op :=
  match mode s with
  | ModeW => OpenW (error_log job_dir)
  | ModeA => OpenA (error_log job_dir)
  end.

(** the [except] block of a stage *)
Definition log_failure (job_dir : string) (s : stage) (e : string) : M unit :=
  match mode s with
  | ModeW => open_w E (error_log job_dir) (failed_msg (label s) e)
  | ModeA => open_a E (error_log job_dir) (failed_msg (label s) e)
  end.

Fixpoint run_stages (job_dir : string) (ss : list stage) : M unit :=
  match ss with
  | [] => finalize job_dir
  | s :: rest =>
      try_or_return (body s) (log_failure job_dir s)
        (fun _ => run_stages job_dir rest)
  end.

(** the bodies alone, up to the first that raises: the world reached, the
    stages passed, and the stage that failed with the text of its exception *)
Fixpoint attempt (ss : list stage) (w : world)
  : world * list stage * option (stage * string) :=
  match ss with
  | [] => (w, [], None)
  | s :: rest =>
      match body s w with
      | (w1, Done _) =>
          match attempt rest w1 with
          | (w2, passed, failure) => (w2, s :: passed, failure)
          end
      | (w1, Raised e) => (w1, [], Some (s, e))
      end
  end.

(** *** words to state what a run does *)

(** where the job directory and its [error.log] are *)
Definition dir_loc (job_dir : string) : list string := loc_of E job_dir.
Definition log_loc (job_dir : string) : list string :=
  loc_of E (error_log job_dir).

(** the marker files of a list of stages, as paths *)
Definition marker_paths (job_dir : string) (ss : list stage) : list string :=
  map (PosixPath.join job_dir) (omap marker ss).

(** the programs of a list of stages *)
Definition all_tools (ss : list stage) : list string :=
  concat (map tools ss).

(** what a body may do: it appends to the trace, creates at most its marker
    (as its last act, and only when it does not raise), starts its tools in
    order, removes nothing, and leaves [error.log] alone *)
Definition sound (job_dir : string) (s : stage) : Prop :=
  forall w w' r, body s w = (w', r) ->
    exists evs,
      trace w' = trace w ++ evs
      /\ created evs = match r, marker s with
                       | Done _, Some m => [PosixPath.join job_dir m]
                       | _, _ => []
                       end
      /\ match r with
         | Done _ => programs evs = tools s
         | Raised _ => programs evs `prefix_of` tools s
         end
      /\ (forall k, is_Some (files w !! k) -> is_Some (files w' !! k))
      /\ match r, marker s with
         | Done _, Some m => present E w' (PosixPath.join job_dir m)
         | _, _ => True
         end
      /\ Fs.text_at (files w') (log_loc job_dir)
         = Fs.text_at (files w) (log_loc job_dir).

End Run.
End Pipeline.

(** ** A matcher for the regular expressions [re.match] is given here.
    A pattern of type [str] is matched character by character: the alphabet
    is a parameter, the characters of module [Utf8] where the matcher is
    used. *)
Module Re.

Inductive regex (A : Type) : Type :=
| Void
| Eps
| Chr (p : A -> bool)
| Cat (r1 r2 : regex A)
| Alt (r1 r2 : regex A).
Arguments Void {A}.
Arguments Eps {A}.
Arguments Chr {A} p.
Arguments Cat {A} r1 r2.
Arguments Alt {A} r1 r2.

Section Alphabet.
Context {A : Type}.

Definition Opt (r : regex A) : regex A := Alt r Eps.

(** [r{n}] *)
Fixpoint Rep (n : nat) (r : regex A) : regex A :=
  match n with
  | O => Eps
  | S k => Cat r (Rep k r)
  end.

Fixpoint nullable (r : regex A) : bool :=
  match r with
  | Void => false
  | Eps => true
  | Chr _ => false
  | Cat r1 r2 => nullable r1 && nullable r2
  | Alt r1 r2 => nullable r1 || nullable r2
  end.

Fixpoint deriv (c : A) (r : regex A) : regex A :=
  match r with
  | Void => Void
  | Eps => Void
  | Chr p => if p c then Eps else Void
  | Cat r1 r2 =>
      if nullable r1 then Alt (Cat (deriv c r1) r2) (deriv c r2)
      else Cat (deriv c r1) r2
  | Alt r1 r2 => Alt (deriv c r1) (deriv c r2)
  end.

(** the whole word is a word of [r] *)
Fixpoint fullmatch (r : regex A) (s : list A) : bool :=
  match s with
  | [] => nullable r
  | c :: s' => fullmatch (deriv c r) s'
  end.

End Alphabet.

(** one given character *)
Definition Lit (c : string) : regex string := Chr (String.eqb c).

End Re.

(** ** [routers/api_anitform.py] *)
Module Api.
Import Eff.
Local Open Scope eff_scope.

(** the answer of a request handler: its return value, an [HTTPException],
    or an exception nothing catches *)
Inductive http (A : Type) : Type :=
| Return (a : A)
| HTTPException (status_code : nat) (detail : string)
| Unhandled (e : string).
Arguments Return {A} a.
Arguments HTTPException {A} status_code detail.
Arguments Unhandled {A} e.

(** *** job identifiers *)

(** [string.digits + string.ascii_letters] *)
Definition pool : string :=
  "0123456789" +:+ "abcdefghijklmnopqrstuvwxyz" +:+ "ABCDEFGHIJKLMNOPQRSTUVWXYZ".

(** [random.choice(pool)] when the generator draws [r] *)
Definition random_choice (r : nat) : ascii :=
  default "0"%char (String.get (r mod String.length pool) pool).

(** [generate_random_keys(length)], lines 65-76; [draw k] is the [k]-th
    number the generator produces, [pos] the number of draws so far *)
Fixpoint generate_random_keys (draw : nat -> nat) (pos : nat) (length : nat)
  : string :=
  match length with
  | O => EmptyString
  | S k => String (random_choice (draw pos))
             (generate_random_keys draw (S pos) k)
  end.

Record idgen : Type := {
  (** the module-level dictionary [serial_counters] *)
  serial_counters : gmap string nat;
  (** draws of the random generator so far *)
  rng_pos : nat;
  (** readings of the clock so far *)
  clock_pos : nat
}.

Record sources : Type := {
  (** the [k]-th number of the random generator *)
  draw : nat -> nat;
  (** [datetime.now().strftime("%Y%m%d")] at the [k]-th reading *)
  today_at : nat -> string
}.

Definition jobs_folder (job_id : string) : string :=
  PosixPath.join "anti_form_jobs" job_id.

(** [generate_job_id()], lines 80-104.  The function calls itself when the
    folder exists; [fuel] is the depth the interpreter allows, and [None]
    the [RecursionError] beyond it. *)
Fixpoint generate_job_id (src : sources) (t : Fs.fs) (cwd : list string)
    (fuel : nat) (g : idgen) : idgen * option string :=
  match fuel with
  | O => (g, None)
  | S fuel' =>
      let today := today_at src (clock_pos g) in
      let counters :=
        match serial_counters g !! today with
        | None => <[today := 1]> (serial_counters g)
        | Some _ => serial_counters g
        end in
      let n := default 0 (counters !! today) in
      let seq := Py.format_02d n in
      let counters := <[today := n + 1]> counters in
      let p := rng_pos g in
      let job_id :=
        today +:+ seq +:+ "-" +:+
        generate_random_keys (draw src) p 4 +:+ "-" +:+
        generate_random_keys (draw src) (p + 4) 4 +:+ "-" +:+
        generate_random_keys (draw src) (p + 8) 8 in
      let g' := {| serial_counters := counters;
                   rng_pos := p + 16;
                   clock_pos := S (clock_pos g) |} in
      let folder := jobs_folder job_id in
      if negb (Fs.exists_ t cwd folder) then (g', Some job_id)
      else generate_job_id src t cwd fuel' g'
  end.

(** the sequence number the next identifier of a day gets *)
Definition next_seq (g : idgen) (day : string) : nat :=
  default 1 (serial_counters g !! day).

(** one pass through lines 88-92 and the twelve draws of line 94 *)
Definition tick (src : sources) (g : idgen) : idgen :=
  let today := today_at src (clock_pos g) in
  {| serial_counters := <[today := next_seq g today + 1]> (serial_counters g);
     rng_pos := rng_pos g + 16;
     clock_pos := S (clock_pos g) |}.

(** The format the comment on line 79 gives, [YYYYMMDDss-xxxx-xxxx-xxxxxxxx]:
    ten digits (the date and a sequence number of two digits), then three
    groups of 4, 4 and 8 characters of [[0-9A-Za-z]], with dashes between. *)
Definition job_id_format (job_id : string) : bool :=
  match Py.split "-"%char job_id with
  | [date_seq; k1; k2; k3] =>
      (String.length date_seq =? 10) && Py.string_forallb Py.isdigit date_seq
      && (String.length k1 =? 4) && Py.string_forallb Py.isalnum k1
      && (String.length k2 =? 4) && Py.string_forallb Py.isalnum k2
      && (String.length k3 =? 8) && Py.string_forallb Py.isalnum k3
  | _ => false
  end.

(** *** validation of the accession code *)

(** a character that is one of the ASCII digits: the class [[0-9]] *)
Definition ascii_digit (ch : string) : bool :=
  match ch with
  | String c EmptyString => Py.isdigit c
  | _ => false
  end.

(** The class [\d] of a [str] pattern: every decimal digit of the Unicode
    database (category Nd).  The ASCII digits are among them in every
    version of the database; which other characters are depends on the
    version the interpreter was built with, and [decimal] tells. *)
Definition unicode_digit (decimal : string -> bool) (ch : string) : bool :=
  ascii_digit ch || decimal ch.

(** [GCACODE_PATTERN], line 108: [^GC[AF]_[0-9]{9}(\.\d)?$].  Without
    [re.MULTILINE] the final [$] also matches before a line feed that ends
    the string, hence the optional line feed. *)
Definition GCACODE_PATTERN (decimal : string -> bool) : Re.regex string :=
  Re.Cat (Re.Lit "G") (Re.Cat (Re.Lit "C")
  (Re.Cat (Re.Chr (fun c => String.eqb c "A" || String.eqb c "F"))
  (Re.Cat (Re.Lit "_")
  (Re.Cat (Re.Rep 9 (Re.Chr ascii_digit))
  (Re.Cat (Re.Opt (Re.Cat (Re.Lit ".") (Re.Chr (unicode_digit decimal))))
          (Re.Opt (Re.Lit Py.nl))))))).

(** [validate_gca_code(gca_code)], lines 111-121: [re.match] on the
    characters of the code *)
Definition validate_gca_code (decimal : string -> bool) (gca_code : string)
  : bool :=
  match Utf8.chars gca_code with
  | Some cs => Re.fullmatch (GCACODE_PATTERN decimal) cs
  | None => false
  end.

(** *** the submission handler *)

(** an uploaded file: its name and what [await file.read()] gives *)
Record UploadFile : Type := {
  filename : string;
  read : outcome string
}.

Record UploadOutputModel : Type := {
  out_email : option string;
  out_gcaCode : string;
  out_location : option string;
  out_job_id : string;
  file_saved_path : string;
  message : string
}.

(** how the [perl] process of [download_genome_seq] ends *)
Inductive process : Type :=
| Exit0 (stdout : string)
| CalledProcessError (stderr : string)
| OtherError (e : string).

Record services : Type := {
  base : env;
  ids : sources;
  (** the depth of recursion the interpreter allows *)
  recursion_limit : nat;
  (** [json.dump(data, fp, ensure_ascii=False, indent=4)] as text *)
  json_dump : list (string * string) -> string;
  (** [subprocess.run(cmd, check=True, capture_output=True, text=True)] *)
  subprocess_capture : list string -> process;
  (** [send_email(subject, recipients, body)]: [Some e] when it raises *)
  send_email : string -> list string -> string -> option string;
  (** the characters outside ASCII that are decimal digits (category Nd) in
      the Unicode database of the interpreter *)
  unicode_decimal : string -> bool
}.

Record server : Type := {
  sys : world;
  counters : idgen;
  (** [router.analysis_queue] *)
  analysis_queue : list string
}.

(** [download_genome_seq(gca_code, output_folder)], lines 125-149 *)
Definition download_genome_seq (V : services) (gca_code output_folder : string)
  : outcome string :=
  let script_path := "/home/chieh/antibiogram_platform/bin/0.Download-GenomeSeq.pl" in
  match subprocess_capture V
          ["perl"; script_path; "-i"; gca_code; "-o"; output_folder] with
  | Exit0 stdout => Done stdout
  | CalledProcessError stderr => Raised ("Genome download failed: " +:+ stderr)
  | OtherError e => Raised e
  end.

(** the truth value of a string *)
Definition truthy (s : string) : bool := negb (String.eqb s "").

(** [upload_file(email, gcaCode, location, country, file)], lines 195-292 *)
Definition upload_file (V : services) (email : option string)
    (gcaCode : string) (location : option string) (country : string)
    (file : option UploadFile) (s : server)
  : server * http UploadOutputModel :=
  let E := base V in
  (* step 1 *)
  match generate_job_id (ids V) (files (sys s)) (cwd_loc E)
          (recursion_limit V) (counters s) with
  | (g, None) =>
      ({| sys := sys s; counters := g; analysis_queue := analysis_queue s |},
       Unhandled "maximum recursion depth exceeded")
  | (g, Some job_id) =>
  let folder := PosixPath.join "anti_form_jobs" job_id in
  match makedirs E folder (sys s) with
  | (w, Raised e) =>
      ({| sys := w; counters := g; analysis_queue := analysis_queue s |},
       Unhandled e)
  | (w, Done _) =>
  let s1 := {| sys := w; counters := g; analysis_queue := analysis_queue s |} in
  if truthy gcaCode && negb (validate_gca_code (unicode_decimal V) gcaCode) then
    (s1, HTTPException 400 "Invalid GCA Code format.")
  else
  (* step 2 *)
  let gca_value :=
    if truthy (Py.strip gcaCode) then gcaCode
    else match file with Some f => filename f | None => "" end in
  let data :=
    [ ("email", default "" email); ("gcaCode", gca_value);
      ("location", default "" location); ("country", country) ] in
  let json_path := PosixPath.join folder "formData.json" in
  match open_w E json_path (json_dump V data) w with
  | (w, Raised e) =>
      ({| sys := w; counters := g; analysis_queue := analysis_queue s |},
       Unhandled e)
  | (w, Done _) =>
  (* step 3 *)
  let fasta_path := PosixPath.join folder "contigFile.fa" in
  let saved : world * option string :=
    match file with
    | Some f =>
        match read f with
        | Raised e => (w, Some ("Fasta saving failed: " +:+ e))
        | Done contents =>
            match open_w E fasta_path contents w with
            | (w', Done _) => (w', None)
            | (w', Raised e) => (w', Some ("Fasta saving failed: " +:+ e))
            end
        end
    | None =>
        match download_genome_seq V gcaCode folder with
        | Done _ => (w, None)
        | Raised e => (w, Some ("Genome download failed: " +:+ e))
        end
    end in
  match saved with
  | (w, Some detail) =>
      ({| sys := w; counters := g; analysis_queue := analysis_queue s |},
       HTTPException 500 detail)
  | (w, None) =>
  (* step 4 *)
  let s4 := {| sys := w; counters := g;
               analysis_queue := analysis_queue s ++ [folder] |} in
  (* step 5 *)
  let mailed : option string :=
    match email with
    | Some addr =>
        if truthy addr then
          let subject := "crossNoso: Your job " +:+ job_id +:+ " is submitted." in
          let body :=
            "Dear User,<br><br>" +:+
            "Your job ID is <b>" +:+ job_id +:+ "</b>.<br>" +:+
            "You can check the status via:<br>" +:+
            "<a href=" +:+ String "034"%char
              ("http://localhost:8080/sampleoutput?folder=" +:+ job_id) +:+
              String "034"%char ">" +:+
            "http://localhost:8080/sampleoutput?folder=" +:+ job_id +:+
            "</a><br><br>" +:+
            "Once finished, you will receive another email with results link.<br><br>" +:+
            "Thanks,<br>crossNoso Server" in
          send_email V subject [addr] body
        else None
    | None => None
    end in
  match mailed with
  | Some e => (s4, HTTPException 502 ("Email sending failed: " +:+ e))
  | None =>
  (* step 6 *)
  (s4, Return {| out_email := email;
                 out_gcaCode := gcaCode;
                 out_location := location;
                 out_job_id := job_id;
                 file_saved_path := folder;
                 message := "Your job " +:+ job_id +:+
                            " has been submitted. Please check status later." |})
  end end end end end.

(** *** the worker *)

Definition ANALYSIS_WORKER_COUNT : nat := 5.

(** one turn of the loop of [analysis_worker], lines 310-320, for the folder
    the queue handed out *)
Definition analysis_worker (E : env) (folder : string) : M unit :=
  try_finally
    (try_except
       (Pipeline.run_pipeline E folder ;;
        open_w E (PosixPath.join folder "complete_ok") "")
       (fun e =>
          let err_path := PosixPath.join folder "pipeline_error.log" in
          open_w E err_path e))
    (fun w => (log EvTaskDone w, Done tt)).

(** *** status and download *)

(** [check_status(job_id)], lines 338-352: the dictionary it returns *)
Definition check_status (t : Fs.fs) (cwd : list string) (job_id : string)
  : http (list (string * string)) :=
  let folder := PosixPath.join "anti_form_jobs" job_id in
  if negb (Fs.isdir t cwd folder) then HTTPException 404 "Job ID not found."
  else if Fs.exists_ t cwd (PosixPath.join folder "complete_ok")
       then Return [("status", "done"); ("job_id", job_id)]
       else Return [("status", "running"); ("job_id", job_id)].

(** [FileResponse(path=..., filename=...)] *)
Record FileResponse : Type := {
  path : string;
  download_name : string
}.

(** What a [FileResponse] sends when the framework runs it: the contents of
    the regular file at [path].  On a directory it sends nothing (it raises
    [RuntimeError], the path being no file). *)
Definition served (t : Fs.fs) (cwd : list string) (r : FileResponse)
  : option string :=
  match Fs.stat t cwd (path r) with
  | Some (Fs.File content) => Some content
  | _ => None
  end.

(** a value of the path parameter [{filename}] of the route: a segment of
    the path of the request, so without a slash *)
Definition segment (filename : string) : bool :=
  Py.string_forallb (fun c => negb (Ascii.eqb c PosixPath.sep)) filename.

(** [download_file(job_id, filename)], lines 391-404 *)
Definition download_file (t : Fs.fs) (cwd : list string)
    (job_id filename : string) : http FileResponse :=
  let folder := PosixPath.join "anti_form_jobs" job_id in
  if negb (Fs.isdir t cwd folder) then HTTPException 404 "Job ID not found."
  else
    let file_path := PosixPath.join folder filename in
    if negb (Fs.exists_ t cwd file_path) then HTTPException 404 "File not found."
    else Return {| path := file_path; download_name := filename |}.

End Api.

(** ** The queue, the five worker coroutines and the thread pool
    ([start_analysis_workers] and [analysis_worker], lines 303-330) as a
    transition system.  A worker coroutine is suspended in
    [analysis_queue.get()], or it has handed [run_pipeline(folder)] to the
    executor and awaits the future.  The executor keeps the calls handed
    to it in its own queue; one of its threads, of which there are at most
    [max_workers], takes the first of them when it is free.  Nothing in
    the state bounds the number of calls that run: what bounds it is the
    transitions. *)
Module Pool.

Inductive worker : Type :=
| Waiting
| Awaiting (folder : string).

#[global] Instance worker_eq_dec : EqDecision worker.
Proof. solve_decision. Defined.

(** a work item of the executor: the call [run_pipeline(folder)] and the
    worker coroutine that awaits its future *)
Record item : Type := {
  awaited_by : nat;
  folder : string
}.

#[global] Instance item_eq_dec : EqDecision item.
Proof. solve_decision. Defined.

Record state : Type := {
  (** [router.analysis_queue] *)
  analysis_queue : list string;
  (** the tasks [start_analysis_workers] created *)
  workers : list worker;
  (** the work queue of the executor: calls no thread has taken yet *)
  work_queue : list item;
  (** the calls of [run_pipeline] in progress, one in each busy thread *)
  running : list item;
  (** the calls that have ended and whose worker has not resumed yet *)
  finished : list item
}.

(** the number of pipelines that run at this instant *)
Definition executing (s : state) : nat := length (running s).

(** the jobs taken from the queue whose turn of the worker has not ended *)
Definition in_flight (s : state) : list item :=
  work_queue s ++ running s ++ finished s.

(** every work item belongs to a worker that awaits it, and no worker has
    two *)
Definition owned (ws : list worker) (l : list item) : Prop :=
  NoDup (map awaited_by l)
  /\ Forall (fun it => ws !! awaited_by it = Some (Awaiting (folder it))) l.

Section Machine.
(** the number of worker coroutines and [max_workers] of the executor *)
Context (worker_count max_workers : nat).

(** [start_analysis_workers()] *)
Definition start_analysis_workers : state :=
  {| analysis_queue := []; workers := replicate worker_count Waiting;
     work_queue := []; running := []; finished := [] |}.

Inductive step : state -> state -> Prop :=
| step_put s folder :
    (* [await router.analysis_queue.put(folder)] in [upload_file] *)
    step s {| analysis_queue := analysis_queue s ++ [folder];
              workers := workers s;
              work_queue := work_queue s;
              running := running s;
              finished := finished s |}
| step_get s i folder rest :
    (* [folder = await router.analysis_queue.get()] and the call of
       [run_in_executor], which submits the work item *)
    workers s !! i = Some Waiting ->
    analysis_queue s = folder :: rest ->
    step s {| analysis_queue := rest;
              workers := <[i := Awaiting folder]> (workers s);
              work_queue := work_queue s
                            ++ [{| awaited_by := i; folder := folder |}];
              running := running s;
              finished := finished s |}
| step_start s it rest :
    (* a thread of the executor takes the first work item *)
    work_queue s = it :: rest ->
    length (running s) < max_workers ->
    step s {| analysis_queue := analysis_queue s;
              workers := workers s;
              work_queue := rest;
              running := running s ++ [it];
              finished := finished s |}
| step_finish s it before after :
    (* [run_pipeline(folder)] returns or raises; its thread is free *)
    running s = before ++ it :: after ->
    step s {| analysis_queue := analysis_queue s;
              workers := workers s;
              work_queue := work_queue s;
              running := before ++ after;
              finished := finished s ++ [it] |}
| step_resume s it before after :
    (* the worker is past the [await]: marker written, [task_done()], next
       turn of [while True] *)
    finished s = before ++ it :: after ->
    workers s !! awaited_by it = Some (Awaiting (folder it)) ->
    step s {| analysis_queue := analysis_queue s;
              workers := <[awaited_by it := Waiting]> (workers s);
              work_queue := work_queue s;
              running := running s;
              finished := before ++ after |}.

Inductive reachable : state -> Prop :=
| reach_start : reachable start_analysis_workers
| reach_step s s' : reachable s -> step s s' -> reachable s'.

End Machine.

(** the system as line 303 and lines 327-330 configure it *)
Definition system_reachable : state -> Prop :=
  reachable Api.ANALYSIS_WORKER_COUNT Api.ANALYSIS_WORKER_COUNT.

End Pool.

(** ** Concrete jobs, used to run the definitions *)
Module Scenario.
Import Eff.

Definition cwd : string := "/srv/myanti_backend".
Definition job_id : string := "2025010101-aB3d-E5f6-g7H8i9J0".
Definition folder : string := "anti_form_jobs/2025010101-aB3d-E5f6-g7H8i9J0".
Definition job_dir : string :=
  "/srv/myanti_backend/anti_form_jobs/2025010101-aB3d-E5f6-g7H8i9J0".

Definition jobs_loc : list string := ["srv"; "myanti_backend"; "anti_form_jobs"].
Definition job_loc : list string := jobs_loc ++ [job_id].

(** the job directory as [upload_file] leaves it *)
Definition submitted : Fs.fs :=
  <[job_loc ++ ["contigFile.fa"] := Fs.File ">contig1"]>
  (<[job_loc ++ ["formData.json"] := Fs.File "{}"]>
  (Fs.makedirs ∅ job_loc)).

Definition start : world := {| files := submitted; trace := [] |}.

Definition tax_result : string :=
  PosixPath.join3 job_dir "1.taxAssign" "taxAssign.result".

Definition reads (species : string) (path : string) : outcome string :=
  if String.eqb path tax_result
  then Done (species +:+ Py.tab_s +:+ "0.99" +:+ Py.nl +:+ "second line" +:+ Py.nl)
  else Raised "[Errno 2] No such file or directory".

(** a table whose second data row is short *)
Definition hits_rows : list (list string) :=
  [ ["Country"; "Strain"; "Year"; "Source"; "Host"; "ST"; "Distance"];
    ["Taiwan"; "S1"; "2019"; "blood"; "human"; "ST2"; "0.01"];
    ["broken"; "row"];
    ["Japan"; "S2"; "2020"; "urine"; "human"; "ST2"; "0.02"] ].

Definition all_fine (species : string) : env :=
  {| getcwd := cwd;
     subprocess_run := fun _ => None;
     os_error := fun _ => None;
     read_text := reads species;
     read_csv := fun _ => Done hits_rows |}.

(** a recognised organism: branch A *)
Definition env_AB : env := all_fine "Acinetobacter_baumannii".

(** an organism that is not in the table: branch B *)
Definition env_unknown : env := all_fine "Unknown_species".

(** branch B with a [hits_summary.tsv] that can be read and is empty *)
Definition env_no_rows : env :=
  {| getcwd := cwd;
     subprocess_run := fun _ => None;
     os_error := fun _ => None;
     read_text := reads "Unknown_species";
     read_csv := fun _ => Done [] |}.

Definition exit_status_2 : string :=
  "Command returned non-zero exit status 2.".

(** the classifier of stage 1 exits with status 2 *)
Definition env_tax_fails : env :=
  {| getcwd := cwd;
     subprocess_run := fun cmd =>
       if String.eqb (program cmd) "1.Taxonomic-Assignments.pl"
       then Some exit_status_2 else None;
     os_error := fun _ => None;
     read_text := reads "Acinetobacter_baumannii";
     read_csv := fun _ => Done hits_rows |}.

Definition denied : string := "[Errno 13] Permission denied".

(** the classifier exits with status 2 and [error.log] cannot be opened *)
Definition env_log_denied : env :=
  {| getcwd := cwd;
     subprocess_run := subprocess_run env_tax_fails;
     os_error := fun op =>
       match op with
       | OpenW p | OpenA p =>
           if String.eqb p (PosixPath.join job_dir "error.log")
           then Some denied else None
       | MakeDirs _ => None
       end;
     read_text := reads "Acinetobacter_baumannii";
     read_csv := fun _ => Done hits_rows |}.

(** the job directory with an [error.log] of an earlier run *)
Definition with_old_log : world :=
  {| files := <[job_loc ++ ["error.log"] := Fs.File "old"]> submitted;
     trace := [] |}.

(** a second job beside the first *)
Definition other_id : string := "2025010102-Zz9y-Xx8w-Vv7uTt6s".

Definition two_jobs : Fs.fs :=
  <[jobs_loc ++ [other_id; "formData.json"] := Fs.File "{}"]>
  (Fs.makedirs submitted (jobs_loc ++ [other_id])).

(** the location of [cwd] *)
Definition here : list string := ["srv"; "myanti_backend"].

(** a clock that stays on one day and a generator that counts in sevens *)
Definition clock : Api.sources :=
  {| Api.draw := fun k => 7 * k + 3; Api.today_at := fun _ => "20250101" |}.

(** the process has just started *)
Definition first_of_day : Api.idgen :=
  {| Api.serial_counters := ∅; Api.rng_pos := 0; Api.clock_pos := 0 |}.

(** an interpreter that knows the Arabic-Indic digits U+0660 to U+0669
    (the bytes 217 160 to 217 169) beside the ASCII digits *)
Definition arabic_indic (ch : string) : bool :=
  match ch with
  | String b0 (String b1 EmptyString) =>
      (nat_of_ascii b0 =? 217) && Utf8.between 160 169 b1
  | _ => false
  end.

(** the services of a server on which everything works *)
Definition services0 : Api.services :=
  {| Api.base := env_AB;
     Api.ids := clock;
     Api.recursion_limit := 1000;
     Api.json_dump := fun _ => "{}";
     Api.subprocess_capture := fun _ => Api.Exit0 "";
     Api.send_email := fun _ _ _ => None;
     Api.unicode_decimal := arabic_indic |}.

Definition no_space : string := "[Errno 28] No space left on device".

(** the same server on a disk that is full: no directory can be made *)
Definition services_full_disk : Api.services :=
  {| Api.base :=
       {| getcwd := cwd;
          subprocess_run := fun _ => None;
          os_error := fun op =>
            match op with MakeDirs _ => Some no_space | _ => None end;
          read_text := reads "Acinetobacter_baumannii";
          read_csv := fun _ => Done hits_rows |};
     Api.ids := clock;
     Api.recursion_limit := 1000;
     Api.json_dump := fun _ => "{}";
     Api.subprocess_capture := fun _ => Api.Exit0 "";
     Api.send_email := fun _ _ _ => None;
     Api.unicode_decimal := arabic_indic |}.

Definition server0 : Api.server :=
  {| Api.sys := start; Api.counters := first_of_day; Api.analysis_queue := [] |}.

Definition upload0 : Api.UploadFile :=
  {| Api.filename := "genome.fa"; Api.read := Done ">contig1" |}.

(** ninety-nine identifiers were handed out today *)
Definition busy_day : Api.idgen :=
  {| Api.serial_counters := {["20250101" := 100]};
     Api.rng_pos := 0; Api.clock_pos := 0 |}.

(** seven jobs were submitted; five run, two wait *)
Definition full_house : Pool.state :=
  {| Pool.analysis_queue := ["job6"; "job7"];
     Pool.workers := [Pool.Awaiting "job1"; Pool.Awaiting "job2";
                      Pool.Awaiting "job3"; Pool.Awaiting "job4";
                      Pool.Awaiting "job5"];
     Pool.work_queue := [];
     Pool.running :=
       [ {| Pool.awaited_by := 0; Pool.folder := "job1" |};
         {| Pool.awaited_by := 1; Pool.folder := "job2" |};
         {| Pool.awaited_by := 2; Pool.folder := "job3" |};
         {| Pool.awaited_by := 3; Pool.folder := "job4" |};
         {| Pool.awaited_by := 4; Pool.folder := "job5" |} ];
     Pool.finished := [] |}.

End Scenario.

(** ** What a computation may do: relations between the world before and
    the world after *)
Module Frame.
Import Eff.

(** every run of [m] is a step of [R] *)
Definition steps {A} (R : world -> world -> Prop) (m : M A) : Prop :=
  forall w w' r, m w = (w', r) -> R w w'.

(** the trace grows by events that all satisfy [P] *)
Definition emits (P : event -> Prop) (w w' : world) : Prop :=
  exists evs, trace w' = trace w ++ evs /\ Forall P evs.

(** [k] lies strictly below the directory at [d] *)
Definition below (d k : list string) : Prop := d `prefix_of` k /\ k <> d.

(** the files change only below the directory at [d]: nothing is removed
    anywhere, and at or outside [d] a node stays as it is, but for a missing
    directory on the way to [d], which may be made *)
Definition confined (d : list string) (w w' : world) : Prop :=
  (forall k, is_Some (files w !! k) -> is_Some (files w' !! k))
  /\ (forall k, ~ below d k ->
        files w' !! k = files w !! k
        \/ (files w !! k = None /\ files w' !! k = Some Fs.Dir
            /\ k `prefix_of` d)).

(** an event that names a path names one strictly below the directory at
    [d]: the directories made, the files created and the files appended to.
    A program started and [task_done] name no path. *)
Definition writes_below (E : env) (d : list string) (ev : event) : Prop :=
  match ev with
  | EvMkdir p | EvCreate p | EvAppend p => below d (loc_of E p)
  | EvRun _ | EvTaskDone => True
  end.

(** an event of a stage body: a directory made, a program started, a file
    created; never an append, never [task_done] *)
Definition body_event (ev : event) : Prop :=
  match ev with
  | EvAppend _ | EvTaskDone => False
  | _ => True
  end.

(** an event of [run_pipeline]: anything but [task_done] *)
Definition pipeline_event (ev : event) : Prop := ev <> EvTaskDone.

End Frame.

(** ** The words of a regular expression *)
Module ReSem.
Import Re.

Fixpoint lang {A} (r : regex A) (s : list A) : Prop :=
  match r with
  | Void => False
  | Eps => s = []
  | Chr p => exists c, s = [c] /\ p c = true
  | Cat r1 r2 => exists s1 s2, s = s1 ++ s2 /\ lang r1 s1 /\ lang r2 s2
  | Alt r1 r2 => lang r1 s \/ lang r2 s
  end.

End ReSem.

(** ** Parts of [generate_job_id] and [upload_file] by name *)
Module Parts.
Import Api.

(** the identifier one pass of [generate_job_id] puts together, line 94 *)
Definition candidate (src : sources) (g : idgen) : string :=
  let today := today_at src (clock_pos g) in
  today +:+ Py.format_02d (next_seq g today) +:+ "-" +:+
  generate_random_keys (draw src) (rng_pos g) 4 +:+ "-" +:+
  generate_random_keys (draw src) (rng_pos g + 4) 4 +:+ "-" +:+
  generate_random_keys (draw src) (rng_pos g + 8) 8.

(** what [formData.json] is made of, lines 223-229 *)
Definition form_data (email : option string) (gcaCode : string)
    (location : option string) (country : string) (file : option UploadFile)
  : list (string * string) :=
  [ ("email", default "" email);
    ("gcaCode", if truthy (Py.strip gcaCode) then gcaCode
                else match file with Some f => filename f | None => "" end);
    ("location", default "" location); ("country", country) ].

End Parts.

(** ** A file system that is a tree *)
Module FsTree.
Import Fs.

(** every node that is stored lies in a directory: no file without its
    folder *)
Definition tree (t : fs) : Prop :=
  map_Forall (fun k _ => is_dir t (removelast k) = true) t.

#[global] Instance tree_dec t : Decision (tree t).
Proof. unfold tree. apply _. Defined.

(** every name in the file system is a name: not empty, not [.] or [..],
    without a slash *)
Definition named (t : fs) : Prop :=
  map_Forall (fun k _ => forallb PosixPath.is_name k = true) t.

#[global] Instance named_dec t : Decision (named t).
Proof. unfold named. apply _. Defined.

End FsTree.

(** ** [routers/api_search.py] *)
Module Search.

(** line 8: [os.path.join(".", "anti_form_jobs")] *)
Definition BASE_FOLDER : string := PosixPath.join "." "anti_form_jobs".

Record JobIDCheckResponse : Type := { exists_ : bool }.

(** [check_job_id(job_id)], lines 31-47 *)
Definition check_job_id (t : Fs.fs) (cwd : list string) (job_id : string)
  : JobIDCheckResponse :=
  let folder_path := PosixPath.join BASE_FOLDER job_id in
  {| exists_ := Fs.isdir t cwd folder_path |}.

End Search.

(** ** The list of result files: [get_result] of [routers/api_anitform.py]
    with [os.walk], [os.path.relpath] and [str.endswith] *)
Module Listing.
Import Fs.

(** [s.endswith(suffix)] *)
Fixpoint endswith (s suffix : string) : bool :=
  String.eqb s suffix
  || match s with
     | String _ r => endswith r suffix
     | EmptyString => false
     end.

(** [s.endswith((a, b, ...))] *)
Definition endswith_any (s : string) (suffixes : list string) : bool :=
  existsb (endswith s) suffixes.

(** the names in the directory at [loc], each with its node.  The order in
    which the system lists a directory is not specified; the order here is
    that of the map. *)
Definition entries (t : fs) (loc : list string) : list (string * node) :=
  omap (fun kn : list string * node =>
          match last kn.1 with
          | Some n => if decide (kn.1 = loc ++ [n]) then Some (n, kn.2) else None
          | None => None
          end)
       (map_to_list t).

(** [os.scandir(path)]; [None] is the [OSError] of a path that is no
    directory *)
Definition scandir (t : fs) (cwd : list string) (path : string)
  : option (list (string * node)) :=
  match resolve t cwd path with
  | Some loc => if is_dir t loc then Some (entries t loc) else None
  | None => None
  end.

Definition is_Dir (n : node) : bool :=
  match n with Dir => true | File _ => false end.

(** the directories and the other entries of the directory at [loc] *)
Definition dirs_at (t : fs) (loc : list string) : list string :=
  map fst (filter (fun e : string * node => is_Dir e.2 = true) (entries t loc)).

Definition files_at (t : fs) (loc : list string) : list string :=
  map fst (filter (fun e : string * node => is_Dir e.2 = false) (entries t loc)).

(** [os.walk(top)], top down, errors of [scandir] ignored, as the default
    is: the triples [(root, dirs, files)] in the order they are yielded.
    [fuel] bounds the depth. *)
Fixpoint os_walk (fuel : nat) (t : fs) (cwd : list string) (top : string)
  : list (string * list string * list string) :=
  match fuel with
  | O => []
  | S fuel' =>
      match scandir t cwd top with
      | None => []
      | Some ents =>
          let dirs := map fst (filter (fun e => is_Dir e.2 = true) ents) in
          let nondirs := map fst (filter (fun e => is_Dir e.2 = false) ents) in
          (top, dirs, nondirs)
          :: flat_map (fun d => os_walk fuel' t cwd (PosixPath.join top d)) dirs
      end
  end.

(** the length of [os.path.commonprefix([l1, l2])] *)
Fixpoint commonprefix_len (l1 l2 : list string) : nat :=
  match l1, l2 with
  | a :: r1, b :: r2 => if String.eqb a b then S (commonprefix_len r1 r2) else 0
  | _, _ => 0
  end.

(** [[x for x in abspath(p).split(sep) if x]] *)
Definition abs_parts (getcwd p : string) : list string :=
  filter (fun x => x <> "") (Py.split PosixPath.sep (PosixPath.abspath getcwd p)).

(** [os.path.join] applied to all the parts *)
Definition join_all (parts : list string) : string :=
  match parts with
  | [] => ""
  | c :: cs => fold_left PosixPath.join cs c
  end.

(** [os.path.relpath(path, start)]; [None] is the [ValueError] of an empty
    path *)
Definition relpath (getcwd path start : string) : option string :=
  if String.eqb path "" then None
  else
    let start_list := abs_parts getcwd start in
    let path_list := abs_parts getcwd path in
    let i := commonprefix_len start_list path_list in
    let rel_list := replicate (length start_list - i) ".." ++ drop i path_list in
    match rel_list with
    | [] => Some "."
    | _ => Some (join_all rel_list)
    end.

Definition extensions : list string := [".tsv"; ".png"; ".pdf"; ".out"; ".html"].

Record ResultFiles : Type := {
  job_id : string;
  files : list string
}.

(** lines 379-382: the loop over the files of one directory; [None] when
    [relpath] raises *)
Definition pick (getcwd folder root : string) (fnames : list string)
  : option (list string) :=
  fold_right
    (fun fname acc =>
       match acc with
       | None => None
       | Some l =>
           if endswith_any fname extensions then
             match relpath getcwd (PosixPath.join root fname) folder with
             | Some rel_path => Some (rel_path :: l)
             | None => None
             end
           else Some l
       end)
    (Some []) fnames.

(** lines 378-382: the loop over what [os.walk] yields *)
Fixpoint collect (getcwd folder : string)
    (yielded : list (string * list string * list string))
  : option (list string) :=
  match yielded with
  | [] => Some []
  | (root, _, fnames) :: rest =>
      match pick getcwd folder root fnames, collect getcwd folder rest with
      | Some l, Some r => Some (l ++ r)
      | _, _ => None
      end
  end.

(** [get_result(job_id)], lines 360-383 *)
Definition get_result (getcwd : string) (t : fs) (job_id : string)
  : Api.http ResultFiles :=
  let cwd := PosixPath.locate [] getcwd in
  let folder := PosixPath.join "anti_form_jobs" job_id in
  if negb (isdir t cwd folder) then Api.HTTPException 404 "Job ID not found."
  else if negb (Fs.exists_ t cwd (PosixPath.join folder "complete_ok"))
  then Api.HTTPException 402 "job not completed yet. Please wait."
  else
    match collect getcwd folder (os_walk (S (size t)) t cwd folder) with
    | Some all_files => Api.Return {| job_id := job_id; files := all_files |}
    | None => Api.Unhandled "no path specified"
    end.

End Listing.

(** ** [routers/result_pages/api_query_page.py] *)
Module QueryPage.
Import Api.

(** The line boundaries of [str.splitlines], by their encodings: LF, VT,
    FF, CR, FS, GS and RS (U+000A to U+000D, U+001C to U+001E), NEL
    (U+0085), LS (U+2028) and PS (U+2029). *)
Definition linebreaks : list string :=
  map Utf8.bytes
    [ [10]; [11]; [12]; [13]; [28]; [29]; [30];
      [194; 133]; [226; 128; 168]; [226; 128; 169] ].

Definition is_linebreak (ch : string) : bool := bool_decide (ch ∈ linebreaks).

(** [s.splitlines()] on the characters of [s]; [after_cr] tells that the
    character before was a CR, whose LF belongs to the same boundary *)
Fixpoint lines_from (after_cr : bool) (cs : list string) : list string :=
  match cs with
  | [] => []
  | c :: r =>
      if after_cr && String.eqb c Py.nl then lines_from false r
      else if is_linebreak c then EmptyString :: lines_from (String.eqb c Py.cr) r
      else match lines_from false r with
           | [] => [c]
           | l :: ls => (c +:+ l) :: ls
           end
  end.

Definition splitlines (s : string) : list string :=
  match Utf8.chars s with
  | Some cs => lines_from false cs
  | None => []
  end.

(** the translation of line endings a file opened in text mode applies when
    it is read: [\r\n] and [\r] become [\n] *)
Fixpoint universal_newlines (s : string) : string :=
  match s with
  | EmptyString => EmptyString
  | String c r =>
      if Ascii.eqb c Py.carriage_return then
        String Py.newline
          match r with
          | String d r' =>
              if Ascii.eqb d Py.newline then universal_newlines r'
              else universal_newlines r
          | EmptyString => EmptyString
          end
      else String c (universal_newlines r)
  end.

(** [open(path, "r", encoding="utf-8").read()] on the bytes of the file:
    the text they encode, line endings translated; [None] is the
    [UnicodeDecodeError] of bytes that are not UTF-8 *)
Definition read_text (bytes : string) : option string :=
  match Utf8.chars bytes with
  | Some _ => Some (universal_newlines bytes)
  | None => None
  end.

(** the message of line 41 *)
Definition ragged_detail (idx expected actual : nat) : string :=
  "query_table.tsv 第 " +:+ Py.str_of_nat idx +:+ " 列欄位數不符 (預期 "
  +:+ Py.str_of_nat expected +:+ "，實際 " +:+ Py.str_of_nat actual +:+ ")".

(** the loop of lines 36-43, from the line numbered [idx] on *)
Fixpoint rows_from (expected idx : nat) (lines : list string)
  : http (list (list string)) :=
  match lines with
  | [] => Return []
  | ln :: rest =>
      let cols := Py.split Py.tab ln in
      if negb (length cols =? expected)
      then HTTPException 500 (ragged_detail idx expected (length cols))
      else match rows_from expected (S idx) rest with
           | Return table => Return (cols :: table)
           | failed => failed
           end
  end.

(** [parse_query_table(job_id)], lines 13-44; [BASE_FOLDER] is the jobs
    folder below the directory of the backend.  Nothing catches the
    [UnicodeDecodeError] of line 30; its text is not modelled, the name of
    the class stands for it. *)
Definition parse_query_table (BASE_FOLDER : string) (t : Fs.fs)
    (cwd : list string) (job_id : string) : http (list (list string)) :=
  let path :=
    PosixPath.join
      (PosixPath.join (PosixPath.join BASE_FOLDER job_id) "3.abProfilesCmp")
      "query_table.tsv" in
  match Fs.stat t cwd path with
  | Some (Fs.File bytes) =>
      match read_text bytes with
      | None => Unhandled "UnicodeDecodeError"
      | Some text =>
          let lines := splitlines text in
          match lines with
          | [] => HTTPException 500 "query_table.tsv 為空檔案"
          | first :: _ =>
              let expected := length (Py.split Py.tab first) in
              rows_from expected 1 lines
          end
      end
  | _ => HTTPException 404 "找不到 query_table.tsv 檔案"
  end.

End QueryPage.

(** ** More concrete cases *)
Module Cases.
Import Eff Scenario.

(** the services of a server that cannot reach the genome archive *)
Definition services_offline : Api.services :=
  {| Api.base := env_AB;
     Api.ids := clock;
     Api.recursion_limit := 1000;
     Api.json_dump := fun _ => "{}";
     Api.subprocess_capture := fun _ => Api.CalledProcessError "HTTP 404";
     Api.send_email := fun _ _ _ => None;
     Api.unicode_decimal := arabic_indic |}.

(** the first worker has taken a job and handed it to the executor *)
Definition handed_over : Pool.state :=
  {| Pool.analysis_queue := [];
     Pool.workers := [Pool.Awaiting "job1"; Pool.Waiting; Pool.Waiting;
                      Pool.Waiting; Pool.Waiting];
     Pool.work_queue := [ {| Pool.awaited_by := 0; Pool.folder := "job1" |} ];
     Pool.running := [];
     Pool.finished := [] |}.

(** the letter A with a ring, U+00C5: the bytes 195 133 *)
Definition a_ring : string := Utf8.bytes [195; 133].

(** a table with a cell that is not ASCII and with the line endings of
    another system *)
Definition query_table : string :=
  "Gene" +:+ Py.tab_s +:+ "Class" +:+ Py.cr +:+ Py.nl +:+
  "blaOXA-23" +:+ Py.tab_s +:+ a_ring +:+ Py.cr +:+ Py.nl.

(** a table whose third line lacks a field *)
Definition ragged_table : string :=
  "Gene" +:+ Py.tab_s +:+ "Class" +:+ Py.nl +:+
  "blaOXA-23" +:+ Py.tab_s +:+ "beta-lactam" +:+ Py.nl +:+
  "armA" +:+ Py.nl.

Definition cmp_loc : list string := job_loc ++ ["3.abProfilesCmp"].

(** the folder of a job that went through branch B *)
Definition finished : Fs.fs :=
  <[job_loc ++ ["complete_ok"] := Fs.File ""]>
  (<[job_loc ++ ["report.html"] := Fs.File "<html></html>"]>
  (<[cmp_loc ++ ["query_table.tsv"] := Fs.File query_table]>
  (<[cmp_loc ++ ["hits_summary.tsv"] := Fs.File "Country"]>
  (<[cmp_loc ++ ["blast.log"] := Fs.File "done"]>
  (Fs.makedirs submitted cmp_loc))))).

(** the same folder with a table that is not rectangular *)
Definition finished_ragged : Fs.fs :=
  <[cmp_loc ++ ["query_table.tsv"] := Fs.File ragged_table]> finished.

Definition base_folder : string := "/srv/myanti_backend/anti_form_jobs".

End Cases.

(** * Properties *)

(** ** Strings and path names *)
Module PathFacts.
Import Py PosixPath.

Lemma append_cons x (a b : string) : String x a +:+ b = String x (a +:+ b).
Proof. reflexivity. Qed.

Lemma append_nil_l (b : string) : "" +:+ b = b.
Proof. reflexivity. Qed.

Lemma append_assoc (a b c : string) : (a +:+ b) +:+ c = a +:+ (b +:+ c).
Proof.
  induction a as [|x a IH]; [reflexivity |].
  by rewrite !append_cons, IH.
Qed.

Lemma append_inv_head (a b c : string) : a +:+ b = a +:+ c -> b = c.
Proof.
  induction a as [|x a IH]; [by rewrite !append_nil_l |].
  rewrite !append_cons. intros H. injection H as H. by apply IH.
Qed.

Lemma split_not_nil c s : split c s <> [].
Proof.
  destruct s as [|d s]; simpl; [discriminate |].
  destruct (Ascii.eqb d c); [discriminate |].
  destruct (split c s); discriminate.
Qed.

Lemma split_app_sep c a b :
  split c (a +:+ String c b) = split c a ++ split c b.
Proof.
  induction a as [|d a IH]; simpl.
  - by rewrite Ascii.eqb_refl.
  - destruct (Ascii.eqb d c); [by rewrite IH |].
    rewrite IH. pose proof (split_not_nil c a) as Hne.
    destruct (split c a) as [|w ws]; [done | reflexivity].
Qed.

Lemma split_no_sep c s :
  string_forallb (fun d => negb (Ascii.eqb d c)) s = true -> split c s = [s].
Proof.
  induction s as [|d s IH]; simpl; [reflexivity |].
  intros [Hd Hs]%andb_true_iff.
  destruct (Ascii.eqb d c); [discriminate |].
  by rewrite (IH Hs).
Qed.

Lemma endswith_char_inv c s :
  endswith_char c s = true -> exists a, s = a +:+ String c "".
Proof.
  induction s as [|d s IH]; simpl; [discriminate |].
  destruct s as [|e s'].
  - intros H%Ascii.eqb_eq. subst d. by exists "".
  - intros H. destruct (IH H) as [a Ha]. exists (String d a). simpl. by rewrite Ha.
Qed.

Lemma isabs_app a b : a <> "" -> isabs (a +:+ b) = isabs a.
Proof. destruct a; [done | reflexivity]. Qed.

Lemma is_name_rel n : is_name n = true -> isabs n = false.
Proof.
  unfold is_name, isabs. destruct n as [|c n]; [reflexivity |].
  cbn [string_forallb startswith_char].
  intros H. apply andb_true_iff in H as [_ H].
  apply andb_true_iff in H as [H _].
  apply negb_true_iff in H. by rewrite Ascii.eqb_sym.
Qed.

Lemma is_name_split n : is_name n = true -> split sep n = [n].
Proof.
  unfold is_name. intros H. apply andb_true_iff in H as [_ H].
  by apply split_no_sep.
Qed.

Lemma step_name loc n : is_name n = true -> step loc n = loc ++ [n].
Proof.
  unfold is_name, step. intros H. repeat (apply andb_true_iff in H as [H ?]).
  apply negb_true_iff in H, H1, H2. by rewrite H, H1, H2.
Qed.

(** joining a relative path to a directory: its components are walked from
    where the directory is *)
Lemma locate_join cwd d f :
  isabs f = false ->
  locate cwd (join d f) = fold_left step (split sep f) (locate cwd d).
Proof.
  intros Hf. unfold join. rewrite Hf.
  destruct (String.eqb_spec d "") as [-> | Hd].
  - rewrite orb_true_l, append_nil_l. unfold locate. by rewrite Hf.
  - rewrite orb_false_l. destruct (endswith_char sep d) eqn:He.
    + destruct (endswith_char_inv _ _ He) as [a ->].
      unfold locate. rewrite append_assoc, append_cons, append_nil_l.
      rewrite !split_app_sep, !fold_left_app.
      assert (Habs : isabs (a +:+ String sep f) = isabs (a +:+ String sep "")).
      { destruct a; reflexivity. }
      rewrite Habs. reflexivity.
    + unfold locate. change (d +:+ "/" +:+ f) with (d +:+ String sep f).
      rewrite split_app_sep, fold_left_app.
      assert (Habs : isabs (d +:+ String sep f) = isabs d) by by apply isabs_app.
      by rewrite Habs.
Qed.

(** a file of a directory lies directly below the directory *)
Lemma locate_join_name cwd d n :
  is_name n = true -> locate cwd (join d n) = locate cwd d ++ [n].
Proof.
  intros Hn. rewrite locate_join by by apply is_name_rel.
  rewrite (is_name_split _ Hn). simpl. by apply step_name.
Qed.

Lemma join_rel a b :
  isabs b = false ->
  join a b = (if String.eqb a "" || endswith_char sep a then a else a +:+ "/") +:+ b.
Proof.
  intros Hb. unfold join. rewrite Hb.
  destruct (String.eqb a "" || endswith_char sep a); [reflexivity |].
  by rewrite append_assoc.
Qed.

(** two relative names joined to the same directory differ when they differ *)
Lemma join_inj d a b :
  isabs a = false -> isabs b = false -> join d a = join d b -> a = b.
Proof.
  intros Ha Hb. rewrite (join_rel d a Ha), (join_rel d b Hb).
  apply append_inv_head.
Qed.

(** without [..] a walk never leaves the place it starts from *)
Lemma fold_step_prefix comps loc :
  ".." ∉ comps -> loc `prefix_of` fold_left step comps loc.
Proof.
  revert loc. induction comps as [|c cs IH]; intros loc Hno; simpl.
  - reflexivity.
  - assert (Hc : c <> "..") by (intros ->; apply Hno; left).
    assert (Hcs : ".." ∉ cs) by (intros ?; apply Hno; by right).
    specialize (IH (step loc c) Hcs).
    etrans; [| exact IH].
    unfold step. destruct (String.eqb c "" || String.eqb c "."); [reflexivity |].
    destruct (String.eqb_spec c ".."); [done |].
    by apply prefix_app_r.
Qed.

End PathFacts.

(** ** The file system *)
Module FsFacts.
Import Fs.

Lemma walk_fold t comps :
  forall loc loc', walk t loc comps = Some loc' ->
                   loc' = fold_left PosixPath.step comps loc.
Proof.
  induction comps as [|c cs IH]; intros loc loc'; simpl.
  - by intros [= ->].
  - destruct (is_dir t loc); [apply IH | discriminate].
Qed.

(** where the kernel arrives is where the path name points lexically *)
Lemma resolve_locate t cwd p loc :
  resolve t cwd p = Some loc -> loc = PosixPath.locate cwd p.
Proof.
  unfold resolve, PosixPath.locate.
  destruct (String.eqb p ""); [discriminate | apply walk_fold].
Qed.

Lemma ancestors_snoc loc x : ancestors (loc ++ [x]) = ancestors loc ++ [loc ++ [x]].
Proof.
  induction loc as [|c r IH]; simpl; [reflexivity |].
  by rewrite IH, map_app.
Qed.

Lemma ancestors_length loc k : k ∈ ancestors loc -> length k <= length loc.
Proof.
  revert k. induction loc as [|c r IH]; intros k; simpl.
  - by intros ?%elem_of_nil.
  - intros [-> | Hk]%elem_of_cons; [simpl; lia |].
    apply list_elem_of_fmap in Hk as (k' & -> & Hk').
    simpl. specialize (IH _ Hk'). lia.
Qed.

Lemma makedirs_fold t loc : makedirs t loc = fold_left mkdir1 (ancestors loc) t.
Proof. reflexivity. Qed.

Lemma mkdir1_keep m p k n : m !! k = Some n -> mkdir1 m p !! k = Some n.
Proof.
  intros Hk. unfold mkdir1. destruct (m !! p) eqn:Hp; [done |].
  rewrite lookup_insert_ne; [done | congruence].
Qed.

Lemma fold_mkdir1_keep ps : forall m k n,
  m !! k = Some n -> fold_left mkdir1 ps m !! k = Some n.
Proof.
  induction ps as [|p ps IH]; intros m k n Hk; simpl; [done |].
  by apply IH, mkdir1_keep.
Qed.

(** what exists is left as it is *)
Lemma makedirs_keep t loc k n :
  t !! k = Some n -> makedirs t loc !! k = Some n.
Proof. rewrite makedirs_fold. apply fold_mkdir1_keep. Qed.

Lemma fold_mkdir1_other ps : forall m k,
  k ∉ ps -> fold_left mkdir1 ps m !! k = m !! k.
Proof.
  induction ps as [|p ps IH]; intros m k Hk; simpl; [done |].
  rewrite IH by (intros ?; apply Hk; by right).
  unfold mkdir1. destruct (m !! p); [done |].
  apply lookup_insert_ne. intros ->. apply Hk. left.
Qed.

(** only the directory and the directories above it are touched *)
Lemma makedirs_other t loc k :
  k ∉ ancestors loc -> makedirs t loc !! k = t !! k.
Proof. rewrite makedirs_fold. apply fold_mkdir1_other. Qed.

Lemma mkdir1_self m p : is_Some (mkdir1 m p !! p).
Proof.
  unfold mkdir1. destruct (m !! p) eqn:Hp; [by rewrite Hp |].
  by rewrite lookup_insert_eq.
Qed.

(** afterwards the directory is there *)
Lemma makedirs_self t loc : loc <> [] -> is_Some (makedirs t loc !! loc).
Proof.
  intros Hne. destruct (exists_last Hne) as (l & x & ->).
  rewrite makedirs_fold, ancestors_snoc, fold_left_app. simpl.
  apply mkdir1_self.
Qed.

(** a sibling of a directory is not on the way to it *)
Lemma sibling_not_ancestor loc a b :
  a <> b -> loc ++ [a] ∉ ancestors (loc ++ [b]).
Proof.
  intros Hab. rewrite ancestors_snoc. intros [H | H]%elem_of_app.
  - apply ancestors_length in H. rewrite length_app in H. simpl in H. lia.
  - apply list_elem_of_singleton in H. apply app_inj_tail in H as [_ ?]. done.
Qed.

End FsFacts.

(** ** The effects of the calls *)
Module EffFacts.
Import Eff PathFacts FsFacts.

Lemma emitted_app w w' evs : trace w' = trace w ++ evs -> emitted w w' = evs.
Proof. unfold emitted. intros ->. by rewrite drop_app_length. Qed.

Lemma emitted_refl w : emitted w w = [].
Proof. apply emitted_app. by rewrite app_nil_r. Qed.

Lemma created_app a b : created (a ++ b) = created a ++ created b.
Proof. apply omap_app. Qed.

Lemma runs_app a b : runs (a ++ b) = runs a ++ runs b.
Proof. apply omap_app. Qed.

Lemma programs_app a b : programs (a ++ b) = programs a ++ programs b.
Proof. unfold programs. by rewrite runs_app, map_app. Qed.

Lemma write_keep t loc text k :
  is_Some (t !! k) -> is_Some (Fs.write t loc text !! k).
Proof.
  unfold Fs.write. intros H. destruct (decide (loc = k)) as [-> | Hne].
  - by rewrite lookup_insert_eq.
  - by rewrite lookup_insert_ne.
Qed.

Lemma append_keep t loc text k :
  is_Some (t !! k) -> is_Some (Fs.append t loc text !! k).
Proof.
  unfold Fs.append. intros H. destruct (decide (loc = k)) as [-> | Hne].
  - by rewrite lookup_insert_eq.
  - by rewrite lookup_insert_ne.
Qed.

Lemma makedirs_keep_some t loc k :
  is_Some (t !! k) -> is_Some (Fs.makedirs t loc !! k).
Proof. intros [n Hn]. exists n. by apply makedirs_keep. Qed.

Lemma write_self t loc text : is_Some (Fs.write t loc text !! loc).
Proof. unfold Fs.write. by rewrite lookup_insert_eq. Qed.

Lemma append_self t loc text : is_Some (Fs.append t loc text !! loc).
Proof. unfold Fs.append. by rewrite lookup_insert_eq. Qed.

Lemma text_write_other t loc text k :
  loc <> k -> Fs.text_at (Fs.write t loc text) k = Fs.text_at t k.
Proof. intros Hne. unfold Fs.text_at, Fs.write. by rewrite lookup_insert_ne. Qed.

Lemma text_write_eq t loc text : Fs.text_at (Fs.write t loc text) loc = text.
Proof. unfold Fs.text_at, Fs.write. by rewrite lookup_insert_eq. Qed.

Lemma text_append_eq t loc text :
  Fs.text_at (Fs.append t loc text) loc = Fs.text_at t loc +:+ text.
Proof. unfold Fs.text_at at 1, Fs.append. by rewrite lookup_insert_eq. Qed.

Lemma text_makedirs_other t loc k :
  k ∉ Fs.ancestors loc -> Fs.text_at (Fs.makedirs t loc) k = Fs.text_at t k.
Proof. intros H. unfold Fs.text_at. by rewrite makedirs_other. Qed.

End EffFacts.

(** ** The pipeline runner: [run_pipeline] *)
Module PipelineFacts.
Import Eff Pipeline PathFacts FsFacts EffFacts.
#[local] Opaque PosixPath.join PosixPath.abspath.

Section Bodies.
Context (E : env) (jd : string).

Lemma loc_name n :
  PosixPath.is_name n = true ->
  loc_of E (PosixPath.join jd n) = dir_loc E jd ++ [n].
Proof. intros Hn. unfold dir_loc, loc_of. by apply locate_join_name. Qed.

Lemma log_loc_name : log_loc E jd = dir_loc E jd ++ ["error.log"].
Proof. unfold log_loc, error_log. by apply loc_name. Qed.

Ltac oracle H :=
  match type of H with
  | context [match os_error ?e ?op with _ => _ end] =>
      destruct (os_error e op) eqn:?; cbv beta iota in H
  | context [match subprocess_run ?e ?c with _ => _ end] =>
      destruct (subprocess_run e c) eqn:?; cbv beta iota in H
  end.

Ltac names_differ :=
  first
    [ apply sibling_not_ancestor; discriminate
    | let H := fresh in
      intros H; apply app_inj_tail in H as [_ H]; discriminate H ].

Ltac frame_text :=
  rewrite ?loc_name by reflexivity; rewrite log_loc_name;
  repeat first
    [ rewrite text_write_other by names_differ
    | rewrite text_makedirs_other by names_differ ];
  reflexivity.

Ltac body_cases :=
  let w := fresh "w" in let w' := fresh "w'" in
  let r := fresh "r" in let H := fresh "H" in
  intros w w' r H;
  cbv beta iota zeta delta
    [body marker tools tax_stage query_stage allelic_stage cgmlst_stage
     dendro_stage simple_stage taxAssign_body queryProfile_body
     abProfilesCmp_body cgProfiles_body DendroPlot_body simpleCmp_body bind
     ensure_dir makedirs run open_w log] in H |- *;
  repeat oracle H; injection H as <- <-; cbv beta iota; cbn [files trace];
  eexists;
  (split; [rewrite <- ?app_assoc; first [reflexivity | symmetry; apply app_nil_r] |]);
  (split; [reflexivity |]);
  (split; [first [reflexivity | by (eexists; reflexivity)] |]);
  (split; [intros ? ?; eauto using write_keep, makedirs_keep_some |]);
  (split; [first [exact I | unfold present; cbn [files]; unfold Fs.write;
                             rewrite lookup_insert_eq; eauto] |]);
  frame_text.

Lemma parseHits_sound : sound E jd (parse_stage E jd).
Proof.
  intros w w' r H. unfold parse_stage in *. cbn [body marker tools] in *.
  assert (Hw : w' = w).
  { unfold parseHits_body in H.
    destruct (read_csv E _) as [[|hd rows]|e]; [| destruct (hits_loop rows None) |];
      by injection H as <- _. }
  subst w'. exists []. rewrite app_nil_r.
  repeat split; try done; destruct r; done.
Qed.

(** every block of [run_pipeline] keeps to these rules *)
Lemma stages_sound : Forall (sound E jd) (stages E jd).
Proof.
  unfold stages. constructor.
  - body_cases.
  - destruct (is_known (resolve_organism E jd)); repeat constructor.
    all: first [apply parseHits_sound | body_cases].
Qed.

Lemma elem_of_created p evs : EvCreate p ∈ evs <-> p ∈ created evs.
Proof.
  unfold created. rewrite list_elem_of_omap. split.
  - intros H. by exists (EvCreate p).
  - intros (ev & Hev & Hp). destruct ev; try discriminate.
    by injection Hp as ->.
Qed.

(** the chain of blocks: the bodies up to the first that raises, then its
    handler, or the last two lines of the function when none raised *)
Lemma run_stages_attempt ss : forall w,
  run_stages E jd ss w =
  match attempt ss w with
  | (w1, _, None) => finalize E jd w1
  | (w1, _, Some (s, e)) => log_failure E jd s e w1
  end.
Proof.
  induction ss as [|s rest IH]; intros w; simpl; [reflexivity |].
  unfold try_or_return. destruct (body s w) as [w1 [[]|e]]; [| reflexivity].
  rewrite IH. by destruct (attempt rest w1) as [[w2 passed] [[s' e']|]].
Qed.

Lemma attempt_sound ss : Forall (sound E jd) ss -> forall w w1 passed f,
  attempt ss w = (w1, passed, f) ->
  exists evs,
    trace w1 = trace w ++ evs
    /\ created evs = marker_paths jd passed
    /\ programs evs `prefix_of`
         all_tools (passed ++ match f with Some (s, _) => [s] | None => [] end)
    /\ (forall k, is_Some (files w !! k) -> is_Some (files w1 !! k))
    /\ Forall (fun m => present E w1 (PosixPath.join jd m)) (omap marker passed)
    /\ Fs.text_at (files w1) (log_loc E jd) = Fs.text_at (files w) (log_loc E jd)
    /\ match f with
       | None => ss = passed
       | Some (s, e) => exists rest, ss = passed ++ s :: rest
       end.
Proof.
  induction 1 as [|s rest Hs Hrest IH]; intros w w1 passed f Hat; simpl in Hat.
  - injection Hat as <- <- <-. exists []. rewrite app_nil_r.
    repeat split; done.
  - destruct (body s w) as [w0 [[]|e]] eqn:Hb.
    + destruct (attempt rest w0) as [[w2 passed'] f'] eqn:Hat'.
      injection Hat as <- <- <-.
      destruct (Hs _ _ _ Hb) as (evs1 & Ht1 & Hc1 & Hp1 & Hk1 & Hm1 & Hx1).
      destruct (IH _ _ _ _ Hat') as (evs2 & Ht2 & Hc2 & Hp2 & Hk2 & Hm2 & Hx2 & Hf).
      exists (evs1 ++ evs2). split; [by rewrite Ht2, Ht1, app_assoc |].
      split.
      { rewrite created_app, Hc1, Hc2. unfold marker_paths. simpl.
        by destruct (marker s). }
      split.
      { rewrite programs_app, Hp1. unfold all_tools in *. simpl.
        by apply prefix_app. }
      split; [eauto |].
      split.
      { simpl. destruct (marker s) as [m|]; [| done].
        constructor; [| done]. unfold present in *. eauto. }
      split; [by rewrite Hx2 |].
      destruct f' as [[s' e']|].
      * destruct Hf as [rest' ->]. by exists rest'.
      * by subst.
    + injection Hat as <- <- <-.
      destruct (Hs _ _ _ Hb) as (evs1 & Ht1 & Hc1 & Hp1 & Hk1 & Hm1 & Hx1).
      exists evs1. unfold all_tools. simpl. rewrite app_nil_r.
      repeat split; try done. by exists rest.
Qed.

Lemma markers_stages :
  omap marker (stages E jd) =
  if is_known (resolve_organism E jd)
  then ["taxAssign_ok"; "queryProfile_ok"; "abProfilesCmp_ok";
        "cgProfiles_ok"; "DendroPlot_ok"]
  else ["taxAssign_ok"; "abProfilesCmp_ok"].
Proof. unfold stages. by destruct (is_known (resolve_organism E jd)). Qed.

Lemma all_tools_stages :
  all_tools (stages E jd) =
  if is_known (resolve_organism E jd)
  then ["1.Taxonomic-Assignments.pl"; "2.Query-Profiling.pl";
        "3.Antibiogram-Comparison-alleticDist.pl";
        "4.cgMLST-Profiler-alleticDist.pl"; "5.Dendro-Plotter_NJ.pl";
        "/home/ngp/R-4.3.2/bin/Rscript"]
  else ["1.Taxonomic-Assignments.pl"; "3.Antibiogram-Comparison.pl"].
Proof.
  unfold all_tools, stages.
  by destruct (is_known (resolve_organism E jd)).
Qed.

(** no stage marker is [complete_ok] *)
Lemma complete_ok_not_a_marker passed rest :
  stages E jd = passed ++ rest ->
  PosixPath.join jd "complete_ok" ∉ marker_paths jd passed.
Proof.
  intros Hss Hin.
  assert (Hall : PosixPath.join jd "complete_ok" ∈ marker_paths jd (stages E jd)).
  { rewrite Hss. unfold marker_paths. rewrite omap_app, map_app.
    apply elem_of_app. by left. }
  unfold marker_paths in Hall. rewrite markers_stages in Hall.
  apply list_elem_of_fmap in Hall as (m & Hm & Hin').
  assert (Hname : PosixPath.is_name m = true /\ m <> "complete_ok").
  { destruct (is_known (resolve_organism E jd));
      repeat (apply elem_of_cons in Hin' as [-> | Hin']; [by split |]);
      by apply elem_of_nil in Hin'. }
  destruct Hname as [Hname Hne]. apply Hne. symmetry.
  apply (join_inj jd); [reflexivity | by apply is_name_rel | exact Hm].
Qed.

(** lines 260-262 *)
Lemma finalize_sound w w' r :
  finalize E jd w = (w', r) ->
  exists evs,
    trace w' = trace w ++ evs
    /\ created evs `prefix_of`
         [PosixPath.join jd "complete_ok"; PosixPath.join jd "country"]
    /\ (os_error E (OpenW (PosixPath.join jd "complete_ok")) = None ->
        PosixPath.join jd "complete_ok" ∈ created evs
        /\ present E w' (PosixPath.join jd "complete_ok"))
    /\ programs evs = []
    /\ (forall k, is_Some (files w !! k) -> is_Some (files w' !! k))
    /\ Fs.text_at (files w') (log_loc E jd) = Fs.text_at (files w) (log_loc E jd).
Proof.
  intros H.
  cbv beta iota zeta delta [finalize bind open_w] in H.
  repeat oracle H; injection H as <- <-; cbn [files trace];
  eexists;
  (split; [rewrite <- ?app_assoc; first [reflexivity | symmetry; apply app_nil_r] |]);
  (split; [by (eexists; reflexivity) |]);
  (split; [intros ?; first [congruence | split; [by left |];
            unfold present; cbn [files]; eauto using write_keep, write_self] |]);
  (split; [reflexivity |]);
  (split; [intros ? ?; eauto using write_keep |]);
  frame_text.
Qed.

(** the [except] block of a stage *)
Lemma log_failure_sound s e w w' r :
  log_failure E jd s e w = (w', r) ->
  match os_error E (log_op jd s) with
  | Some x => w' = w /\ r = Raised x
  | None =>
      r = Done tt
      /\ trace w' = trace w ++ [match mode s with
                                | ModeW => EvCreate (error_log jd)
                                | ModeA => EvAppend (error_log jd)
                                end]
      /\ files w' = match mode s with
                    | ModeW => Fs.write (files w) (log_loc E jd) (failed_msg (label s) e)
                    | ModeA => Fs.append (files w) (log_loc E jd) (failed_msg (label s) e)
                    end
  end.
Proof.
  unfold log_failure, log_op, open_w, open_a, log_loc.
  destruct (mode s); intros H; oracle H; by injection H as <- <-.
Qed.

Lemma prefix_NoDup {A} (l1 l2 : list A) : l1 `prefix_of` l2 -> NoDup l2 -> NoDup l1.
Proof. intros [k ->] H. by apply NoDup_app in H as [H _]. Qed.

Lemma prefix_of_two {A} (l : list A) a b :
  l `prefix_of` [a; b] -> l = [] \/ l = [a] \/ l = [a; b].
Proof.
  intros [k Hk]. destruct l as [|x [|y [|z l]]]; simplify_eq/=; auto.
Qed.

(** the handler of a stage creates no [complete_ok] *)
Lemma log_event_not_complete (s : stage) :
  EvCreate (PosixPath.join jd "complete_ok") <>
  match mode s with
  | ModeW => EvCreate (error_log jd)
  | ModeA => EvAppend (error_log jd)
  end.
Proof.
  destruct (mode s); [| discriminate]. intros [= H].
  by apply (join_inj jd) in H.
Qed.

End Bodies.

Section Runner.
Context (E : env) (job_dir : string).
Local Abbreviation jd := (PosixPath.abspath (getcwd E) job_dir).
Local Abbreviation fasta := (PosixPath.join jd "contigFile.fa").

(** [run_pipeline] is the chain of its blocks *)
Lemma run_pipeline_stages w :
  run_pipeline E job_dir w = run_stages E jd (stages E jd) w.
Proof.
  unfold run_pipeline, stages. cbv zeta.
  by destruct (is_known (resolve_organism E jd)).
Qed.

(** C4.  When the organism of the job is one of the five and the run
    creates [complete_ok], the files the run created are, in this order,
    [taxAssign_ok], [queryProfile_ok], [abProfilesCmp_ok], [cgProfiles_ok],
    [DendroPlot_ok], [complete_ok] (and then [country], if that succeeds);
    and the four markers of branch A are present in the job directory. *)
Theorem branch_A_markers_in_order w w' r :
  is_known (resolve_organism E jd) = true ->
  run_pipeline E job_dir w = (w', r) ->
  EvCreate (PosixPath.join jd "complete_ok") ∈ emitted w w' ->
  (exists rest,
     created (emitted w w') =
     map (PosixPath.join jd)
       ["taxAssign_ok"; "queryProfile_ok"; "abProfilesCmp_ok";
        "cgProfiles_ok"; "DendroPlot_ok"; "complete_ok"] ++ rest)
  /\ Forall (fun m => present E w' (PosixPath.join jd m))
       ["queryProfile_ok"; "abProfilesCmp_ok"; "cgProfiles_ok"; "DendroPlot_ok"].
Proof.
  intros Hknown Hrun Hdone.
  rewrite run_pipeline_stages, run_stages_attempt in Hrun.
  destruct (attempt (stages E jd) w) as [[w1 passed] f] eqn:Hat.
  destruct (attempt_sound E jd _ (stages_sound E jd) _ _ _ _ Hat)
    as (evs1 & Ht1 & Hc1 & _ & _ & Hm1 & _ & Hss).
  destruct f as [[s e]|].
  - (* a stage failed: no [complete_ok] was created *)
    exfalso. destruct Hss as [rest Hss].
    pose proof (complete_ok_not_a_marker E jd _ _ Hss) as Hno.
    rewrite <- Hc1, <- elem_of_created in Hno.
    apply log_failure_sound in Hrun.
    destruct (os_error E (log_op jd s)).
    + destruct Hrun as [-> _].
      rewrite (emitted_app _ _ _ Ht1) in Hdone. done.
    + destruct Hrun as (_ & Ht2 & _). rewrite Ht1, <- app_assoc in Ht2.
      rewrite (emitted_app _ _ _ Ht2) in Hdone.
      apply elem_of_app in Hdone as [? | Hin]; [done |].
      apply list_elem_of_singleton in Hin.
      by apply (log_event_not_complete jd s).
  - (* all stages passed *)
    subst passed.
    apply finalize_sound in Hrun
      as (evs2 & Ht2 & Hc2 & _ & _ & Hk2 & _).
    rewrite Ht1, <- app_assoc in Ht2.
    rewrite (emitted_app _ _ _ Ht2) in Hdone |- *.
    pose proof (complete_ok_not_a_marker E jd (stages E jd) []
                  ltac:(by rewrite app_nil_r)) as Hno.
    rewrite <- Hc1, <- elem_of_created in Hno.
    apply elem_of_app in Hdone as [? | Hin]; [done |].
    apply elem_of_created in Hin.
    rewrite markers_stages, Hknown in Hm1.
    split.
    + rewrite created_app, Hc1. unfold marker_paths.
      rewrite markers_stages, Hknown.
      apply prefix_of_two in Hc2 as [Hc | [Hc | Hc]]; rewrite Hc in Hin |- *.
      * by apply elem_of_nil in Hin.
      * by exists [].
      * by exists [PosixPath.join jd "country"].
    + apply Forall_cons in Hm1 as [_ Hm1].
      eapply Forall_impl; [exact Hm1 |]. unfold present. eauto.
Qed.

Lemma stages_unknown :
  is_known (resolve_organism E jd) = false ->
  stages E jd = [tax_stage E jd; simple_stage E jd; parse_stage E jd].
Proof. intros H. unfold stages. by rewrite H. Qed.

(** branch B after the first stage *)
Lemma run_pipeline_branch_B w w1 :
  taxAssign_body E jd fasta w = (w1, Done tt) ->
  is_known (resolve_organism E jd) = false ->
  run_pipeline E job_dir w
  = run_stages E jd [simple_stage E jd; parse_stage E jd] w1
  /\ sound E jd (simple_stage E jd) /\ sound E jd (parse_stage E jd)
  /\ exists evs0, trace w1 = trace w ++ evs0
                  /\ created evs0 = [PosixPath.join jd "taxAssign_ok"].
Proof.
  intros Htax Hunknown.
  pose proof (stages_sound E jd) as Hsound.
  rewrite (stages_unknown Hunknown) in Hsound.
  apply Forall_cons in Hsound as [Hs0 Hsound].
  apply Forall_cons in Hsound as [Hs1 Hsound].
  apply Forall_cons in Hsound as [Hs2 _].
  rewrite run_pipeline_stages, (stages_unknown Hunknown).
  cbn [run_stages]. unfold try_or_return at 1.
  change (body (tax_stage E jd) w) with (taxAssign_body E jd fasta w). rewrite Htax.
  repeat split; try done.
  destruct (Hs0 _ _ _ Htax) as (evs0 & Ht0 & Hc0 & _). eauto.
Qed.

Ltac not_created :=
  let H := fresh in
  intros H; repeat (apply elem_of_cons in H as [H | H];
                    [by apply (join_inj jd) in H |]);
  by apply elem_of_nil in H.


Lemma hits_loop_total rows : forall c, exists c', hits_loop rows c = Done c'.
Proof.
  induction rows as [|row rest IH]; intros c; simpl; [by eexists |].
  destruct (length row <? 7) eqn:Hlen; [apply IH |].
  apply Nat.ltb_ge in Hlen.
  destruct row as [|x row]; [simpl in Hlen; lia | apply IH].
Qed.

(** a row of fewer than seven fields changes nothing: the loop goes on with
    the next row *)
Lemma hits_loop_skip row rest c :
  length row < 7 -> hits_loop (row :: rest) c = hits_loop rest c.
Proof. intros H%Nat.ltb_lt. simpl. by rewrite H. Qed.

(** the loop sees the table as if the short rows were not there *)
Lemma hits_loop_filter rows : forall c,
  hits_loop rows c = hits_loop (filter (fun row => 7 <= length row) rows) c.
Proof.
  induction rows as [|row rest IH]; intros c; [reflexivity |].
  rewrite filter_cons. destruct (decide (7 <= length row)) as [Hge | Hlt].
  - simpl. apply Nat.ltb_ge in Hge. rewrite Hge.
    destruct (row !! 0); [apply IH | reflexivity].
  - rewrite hits_loop_skip by lia. apply IH.
Qed.


Lemma all_tools_app (l1 l2 : list stage) :
  all_tools (l1 ++ l2) = all_tools l1 ++ all_tools l2.
Proof. unfold all_tools. by rewrite map_app, concat_app. Qed.

Lemma all_tools_NoDup : NoDup (all_tools (stages E jd)).
Proof.
  rewrite all_tools_stages.
  destruct (is_known (resolve_organism E jd));
    apply (bool_decide_unpack _); vm_compute; exact I.
Qed.

(** only the first handler opens [error.log] with ["w"] *)
Lemma stage_modes :
  Forall (fun s => mode s = ModeW <-> label s = "Taxonomic Assignment")
    (stages E jd).
Proof.
  unfold stages. destruct (is_known (resolve_organism E jd));
    repeat constructor; cbn [mode label]; done.
Qed.

(** C7, amended.  When a stage is the first whose body raises (a tool that
    exits with a non-zero status, or an I/O error), and [error.log] can be
    opened by the handler of that stage, then [run_pipeline] returns without
    raising; [error.log] then holds the message with the label of the stage
    and the text of the exception, after what the file held before for a
    stage that appends, alone for the first stage, which opens it with
    ["w"]; the handler is the last thing the run does, the programs started
    are those of the stages up to the failing one, each at most once; and
    [complete_ok] is not created. *)
Theorem failed_stage_is_logged w w1 passed s e :
  attempt (stages E jd) w = (w1, passed, Some (s, e)) ->
  os_error E (log_op jd s) = None ->
  exists w',
    run_pipeline E job_dir w = (w', Done tt)
    /\ Fs.text_at (files w') (loc_of E (error_log jd))
       = match mode s with
         | ModeW => ""
         | ModeA => Fs.text_at (files w) (loc_of E (error_log jd))
         end +:+ failed_msg (label s) e
    /\ present E w' (error_log jd)
    /\ (mode s = ModeW <-> label s = "Taxonomic Assignment")
    /\ (exists evs,
          emitted w w' = evs ++ [match mode s with
                                 | ModeW => EvCreate (error_log jd)
                                 | ModeA => EvAppend (error_log jd)
                                 end]
          /\ created evs = marker_paths jd passed
          /\ programs evs `prefix_of` all_tools (passed ++ [s]))
    /\ NoDup (programs (emitted w w'))
    /\ EvCreate (PosixPath.join jd "complete_ok") ∉ emitted w w'.
Proof.
  intros Hat Hopen.
  destruct (attempt_sound E jd _ (stages_sound E jd) _ _ _ _ Hat)
    as (evs & Ht & Hc & Hp & _ & _ & Hx & rest & Hss).
  destruct (log_failure E jd s e w1) as [w' r] eqn:Hlog.
  pose proof (log_failure_sound E jd _ _ _ _ _ Hlog) as Hl.
  rewrite Hopen in Hl. destruct Hl as (-> & Ht' & Hf).
  exists w'.
  assert (Hem : emitted w w' = evs ++ [match mode s with
                                       | ModeW => EvCreate (error_log jd)
                                       | ModeA => EvAppend (error_log jd)
                                       end]).
  { apply emitted_app. by rewrite Ht', Ht, app_assoc. }
  assert (Hprog : programs (emitted w w') = programs evs).
  { rewrite Hem, programs_app. destruct (mode s); apply app_nil_r. }
  split; [by rewrite run_pipeline_stages, run_stages_attempt, Hat |].
  split.
  { rewrite Hf. fold (log_loc E jd). destruct (mode s).
    - by rewrite text_write_eq.
    - by rewrite text_append_eq, Hx. }
  split.
  { unfold present. rewrite Hf. fold (log_loc E jd).
    destruct (mode s); [apply write_self | apply append_self]. }
  split.
  { pose proof stage_modes as Hm. rewrite Hss in Hm.
    apply Forall_app in Hm as [_ Hm]. by apply Forall_cons in Hm as [Hm _]. }
  split; [by exists evs |].
  split.
  { rewrite Hprog. eapply prefix_NoDup; [exact Hp |].
    eapply prefix_NoDup; [| exact all_tools_NoDup].
    rewrite Hss.
    replace (passed ++ s :: rest) with ((passed ++ [s]) ++ rest)
      by by rewrite <- app_assoc.
    rewrite (all_tools_app (passed ++ [s]) rest). by apply prefix_app_r. }
  rewrite Hem. intros [Hin | Hin]%elem_of_app.
  - apply elem_of_created in Hin. rewrite Hc in Hin.
    by apply (complete_ok_not_a_marker E jd passed (s :: rest)).
  - apply list_elem_of_singleton in Hin. by apply (log_event_not_complete jd s).
Qed.

End Runner.

Section Witnesses.
Import Scenario.
Local Abbreviation jd_AB := (PosixPath.abspath (getcwd env_AB) folder).
Local Abbreviation jd_B := (PosixPath.abspath (getcwd env_unknown) folder).
Local Abbreviation jd_F := (PosixPath.abspath (getcwd env_tax_fails) folder).

Ltac computed := vm_compute; reflexivity.
Ltac decided := apply (bool_decide_unpack _); vm_compute; exact I.

(** a run is known by its outcome: the world it ends in is named by
    projection *)
Lemma run_outcome {A} (p : world * outcome A) (r : outcome A) :
  p.2 = r -> p = (p.1, r).
Proof. intros <-. apply surjective_pairing. Qed.

Lemma attempt_first_fails (s : stage) rest w w1 e :
  body s w = (w1, Raised e) -> attempt (s :: rest) w = (w1, [], Some (s, e)).
Proof. intros H. simpl. by rewrite H. Qed.

Lemma stages_head E job_dir :
  stages E job_dir = tax_stage E job_dir :: tail (stages E job_dir).
Proof. reflexivity. Qed.

(** the job of [Scenario.env_AB] runs through branch A *)
Lemma branch_A_markers_in_order_witness :
  is_known (resolve_organism env_AB jd_AB) = true
  /\ EvCreate (PosixPath.join jd_AB "complete_ok")
       ∈ emitted start (run_pipeline env_AB folder start).1
  /\ ((exists rest,
         created (emitted start (run_pipeline env_AB folder start).1) =
         map (PosixPath.join jd_AB)
           ["taxAssign_ok"; "queryProfile_ok"; "abProfilesCmp_ok";
            "cgProfiles_ok"; "DendroPlot_ok"; "complete_ok"] ++ rest)
      /\ Forall (fun m => present env_AB (run_pipeline env_AB folder start).1
                            (PosixPath.join jd_AB m))
           ["queryProfile_ok"; "abProfilesCmp_ok"; "cgProfiles_ok";
            "DendroPlot_ok"]).
Proof.
  assert (H1 : is_known (resolve_organism env_AB jd_AB) = true) by computed.
  assert (H2 : EvCreate (PosixPath.join jd_AB "complete_ok")
               ∈ emitted start (run_pipeline env_AB folder start).1)
    by decided.
  exact (conj H1 (conj H2
           (branch_A_markers_in_order env_AB folder start _ _ H1
              (surjective_pairing _) H2))).
Defined.

Local Abbreviation fasta_B := (PosixPath.join jd_B "contigFile.fa").
Local Abbreviation w1_B := (taxAssign_body env_unknown jd_B fasta_B start).1.
Local Abbreviation w2_B := (simpleCmp_body env_unknown jd_B fasta_B w1_B).1.
Local Abbreviation end_B := (run_pipeline env_unknown folder start).1.
Local Abbreviation fasta_F := (PosixPath.join jd_F "contigFile.fa").
Local Abbreviation w1_F := (taxAssign_body env_tax_fails jd_F fasta_F start).1.



(** the classifier of [Scenario.env_tax_fails] exits with status 2 *)
Lemma failed_stage_is_logged_witness :
  attempt (stages env_tax_fails jd_F) start
    = (w1_F, [], Some (tax_stage env_tax_fails jd_F, exit_status_2))
  /\ os_error env_tax_fails (log_op jd_F (tax_stage env_tax_fails jd_F)) = None
  /\ exists w',
       run_pipeline env_tax_fails folder start = (w', Done tt)
       /\ NoDup (programs (emitted start w'))
       /\ EvCreate (PosixPath.join jd_F "complete_ok") ∉ emitted start w'.
Proof.
  assert (H1 : attempt (stages env_tax_fails jd_F) start
               = (w1_F, [], Some (tax_stage env_tax_fails jd_F, exit_status_2))).
  { rewrite stages_head. apply attempt_first_fails.
    apply (run_outcome (taxAssign_body env_tax_fails jd_F fasta_F start)).
    computed. }
  assert (H2 : os_error env_tax_fails
                 (log_op jd_F (tax_stage env_tax_fails jd_F)) = None)
    by reflexivity.
  destruct (failed_stage_is_logged env_tax_fails folder start w1_F []
              (tax_stage env_tax_fails jd_F) exit_status_2 H1 H2)
    as (w' & Hrun & _ & _ & _ & _ & Hnd & Hno).
  split; [exact H1 |]. split; [exact H2 |].
  exists w'. split; [exact Hrun |]. split; [exact Hnd | exact Hno].
Defined.


(** C7 as the claim states it fails twice.  When the classifier exits with
    status 2 and [error.log] cannot be opened, the [OSError] of the handler
    leaves [run_pipeline]: the function raises.  And when [error.log] is
    there from an earlier run, the handler of the first stage, which opens
    the file with ["w"], replaces what it held: nothing is appended. *)
Lemma failure_can_escape_run_pipeline :
  (subprocess_run env_log_denied
     (["1.Taxonomic-Assignments.pl"; "-i"; PosixPath.join job_dir "contigFile.fa";
       "-d"; "/home/chieh/antibiogram_platform/databases/silva/silva_db_all";
       "-o"; PosixPath.join job_dir "1.taxAssign"; "-p"; "12"])
     = Some exit_status_2
   /\ (run_pipeline env_log_denied folder start).2 = Raised denied)
  /\ (Fs.text_at (files with_old_log) (job_loc ++ ["error.log"]) = "old"
      /\ Fs.text_at (files (run_pipeline env_tax_fails folder with_old_log).1)
           (job_loc ++ ["error.log"])
         = failed_msg "Taxonomic Assignment" exit_status_2).
Proof. vm_compute. done. Qed.

End Witnesses.
End PipelineFacts.

(** ** The worker: [analysis_worker] *)
Module WorkerFacts.
Import Eff Pipeline Api PathFacts FsFacts EffFacts PipelineFacts.
#[local] Opaque PosixPath.join PosixPath.abspath.

Section Worker.
Context (E : env) (folder : string).
Local Abbreviation jd := (PosixPath.abspath (getcwd E) folder).

(** Whenever [run_pipeline] returns, and whatever it did, the worker
    creates [complete_ok]. *)
Lemma worker_marks_every_return w w1 :
  run_pipeline E folder w = (w1, Done tt) ->
  os_error E (OpenW (PosixPath.join folder "complete_ok")) = None ->
  exists w',
    analysis_worker E folder w = (w', Done tt)
    /\ trace w' = trace w1 ++ [EvCreate (PosixPath.join folder "complete_ok");
                               EvTaskDone]
    /\ present E w' (PosixPath.join folder "complete_ok")
    /\ (forall k, is_Some (files w1 !! k) -> is_Some (files w' !! k)).
Proof.
  intros Hrun Hopen.
  unfold analysis_worker, try_finally, try_except, bind, open_w, log.
  rewrite Hrun, Hopen. cbn [files trace]. eexists. split; [reflexivity |].
  cbn [files trace]. split; [by rewrite <- app_assoc |].
  split; [apply write_self |]. intros k Hk. by apply write_keep.
Qed.

(** a run only adds to the trace *)
Lemma run_pipeline_extends w w' r :
  run_pipeline E folder w = (w', r) -> exists evs, trace w' = trace w ++ evs.
Proof.
  rewrite run_pipeline_stages, run_stages_attempt.
  destruct (attempt (stages E jd) w) as [[w1 passed] f] eqn:Hat. intros Hrun.
  destruct (attempt_sound E jd _ (stages_sound E jd) _ _ _ _ Hat)
    as (evs1 & Ht1 & _).
  destruct f as [[s e]|].
  - apply log_failure_sound in Hrun. destruct (os_error E (log_op jd s)).
    + destruct Hrun as [-> _]. eauto.
    + destruct Hrun as (_ & Ht & _). rewrite Ht, Ht1, <- app_assoc. eauto.
  - apply finalize_sound in Hrun as (evs2 & Ht & _).
    rewrite Ht, Ht1, <- app_assoc. eauto.
Qed.

(** So a job whose stage failed, and whose failure [run_pipeline] wrote to
    [error.log], ends with both [error.log] and [complete_ok]. *)
Lemma worker_completes_failed_job w w1 passed s e :
  attempt (stages E jd) w = (w1, passed, Some (s, e)) ->
  os_error E (log_op jd s) = None ->
  os_error E (OpenW (PosixPath.join folder "complete_ok")) = None ->
  exists w',
    analysis_worker E folder w = (w', Done tt)
    /\ present E w' (error_log jd)
    /\ present E w' (PosixPath.join folder "complete_ok")
    /\ EvCreate (PosixPath.join folder "complete_ok") ∈ emitted w w'.
Proof.
  intros Hat Hlog Hopen.
  destruct (log_failure E jd s e w1) as [w2 r] eqn:Hl.
  assert (Hrun : run_pipeline E folder w = (w2, r))
    by by rewrite run_pipeline_stages, run_stages_attempt, Hat.
  apply log_failure_sound in Hl. rewrite Hlog in Hl.
  destruct Hl as (-> & _ & Hf).
  assert (Hpres : present E w2 (error_log jd)).
  { unfold present. rewrite Hf. fold (log_loc E jd).
    destruct (mode s); [apply write_self | apply append_self]. }
  destruct (worker_marks_every_return _ _ Hrun Hopen)
    as (w' & Hw & Ht & Hc & Hkeep).
  destruct (run_pipeline_extends _ _ _ Hrun) as [evs Hevs].
  exists w'. split; [done |]. split; [by apply Hkeep |]. split; [done |].
  rewrite Hevs, <- app_assoc in Ht. rewrite (emitted_app _ _ _ Ht).
  apply elem_of_app. right. by left.
Qed.

(** When [run_pipeline] raises, the worker writes [pipeline_error.log] and
    creates neither [complete_ok] nor [error.log]. *)
Lemma worker_records_escaped_exception w w1 e :
  run_pipeline E folder w = (w1, Raised e) ->
  os_error E (OpenW (PosixPath.join folder "pipeline_error.log")) = None ->
  exists w',
    analysis_worker E folder w = (w', Done tt)
    /\ trace w' = trace w1 ++ [EvCreate (PosixPath.join folder "pipeline_error.log");
                               EvTaskDone]
    /\ Fs.text_at (files w') (loc_of E (PosixPath.join folder "pipeline_error.log")) = e.
Proof.
  intros Hrun Hopen.
  unfold analysis_worker, try_finally, try_except, bind, open_w, log.
  rewrite Hrun, Hopen. cbn [files trace]. eexists. split; [reflexivity |].
  cbn [files trace]. split; [by rewrite <- app_assoc |]. apply text_write_eq.
Qed.

End Worker.

Import Scenario.

(** C1, at the job of [Scenario.env_tax_fails]: the classifier of stage 1
    exits with status 2.  [run_pipeline] writes [error.log], creates no
    [complete_ok] and returns; the worker then creates [complete_ok].  The
    job directory ends with both markers, and its status is [done]. *)
Theorem worker_marks_failed_job_complete :
  ((run_pipeline env_tax_fails folder start).2 = Done tt
   /\ Fs.exists_ (files (run_pipeline env_tax_fails folder start).1)
        (cwd_loc env_tax_fails) (PosixPath.join folder "error.log") = true
   /\ Fs.exists_ (files (run_pipeline env_tax_fails folder start).1)
        (cwd_loc env_tax_fails) (PosixPath.join folder "complete_ok") = false)
  /\ ((analysis_worker env_tax_fails folder start).2 = Done tt
      /\ Fs.exists_ (files (analysis_worker env_tax_fails folder start).1)
           (cwd_loc env_tax_fails) (PosixPath.join folder "error.log") = true
      /\ Fs.exists_ (files (analysis_worker env_tax_fails folder start).1)
           (cwd_loc env_tax_fails) (PosixPath.join folder "complete_ok") = true
      /\ check_status (files (analysis_worker env_tax_fails folder start).1)
           (cwd_loc env_tax_fails) job_id
         = Return [("status", "done"); ("job_id", job_id)]).
Proof. vm_compute. repeat split. Qed.

End WorkerFacts.

(** ** Status and download *)
Module FacadeFacts.
Import Eff Api PathFacts FsFacts EffFacts.
#[local] Opaque PosixPath.join.

Lemma is_dir_write t loc text l :
  loc <> [] -> t !! loc <> Some Fs.Dir ->
  Fs.is_dir (Fs.write t loc text) l = Fs.is_dir t l.
Proof.
  intros Hne Hnd. unfold Fs.is_dir, Fs.node_at, Fs.write.
  destruct l as [|c l]; [reflexivity |].
  destruct (decide (loc = c :: l)) as [-> | Hl].
  - rewrite lookup_insert_eq. rewrite !bool_decide_eq_false_2; congruence.
  - by rewrite lookup_insert_ne.
Qed.

Lemma walk_ext t t' comps : forall loc,
  (forall l, Fs.is_dir t' l = Fs.is_dir t l) ->
  Fs.walk t' loc comps = Fs.walk t loc comps.
Proof.
  induction comps as [|c cs IH]; intros loc H; simpl; [reflexivity |].
  rewrite H. destruct (Fs.is_dir t loc); [by apply IH | reflexivity].
Qed.

(** writing a regular file changes [os.stat] only at the file itself *)
Lemma stat_write t cwd loc text p :
  loc <> [] -> t !! loc <> Some Fs.Dir ->
  PosixPath.locate cwd p <> loc ->
  Fs.stat (Fs.write t loc text) cwd p = Fs.stat t cwd p.
Proof.
  intros Hne Hnd Hp. unfold Fs.stat, Fs.resolve.
  destruct (String.eqb p "") eqn:He; [reflexivity |].
  rewrite (walk_ext t) by (intros; by apply is_dir_write).
  destruct (Fs.walk t _ _) as [l|] eqn:Hw; [| reflexivity].
  assert (l = PosixPath.locate cwd p) as ->.
  { apply (resolve_locate t). unfold Fs.resolve. by rewrite He. }
  unfold Fs.node_at, Fs.write.
  destruct (PosixPath.locate cwd p); [reflexivity |].
  by rewrite lookup_insert_ne.
Qed.

Section Status.
Context (t : Fs.fs) (cwd : list string) (job_id : string).
Local Abbreviation folder := (PosixPath.join "anti_form_jobs" job_id).

(** C2, amended.  For a job whose directory exists, [check_status] answers
    [done] when [complete_ok] is present and [running] otherwise; it never
    answers [failed]; and [error.log] plays no part: writing it, with any
    text, leaves the answer as it is. *)
Theorem check_status_done_or_running :
  Fs.isdir t cwd folder = true ->
  check_status t cwd job_id
  = Return [("status",
             if Fs.exists_ t cwd (PosixPath.join folder "complete_ok")
             then "done" else "running");
            ("job_id", job_id)]
  /\ check_status t cwd job_id <> Return [("status", "failed"); ("job_id", job_id)]
  /\ (forall text,
        t !! (PosixPath.locate cwd folder ++ ["error.log"]) <> Some Fs.Dir ->
        check_status
          (Fs.write t (PosixPath.locate cwd (PosixPath.join folder "error.log")) text)
          cwd job_id
        = check_status t cwd job_id).
Proof.
  intros Hdir. unfold check_status. rewrite Hdir. cbn [negb].
  split; [by destruct (Fs.exists_ _ _ _) |].
  split; [by destruct (Fs.exists_ _ _ _) |].
  intros text Hnd.
  rewrite (locate_join_name cwd folder "error.log") by reflexivity.
  set (EL := PosixPath.locate cwd folder ++ ["error.log"]) in *.
  assert (Hne : EL <> []) by (unfold EL; by destruct (PosixPath.locate cwd folder)).
  assert (H1 : PosixPath.locate cwd folder <> EL).
  { unfold EL. intros H. apply (f_equal length) in H.
    rewrite length_app in H. simpl in H. lia. }
  assert (H2 : PosixPath.locate cwd (PosixPath.join folder "complete_ok") <> EL).
  { rewrite (locate_join_name cwd folder "complete_ok") by reflexivity.
    unfold EL. intros H%app_inj_tail. by destruct H. }
  unfold Fs.isdir, Fs.exists_ in *.
  rewrite !(stat_write t cwd EL text); try done. by rewrite Hdir.
Qed.

End Status.

Section Download.
Context (t : Fs.fs) (cwd : list string) (job_id filename : string).
Local Abbreviation folder := (PosixPath.join "anti_form_jobs" job_id).

(** [download_file] answers with a file exactly when the job directory is
    a directory and the path made of the directory and the file name
    exists; that path is what it hands to [FileResponse].  It makes no
    other test.  The path lies in the job directory when the file name is
    relative and has no component [..]. *)
Lemma download_serves_the_joined_path r :
  download_file t cwd job_id filename = Return r ->
  path r = PosixPath.join folder filename
  /\ download_name r = filename
  /\ Fs.isdir t cwd folder = true
  /\ Fs.exists_ t cwd (path r) = true
  /\ (PosixPath.isabs filename = false ->
      ".." ∉ Py.split PosixPath.sep filename ->
      exists dloc floc,
        Fs.resolve t cwd folder = Some dloc
        /\ Fs.resolve t cwd (path r) = Some floc
        /\ dloc `prefix_of` floc).
Proof.
  unfold download_file.
  destruct (Fs.isdir t cwd folder) eqn:Hdir; [| discriminate].
  destruct (Fs.exists_ t cwd (PosixPath.join folder filename)) eqn:Hex;
    [| discriminate].
  cbn [negb]. intros [= <-]. cbn [path download_name].
  repeat split; try done.
  intros Hrel Hno.
  unfold Fs.isdir, Fs.stat in Hdir. apply bool_decide_eq_true in Hdir.
  unfold Fs.exists_, Fs.stat in Hex. apply bool_decide_eq_true in Hex.
  destruct (Fs.resolve t cwd folder) as [dloc|] eqn:Hd; [| discriminate].
  destruct (Fs.resolve t cwd (PosixPath.join folder filename)) as [floc|] eqn:Hf;
    [| by destruct Hex].
  exists dloc, floc. repeat split; try done.
  apply resolve_locate in Hd, Hf. subst.
  rewrite (locate_join cwd folder filename) by done. by apply fold_step_prefix.
Qed.

(** the converse: nothing but these two tests stands between a request and
    the file *)
Lemma download_serves_whatever_exists :
  Fs.isdir t cwd folder = true ->
  Fs.exists_ t cwd (PosixPath.join folder filename) = true ->
  download_file t cwd job_id filename
  = Return {| path := PosixPath.join folder filename;
              download_name := filename |}.
Proof. intros H1 H2. unfold download_file. by rewrite H1, H2. Qed.

Lemma segment_relative : segment filename = true -> PosixPath.isabs filename = false.
Proof.
  unfold segment, PosixPath.isabs. destruct filename as [|c r]; [done |].
  simpl. intros [Hc _]%andb_true_iff. apply negb_true_iff in Hc.
  by rewrite Ascii.eqb_sym in Hc.
Qed.

(** the directory above a directory of a tree is a directory *)
Lemma tree_parent loc :
  FsTree.tree t -> Fs.node_at t loc = Some Fs.Dir ->
  Fs.node_at t (removelast loc) = Some Fs.Dir.
Proof.
  intros Htree Hloc. destruct loc as [|c l]; [done |].
  unfold Fs.node_at in Hloc. specialize (Htree _ _ Hloc). cbn beta in Htree.
  unfold Fs.is_dir in Htree. by apply bool_decide_eq_true in Htree.
Qed.


End Download.

Section Examples.
Import Scenario Pipeline.
Local Abbreviation failed := (files (run_pipeline env_tax_fails folder start).1).

Ltac computed := vm_compute; reflexivity.

(** C2 as the claim states it fails at the job of
    [Scenario.env_tax_fails] once [run_pipeline] has returned: [error.log]
    is present, [complete_ok] is not, and the answer is [running], not
    [failed]. *)
Lemma check_status_failed_job_is_running :
  Fs.isdir failed here (PosixPath.join "anti_form_jobs" job_id) = true
  /\ Fs.exists_ failed here
       (PosixPath.join (PosixPath.join "anti_form_jobs" job_id) "error.log") = true
  /\ Fs.exists_ failed here
       (PosixPath.join (PosixPath.join "anti_form_jobs" job_id) "complete_ok") = false
  /\ check_status failed here job_id
     = Return [("status", "running"); ("job_id", job_id)].
Proof. vm_compute. repeat split. Qed.

Lemma check_status_done_or_running_witness :
  Fs.isdir failed here (PosixPath.join "anti_form_jobs" job_id) = true
  /\ check_status failed here job_id
     = Return [("status",
                if Fs.exists_ failed here
                     (PosixPath.join (PosixPath.join "anti_form_jobs" job_id)
                        "complete_ok")
                then "done" else "running");
               ("job_id", job_id)].
Proof.
  assert (H : Fs.isdir failed here (PosixPath.join "anti_form_jobs" job_id) = true)
    by computed.
  exact (conj H (proj1 (check_status_done_or_running failed here job_id H))).
Defined.

(** The function itself does not test where the path leads; the route
    does, by what it lets through.  Called with a name that has slashes,
    [../<other job>/formData.json] under the first of two jobs,
    [download_file] answers with the file of the other job.  Called with
    [..] it answers with the path of the directory above the job. *)
Lemma download_leaves_the_job_directory :
  (download_file two_jobs here job_id ("../" +:+ other_id +:+ "/formData.json")
   = Return {| path := "anti_form_jobs/" +:+ job_id +:+ "/../" +:+ other_id
                       +:+ "/formData.json";
               download_name := "../" +:+ other_id +:+ "/formData.json" |}
   /\ Fs.resolve two_jobs here (PosixPath.join "anti_form_jobs" job_id)
      = Some job_loc
   /\ Fs.resolve two_jobs here
        ("anti_form_jobs/" +:+ job_id +:+ "/../" +:+ other_id +:+ "/formData.json")
      = Some (jobs_loc ++ [other_id; "formData.json"])
   /\ Fs.stat two_jobs here
        ("anti_form_jobs/" +:+ job_id +:+ "/../" +:+ other_id +:+ "/formData.json")
      = Some (Fs.File "{}")
   /\ ~ job_loc `prefix_of` (jobs_loc ++ [other_id; "formData.json"]))
  /\ (download_file two_jobs here job_id ".."
      = Return {| path := "anti_form_jobs/" +:+ job_id +:+ "/..";
                  download_name := ".." |}
      /\ Fs.resolve two_jobs here ("anti_form_jobs/" +:+ job_id +:+ "/..")
         = Some jobs_loc
      /\ ~ job_loc `prefix_of` jobs_loc).
Proof.
  repeat split; try computed.
  all: intros [k Hk]; vm_compute in Hk; discriminate.
Qed.


End Examples.
End FacadeFacts.

(** ** Job identifiers *)
Module JobIdFacts.
Import Py Api PathFacts.

Lemma length_append (a b : string) :
  String.length (a +:+ b) = String.length a + String.length b.
Proof.
  induction a as [|x a IH]; [reflexivity |].
  rewrite append_cons. simpl. by rewrite IH.
Qed.

Lemma forallb_append p (a b : string) :
  string_forallb p (a +:+ b) = string_forallb p a && string_forallb p b.
Proof.
  induction a as [|x a IH]; [reflexivity |].
  rewrite append_cons. simpl. by rewrite IH, andb_assoc.
Qed.

Lemma forallb_impl (p q : ascii -> bool) s :
  (forall c, p c = true -> q c = true) ->
  string_forallb p s = true -> string_forallb q s = true.
Proof.
  intros Hpq. induction s as [|c s IH]; simpl; [done |].
  intros [Hc Hs]%andb_true_iff. by rewrite (Hpq _ Hc), IH.
Qed.

(** *** the random keys *)

Lemma pool_is_alnum i : i < 62 -> isalnum (default "0"%char (String.get i pool)) = true.
Proof.
  intros Hi.
  assert (H : forallb (fun i => isalnum (default "0"%char (String.get i pool)))
                (seq 0 62) = true) by (vm_compute; reflexivity).
  rewrite forallb_forall in H. apply H, in_seq. lia.
Qed.

Lemma random_choice_alnum r : isalnum (random_choice r) = true.
Proof.
  unfold random_choice. apply pool_is_alnum.
  change (String.length pool) with 62. apply Nat.mod_upper_bound. lia.
Qed.

(** a key has the length asked for and is made of [[0-9A-Za-z]] *)
Lemma generate_random_keys_spec draw n : forall pos,
  String.length (generate_random_keys draw pos n) = n
  /\ string_forallb isalnum (generate_random_keys draw pos n) = true.
Proof.
  induction n as [|n IH]; intros pos; simpl; [done |].
  destruct (IH (S pos)) as [-> ->]. by rewrite random_choice_alnum.
Qed.

(** *** the sequence number *)

Lemma length_string_of_uint d :
  String.length (NilEmpty.string_of_uint d) = Decimal.nb_digits d.
Proof. induction d; simpl; congruence. Qed.

Lemma digits_string_of_uint d :
  string_forallb isdigit (NilEmpty.string_of_uint d) = true.
Proof. induction d; simpl; done. Qed.

Lemma of_uint_acc_bound d : forall acc,
  Nat.of_uint_acc d acc < S acc * 10 ^ Decimal.nb_digits d.
Proof.
  induction d as [|d IH|d IH|d IH|d IH|d IH|d IH|d IH|d IH|d IH|d IH];
    intros acc; cbn [Nat.of_uint_acc Decimal.nb_digits];
    [simpl; lia | ..];
    rewrite Nat.tail_mul_spec, Nat.pow_succ_r';
    (eapply Nat.lt_le_trans; [apply IH |]); nia.
Qed.

(** a number is below the power of ten of its number of digits *)
Lemma str_of_nat_bound n : n < 10 ^ String.length (str_of_nat n).
Proof.
  unfold str_of_nat. rewrite length_string_of_uint.
  rewrite <- (Unsigned.of_to n) at 1. unfold Nat.of_uint.
  pose proof (of_uint_acc_bound (Nat.to_uint n) 0). lia.
Qed.

Lemma format_02d_digits n : string_forallb isdigit (format_02d n) = true.
Proof.
  unfold format_02d. rewrite forallb_append. apply andb_true_iff. split.
  - generalize (2 - String.length (str_of_nat n)).
    intros k. induction k; simpl; done.
  - apply digits_string_of_uint.
Qed.

(** below one hundred the sequence number has two digits *)
Lemma format_02d_two n : n < 100 -> String.length (format_02d n) = 2.
Proof.
  intros Hn.
  assert (H : forallb (fun n => String.length (format_02d n) =? 2) (seq 0 100)
              = true) by (vm_compute; reflexivity).
  rewrite forallb_forall in H. apply Nat.eqb_eq, H, in_seq. lia.
Qed.

(** from one hundred on [:02d] gives three digits or more *)
Lemma format_02d_long n : 100 <= n -> 3 <= String.length (format_02d n).
Proof.
  intros Hn. unfold format_02d. rewrite length_append.
  pose proof (str_of_nat_bound n) as Hb.
  destruct (String.length (str_of_nat n)) as [|[|[|k]]]; simpl in *; lia.
Qed.

(** *** the format *)

Lemma alnum_no_dash c : isalnum c = true -> negb (Ascii.eqb c "-") = true.
Proof. destruct (Ascii.eqb_spec c "-"%char) as [-> |]; [discriminate | done]. Qed.

Lemma digit_is_alnum c : isdigit c = true -> isalnum c = true.
Proof. unfold isalnum. by intros ->. Qed.

Lemma split_dash_head (a rest : string) :
  string_forallb isalnum a = true ->
  split "-" (a +:+ "-" +:+ rest) = a :: split "-" rest.
Proof.
  intros Ha. change (a +:+ "-" +:+ rest) with (a +:+ String "-" rest).
  rewrite split_app_sep, split_no_sep; [reflexivity |].
  revert Ha. apply forallb_impl, alnum_no_dash.
Qed.

(** An identifier put together as line 94 does matches the format exactly
    when the sequence number is below one hundred. *)
Lemma job_id_format_iff today n k1 k2 k3 :
  String.length today = 8 -> string_forallb isdigit today = true ->
  String.length k1 = 4 -> string_forallb isalnum k1 = true ->
  String.length k2 = 4 -> string_forallb isalnum k2 = true ->
  String.length k3 = 8 -> string_forallb isalnum k3 = true ->
  job_id_format (today +:+ format_02d n +:+ "-" +:+ k1 +:+ "-" +:+ k2
                 +:+ "-" +:+ k3)
  = bool_decide (n < 100).
Proof.
  intros Hl Hd Hl1 Ha1 Hl2 Ha2 Hl3 Ha3.
  assert (Hds : string_forallb isdigit (today +:+ format_02d n) = true)
    by by rewrite forallb_append, Hd, format_02d_digits.
  unfold job_id_format.
  rewrite <- (append_assoc today).
  rewrite split_dash_head
    by (revert Hds; apply forallb_impl, digit_is_alnum).
  rewrite !split_dash_head by done.
  rewrite split_no_sep by (revert Ha3; apply forallb_impl, alnum_no_dash).
  rewrite Hds, Hl1, Ha1, Hl2, Ha2, Hl3, Ha3, length_append, Hl. simpl.
  rewrite !andb_true_r.
  case_bool_decide as Hn.
  - rewrite format_02d_two by done. reflexivity.
  - pose proof (format_02d_long n ltac:(lia)). apply Nat.eqb_neq. lia.
Qed.

(** *** [generate_job_id] *)

Section Generate.
Context (src : sources) (t : Fs.fs) (cwd : list string).

(** what the function returns, after however many calls of itself, is an
    identifier put together as line 94 does, whose folder does not exist *)
Lemma generate_job_id_shape fuel : forall g g' job_id,
  generate_job_id src t cwd fuel g = (g', Some job_id) ->
  Fs.exists_ t cwd (jobs_folder job_id) = false
  /\ exists k n p,
       serial_counters g' !! today_at src k = Some (S n)
       /\ job_id = today_at src k +:+ format_02d n +:+ "-" +:+
                   generate_random_keys (draw src) p 4 +:+ "-" +:+
                   generate_random_keys (draw src) (p + 4) 4 +:+ "-" +:+
                   generate_random_keys (draw src) (p + 8) 8.
Proof.
  induction fuel as [|fuel IH]; intros g g' job_id; [discriminate |].
  cbn [generate_job_id]. cbv zeta.
  destruct (Fs.exists_ t cwd _) eqn:Hex; cbn [negb]; [apply IH |].
  intros [= <- <-]. split; [exact Hex |].
  eexists (clock_pos g), _, (rng_pos g). cbn [serial_counters].
  split; [| reflexivity]. rewrite lookup_insert_eq. f_equal. lia.
Qed.

(** when the folder of a candidate exists the function starts again, with
    the counter and the generator where the failed call left them *)
Lemma generate_job_id_retry fuel g :
  exists g1 candidate,
    (Fs.exists_ t cwd (jobs_folder candidate) = false ->
     generate_job_id src t cwd (S fuel) g = (g1, Some candidate))
    /\ (Fs.exists_ t cwd (jobs_folder candidate) = true ->
        generate_job_id src t cwd (S fuel) g = generate_job_id src t cwd fuel g1).
Proof.
  cbn [generate_job_id]. cbv zeta. eexists _, _.
  split; intros ->; reflexivity.
Qed.

(** C8, the part that holds: with a date of eight digits, an identifier
    that is returned names no existing folder, has three random groups of
    4, 4 and 8 characters of [[0-9A-Za-z]], and matches the format exactly
    when its sequence number is below one hundred. *)
Lemma generate_job_id_format fuel g g' job_id :
  (forall k, String.length (today_at src k) = 8
             /\ string_forallb isdigit (today_at src k) = true) ->
  generate_job_id src t cwd fuel g = (g', Some job_id) ->
  Fs.exists_ t cwd (jobs_folder job_id) = false
  /\ exists today n,
       serial_counters g' !! today = Some (S n)
       /\ job_id_format job_id = bool_decide (n < 100).
Proof.
  intros Hday Hgen.
  destruct (generate_job_id_shape _ _ _ _ Hgen) as (Hex & k & n & p & Hc & ->).
  split; [exact Hex |]. exists (today_at src k), n. split; [exact Hc |].
  destruct (Hday k) as [Hl Hd].
  destruct (generate_random_keys_spec (draw src) 4 p) as [? ?].
  destruct (generate_random_keys_spec (draw src) 4 (p + 4)) as [? ?].
  destruct (generate_random_keys_spec (draw src) 8 (p + 8)) as [? ?].
  by apply job_id_format_iff.
Qed.

End Generate.

Import Scenario.

(** C8, at the hundredth identifier of a day: [:02d] does not cut the
    counter, the sequence number is [100], and the identifier has eleven
    digits before the first dash; it does not match the format.  The first
    identifier of the day does. *)
Theorem hundredth_job_id_is_malformed :
  ((generate_job_id clock submitted here 1000 busy_day).2
   = Some "20250101100-3aho-vCJQ-X4bipwDK"
   /\ job_id_format "20250101100-3aho-vCJQ-X4bipwDK" = false)
  /\ ((generate_job_id clock submitted here 1000 first_of_day).2
      = Some "2025010101-3aho-vCJQ-X4bipwDK"
      /\ job_id_format "2025010101-3aho-vCJQ-X4bipwDK" = true).
Proof. vm_compute. repeat split. Qed.

End JobIdFacts.

(** ** The submission handler *)
Module UploadFacts.
Import Eff Api PathFacts FsFacts EffFacts JobIdFacts.
#[local] Opaque PosixPath.join.

Section Counter.
Context (src : sources) (t : Fs.fs) (cwd : list string).

Lemma insert_insert_same (m : gmap string nat) k a b :
  <[k := b]> (<[k := a]> m) = <[k := b]> m.
Proof. apply insert_insert_eq. Qed.

Lemma generate_job_id_step fuel g :
  exists candidate,
    generate_job_id src t cwd (S fuel) g
    = if negb (Fs.exists_ t cwd (jobs_folder candidate))
      then (tick src g, Some candidate)
      else generate_job_id src t cwd fuel (tick src g).
Proof.
  cbn [generate_job_id]. cbv zeta. unfold tick, next_seq.
  destruct (serial_counters g !! today_at src (clock_pos g)) as [v|] eqn:Hv;
    cbn [default].
  - rewrite Hv. cbn [default]. by eexists.
  - rewrite lookup_insert_eq. cbn [default]. rewrite insert_insert_same.
    by eexists.
Qed.

Lemma next_seq_tick g day :
  next_seq g day <= next_seq (tick src g) day
  /\ next_seq g (today_at src (clock_pos g))
     < next_seq (tick src g) (today_at src (clock_pos g)).
Proof.
  unfold tick, next_seq. cbn [serial_counters]. split.
  - destruct (decide (today_at src (clock_pos g) = day)) as [<- | Hne].
    + rewrite lookup_insert_eq. simpl. lia.
    + by rewrite lookup_insert_ne.
  - rewrite lookup_insert_eq. simpl. lia.
Qed.

(** a call never lowers a counter, and a call that returns an identifier
    has used up a sequence number of some day *)
Lemma generate_job_id_consumes fuel : forall g g' r,
  generate_job_id src t cwd fuel g = (g', r) ->
  (forall day, next_seq g day <= next_seq g' day)
  /\ (is_Some r -> exists day, next_seq g day < next_seq g' day).
Proof.
  induction fuel as [|fuel IH]; intros g g' r.
  - intros [= <- <-]. split; [done |]. by intros [? ?].
  - destruct (generate_job_id_step fuel g) as [c ->].
    destruct (Fs.exists_ t cwd (jobs_folder c)); cbn [negb].
    + intros H. destruct (IH _ _ _ H) as [Hmono Hstrict]. split.
      * intros day. etrans; [apply (next_seq_tick g day) | apply Hmono].
      * intros Hr. destruct (Hstrict Hr) as [day Hday]. exists day.
        eapply Nat.le_lt_trans; [apply (next_seq_tick g day) | exact Hday].
    + intros [= <- <-]. split.
      * intros day. apply next_seq_tick.
      * intros _. eexists. apply (next_seq_tick g "").
Qed.

End Counter.

Lemma makedirs_node_at t loc : is_Some (Fs.node_at (Fs.makedirs t loc) loc).
Proof.
  destruct loc as [|c l]; [by eexists |].
  unfold Fs.node_at. by apply makedirs_self.
Qed.

Lemma truthy_nonempty s : s <> "" -> truthy s = true.
Proof. unfold truthy. by destruct (String.eqb_spec s ""). Qed.

Section Upload.
Context (V : services) (email : option string) (gcaCode : string)
  (location : option string) (country : string) (file : option UploadFile)
  (s : server).

(** C10, amended.  When the accession code (not empty: the route answers
    422 to an empty one before the handler runs) does not match the
    pattern, and the identifier and its directory could be made, the
    handler answers 400 after both: the counter of the day has advanced,
    the directory, which did not exist, now does, the handler has written
    nothing into it, and nothing is put on the queue. *)
Theorem invalid_code_is_rejected_after_mkdir g job_id :
  gcaCode <> "" ->
  validate_gca_code (unicode_decimal V) gcaCode = false ->
  generate_job_id (ids V) (files (sys s)) (cwd_loc (base V))
    (recursion_limit V) (counters s) = (g, Some job_id) ->
  os_error (base V) (MakeDirs (PosixPath.join "anti_form_jobs" job_id)) = None ->
  upload_file V email gcaCode location country file s
  = ({| sys := {| files := Fs.makedirs (files (sys s))
                             (loc_of (base V)
                                (PosixPath.join "anti_form_jobs" job_id));
                  trace := trace (sys s)
                           ++ [EvMkdir (PosixPath.join "anti_form_jobs" job_id)] |};
        counters := g;
        analysis_queue := analysis_queue s |},
     HTTPException 400 "Invalid GCA Code format.")
  /\ Fs.exists_ (files (sys s)) (cwd_loc (base V))
       (PosixPath.join "anti_form_jobs" job_id) = false
  /\ is_Some (Fs.node_at
                (Fs.makedirs (files (sys s))
                   (loc_of (base V) (PosixPath.join "anti_form_jobs" job_id)))
                (loc_of (base V) (PosixPath.join "anti_form_jobs" job_id)))
  /\ exists day, next_seq (counters s) day < next_seq g day.
Proof.
  intros Hne Hval Hgen Hmk.
  split.
  { unfold upload_file. rewrite Hgen. unfold makedirs. rewrite Hmk.
    by rewrite (truthy_nonempty _ Hne), Hval. }
  split; [apply (generate_job_id_shape _ _ _ _ _ _ _ Hgen) |].
  split; [apply makedirs_node_at |].
  by apply (generate_job_id_consumes _ _ _ _ _ _ _ Hgen).
Qed.

End Upload.

Section Examples.
Import Scenario.

Lemma pair_outcome {A B} (p : A * B) (b : B) : p.2 = b -> p = (p.1, b).
Proof. intros <-. apply surjective_pairing. Qed.

Lemma invalid_code_is_rejected_after_mkdir_witness :
  "GCA_12" <> ""
  /\ validate_gca_code arabic_indic "GCA_12" = false
  /\ (upload_file services0 None "GCA_12" None "-1" (Some upload0) server0).2
     = HTTPException 400 "Invalid GCA Code format."
  /\ exists day,
       next_seq (counters server0) day
       < next_seq (generate_job_id (ids services0) (files (sys server0))
                     (cwd_loc (base services0)) (recursion_limit services0)
                     (counters server0)).1 day.
Proof.
  assert (H1 : "GCA_12" <> "") by discriminate.
  assert (H2 : validate_gca_code arabic_indic "GCA_12" = false) by (vm_compute; reflexivity).
  assert (H3 : generate_job_id (ids services0) (files (sys server0))
                 (cwd_loc (base services0)) (recursion_limit services0)
                 (counters server0)
               = ((generate_job_id (ids services0) (files (sys server0))
                     (cwd_loc (base services0)) (recursion_limit services0)
                     (counters server0)).1,
                  Some "2025010101-3aho-vCJQ-X4bipwDK"))
    by (apply pair_outcome; vm_compute; reflexivity).
  assert (H4 : os_error (base services0)
                 (MakeDirs (PosixPath.join "anti_form_jobs"
                              "2025010101-3aho-vCJQ-X4bipwDK")) = None)
    by reflexivity.
  destruct (invalid_code_is_rejected_after_mkdir services0 None "GCA_12" None
              "-1" (Some upload0) server0 _ _ H1 H2 H3 H4)
    as (Heq & _ & _ & Hday).
  split; [exact H1 |]. split; [exact H2 |]. split; [| exact Hday].
  rewrite Heq. reflexivity.
Defined.

(** C10 as the claim states it fails when the directory cannot be made:
    the code does not match the pattern, and the request is not answered
    400.  The [OSError] of [os.makedirs], which comes before the
    validation, leaves the handler; the sequence number is used up, and no
    directory is left behind. *)
Lemma invalid_code_meets_failed_makedirs :
  validate_gca_code (unicode_decimal services_full_disk) "GCA_12" = false
  /\ (upload_file services_full_disk None "GCA_12" None "-1" (Some upload0)
        server0).2 = Unhandled no_space
  /\ Fs.exists_
       (files (sys (upload_file services_full_disk None "GCA_12" None "-1"
                      (Some upload0) server0).1))
       here (jobs_folder "2025010101-3aho-vCJQ-X4bipwDK") = false
  /\ next_seq (counters server0) "20250101" = 1
  /\ next_seq
       (counters (upload_file services_full_disk None "GCA_12" None "-1"
                    (Some upload0) server0).1) "20250101" = 2.
Proof. repeat split; vm_compute; reflexivity. Qed.

End Examples.
End UploadFacts.

(** ** The worker pool *)
Module PoolFacts.
Import Pool.

(** distinct numbers below [n] are at most [n] *)
Lemma distinct_below (l : list nat) n :
  NoDup l -> Forall (fun i => i < n) l -> length l <= n.
Proof.
  intros Hnd Hlt. transitivity (length (seq 0 n)); [| by rewrite length_seq].
  apply submseteq_length.
  apply NoDup_submseteq; [done |]. intros i Hi.
  rewrite Forall_forall in Hlt. apply elem_of_seq. specialize (Hlt i Hi). lia.
Qed.

Lemma owned_perm ws l l' : l ≡ₚ l' -> owned ws l -> owned ws l'.
Proof. intros Hp [Hnd Hall]. split; by rewrite <- Hp. Qed.

Lemma owned_length ws l : owned ws l -> length l <= length ws.
Proof.
  intros [Hnd Hall]. rewrite <- (length_map awaited_by).
  apply distinct_below; [done |]. apply Forall_fmap.
  eapply Forall_impl; [exact Hall |]. intros it Hit.
  by apply lookup_lt_Some in Hit.
Qed.

(** a worker that waits takes a job *)
Lemma owned_take ws l i f :
  ws !! i = Some Waiting -> owned ws l ->
  owned (<[i := Awaiting f]> ws) ({| awaited_by := i; folder := f |} :: l).
Proof.
  intros Hi [Hnd Hall].
  assert (Hfresh : i ∉ map awaited_by l).
  { intros (it & -> & Hit)%list_elem_of_fmap.
    rewrite Forall_forall in Hall. specialize (Hall it Hit). congruence. }
  split.
  - simpl. by apply NoDup_cons.
  - apply Forall_cons. split.
    + cbn [awaited_by folder]. apply list_lookup_insert_eq.
      by apply lookup_lt_Some in Hi.
    + rewrite Forall_forall in Hall |- *. intros it Hit.
      rewrite list_lookup_insert_ne; [by apply Hall |].
      intros ->. apply Hfresh. apply list_elem_of_fmap. by exists it.
Qed.

(** a worker whose job has ended waits again *)
Lemma owned_give ws l it :
  owned ws (it :: l) -> owned (<[awaited_by it := Waiting]> ws) l.
Proof.
  intros [Hnd Hall]. simpl in Hnd. apply NoDup_cons in Hnd as [Hfresh Hnd].
  apply Forall_cons in Hall as [_ Hall]. split; [done |].
  rewrite Forall_forall in Hall |- *. intros it' Hit'.
  rewrite list_lookup_insert_ne; [by apply Hall |].
  intros Heq. apply Hfresh. rewrite Heq. apply list_elem_of_fmap. by exists it'.
Qed.

Section Machine.
Context (worker_count max_workers : nat).

Lemma step_keeps_workers s s' :
  step max_workers s s' -> length (workers s') = length (workers s).
Proof. destruct 1; cbn [workers]; by rewrite ?length_insert. Qed.

Lemma step_owned s s' :
  step max_workers s s' ->
  owned (workers s) (in_flight s) -> owned (workers s') (in_flight s').
Proof.
  unfold in_flight.
  destruct 1 as [s f | s i f rest Hw Hq | s it rest Hq Hfree
                 | s it before after Hrun | s it before after Hfin Hw];
    cbn [workers work_queue running finished]; intros Hown.
  - done.
  - eapply owned_perm; [| exact (owned_take _ _ i f Hw Hown)].
    rewrite <- !app_assoc. cbn [app]. by rewrite <- Permutation_middle.
  - eapply owned_perm; [| exact Hown]. rewrite Hq.
    rewrite <- !app_assoc. cbn [app]. by rewrite <- !Permutation_middle.
  - eapply owned_perm; [| exact Hown]. rewrite Hrun.
    rewrite <- !app_assoc. cbn [app].
    rewrite <- !Permutation_middle. by rewrite app_nil_r.
  - apply owned_give. eapply owned_perm; [| exact Hown]. rewrite Hfin.
    by rewrite <- !Permutation_middle.
Qed.

Lemma step_executing s s' :
  step max_workers s s' ->
  executing s <= max_workers -> executing s' <= max_workers.
Proof.
  unfold executing.
  destruct 1 as [s f | s i f rest Hw Hq | s it rest Hq Hfree
                 | s it before after Hrun | s it before after Hfin Hw];
    cbn [running]; intros Hle; try done.
  - rewrite length_app. simpl. lia.
  - rewrite Hrun in Hle. rewrite length_app in *. simpl in Hle. lia.
Qed.

Lemma reachable_workers s :
  reachable worker_count max_workers s -> length (workers s) = worker_count.
Proof.
  induction 1 as [|s s' _ IH Hstep].
  - apply length_replicate.
  - by rewrite (step_keeps_workers _ _ Hstep).
Qed.

Lemma reachable_owned s :
  reachable worker_count max_workers s -> owned (workers s) (in_flight s).
Proof.
  induction 1 as [|s s' _ IH Hstep].
  - split; [constructor | constructor].
  - by apply (step_owned _ _ Hstep).
Qed.

Lemma reachable_executing s :
  reachable worker_count max_workers s -> executing s <= max_workers.
Proof.
  induction 1 as [|s s' _ IH Hstep].
  - unfold executing. simpl. lia.
  - by apply (step_executing _ _ Hstep).
Qed.

(** However many jobs were put on the queue: no worker has two jobs, the
    jobs taken from the queue and not finished are never more than the
    worker coroutines, and the pipelines that run are never more than the
    workers and never more than the threads of the executor. *)
Lemma pool_is_bounded s :
  reachable worker_count max_workers s ->
  length (workers s) = worker_count
  /\ owned (workers s) (in_flight s)
  /\ length (in_flight s) <= worker_count
  /\ executing s <= worker_count
  /\ executing s <= max_workers.
Proof.
  intros Hr. pose proof (reachable_workers _ Hr) as Hlen.
  pose proof (reachable_owned _ Hr) as Hown.
  pose proof (owned_length _ _ Hown) as Hfl. rewrite Hlen in Hfl.
  split; [done |]. split; [done |]. split; [done |].
  split; [| by apply reachable_executing].
  unfold executing. unfold in_flight in Hfl. rewrite !length_app in Hfl. lia.
Qed.

(** any backlog can stand in the queue *)
Lemma any_backlog_is_reachable jobs :
  reachable worker_count max_workers
    {| analysis_queue := jobs; workers := replicate worker_count Waiting;
       work_queue := []; running := []; finished := [] |}.
Proof.
  induction jobs as [|j jobs IH] using rev_ind; [constructor |].
  eapply reach_step; [exact IH |].
  exact (step_put max_workers
           {| analysis_queue := jobs; workers := replicate worker_count Waiting;
              work_queue := []; running := []; finished := [] |} j).
Qed.

End Machine.

(** C9.  In every state the system can reach, whatever the number of jobs
    that were put on the queue: there are five workers; at most five
    pipelines run; no worker has two jobs in flight, and every job in
    flight is the one its worker awaits; so at most five jobs are in
    flight. *)
Theorem at_most_five_pipelines s :
  system_reachable s ->
  length (workers s) = 5
  /\ executing s <= 5
  /\ NoDup (map awaited_by (in_flight s))
  /\ Forall (fun it => workers s !! awaited_by it = Some (Awaiting (folder it)))
       (in_flight s)
  /\ length (in_flight s) <= 5.
Proof.
  intros Hr.
  destruct (pool_is_bounded _ _ _ Hr) as (Hlen & [Hnd Hall] & Hfl & He & _).
  done.
Qed.

Ltac then_step H st :=
  let H' := fresh in
  pose proof (reach_step _ _ _ _ H st) as H'; cbn in H'; clear H; rename H' into H.

Ltac get_and_start H i f :=
  match type of H with
  | reachable _ _ ?s =>
      match eval cbn in (analysis_queue s) with
      | _ :: ?rest =>
          then_step H (step_get 5 s i f rest eq_refl eq_refl)
      end
  end;
  match type of H with
  | reachable _ _ ?s =>
      then_step H (step_start 5 s {| awaited_by := i; folder := f |} []
                     eq_refl ltac:(vm_compute; lia))
  end.

Lemma full_house_is_reachable : system_reachable Scenario.full_house.
Proof.
  pose proof (any_backlog_is_reachable 5 5
                ["job1"; "job2"; "job3"; "job4"; "job5"; "job6"; "job7"]) as H.
  cbn in H.
  get_and_start H 0 "job1". get_and_start H 1 "job2".
  get_and_start H 2 "job3". get_and_start H 3 "job4".
  get_and_start H 4 "job5". exact H.
Qed.

Lemma at_most_five_pipelines_witness :
  system_reachable Scenario.full_house
  /\ executing Scenario.full_house = 5
  /\ (length (workers Scenario.full_house) = 5
      /\ executing Scenario.full_house <= 5
      /\ NoDup (map awaited_by (in_flight Scenario.full_house))
      /\ Forall (fun it => workers Scenario.full_house !! awaited_by it
                           = Some (Awaiting (folder it)))
           (in_flight Scenario.full_house)
      /\ length (in_flight Scenario.full_house) <= 5).
Proof.
  exact (conj full_house_is_reachable
           (conj eq_refl (at_most_five_pipelines Scenario.full_house
                            full_house_is_reachable))).
Defined.

End PoolFacts.

(** * Further properties *)

(** ** The characters of a text *)
Module Utf8Facts.
Import Utf8 PathFacts.

(** how a text starts that has a first character *)
Lemma chars_cons s c cs :
  chars s = Some (c :: cs) ->
  exists r, s = c +:+ r /\ chars r = Some cs /\ chars c = Some [c].
Proof.
  destruct s as [|b0 r0]; [discriminate |]. cbn [chars].
  destruct (one b0) eqn:H1.
  { destruct (chars r0) as [l|] eqn:Hr; [| discriminate]. intros [= <- <-].
    exists r0. split; [by rewrite append_cons, append_nil_l |]. split; [done |].
    cbn [chars]. by rewrite H1. }
  destruct r0 as [|b1 r1]; [discriminate |].
  destruct (two b0 b1) eqn:H2.
  { destruct (chars r1) as [l|] eqn:Hr; [| discriminate]. intros [= <- <-].
    exists r1. split; [by rewrite !append_cons, append_nil_l |]. split; [done |].
    cbn [chars]. by rewrite H1, H2. }
  destruct r1 as [|b2 r2]; [discriminate |].
  destruct (three b0 b1 b2) eqn:H3.
  { destruct (chars r2) as [l|] eqn:Hr; [| discriminate]. intros [= <- <-].
    exists r2. split; [by rewrite !append_cons, append_nil_l |]. split; [done |].
    cbn [chars]. by rewrite H1, H2, H3. }
  destruct r2 as [|b3 r3]; [discriminate |].
  destruct (four b0 b1 b2 b3) eqn:H4; [| discriminate].
  destruct (chars r3) as [l|] eqn:Hr; [| discriminate]. intros [= <- <-].
  exists r3. split; [by rewrite !append_cons, append_nil_l |]. split; [done |].
  cbn [chars]. by rewrite H1, H2, H3, H4.
Qed.

Lemma chars_nil s : chars s = Some [] -> s = "".
Proof.
  destruct s as [|b0 r0]; [done |]. cbn [chars].
  repeat (case_match; try discriminate);
    by destruct (chars _).
Qed.

(** a character in front of a text *)
Lemma chars_step c r :
  chars c = Some [c] -> chars (c +:+ r) = cons c <$> chars r.
Proof.
  intros Hc.
  destruct c as [|b0 [|b1 [|b2 [|b3 [|b4 c]]]]]; cbn [chars] in Hc;
    rewrite ?append_cons, ?append_nil_l; cbn [chars];
    repeat (case_match; try discriminate; simplify_eq/=); try done.
  all: destruct (chars _); discriminate.
Qed.

(** the characters of a text make up the text *)
Lemma chars_text cs : forall s, chars s = Some cs -> text cs = s.
Proof.
  induction cs as [|c cs IH]; intros s Hs.
  - by apply chars_nil in Hs.
  - apply chars_cons in Hs as (r & -> & Hr & _). simpl. by rewrite (IH r).
Qed.

Lemma chars_app u v l1 l2 :
  chars u = Some l1 -> chars v = Some l2 -> chars (u +:+ v) = Some (l1 ++ l2).
Proof.
  revert u. induction l1 as [|c l1 IH]; intros u Hu Hv.
  - apply chars_nil in Hu as ->. by rewrite append_nil_l.
  - apply chars_cons in Hu as (r & -> & Hr & Hc).
    rewrite append_assoc, (chars_step _ _ Hc), (IH r Hr Hv). done.
Qed.

(** an ASCII byte is a character *)
Lemma chars_ascii b : one b = true -> chars (String b "") = Some [String b ""].
Proof. intros H. cbn [chars]. by rewrite H. Qed.

(** a text of ASCII bytes: each is a character *)
Lemma chars_singles s :
  Py.string_forallb one s = true -> chars s = Some (singles s).
Proof.
  induction s as [|b s IH]; [done |]. simpl.
  intros [Hb Hs]%andb_true_iff. rewrite Hb, (IH Hs). done.
Qed.

Lemma text_singles s : text (singles s) = s.
Proof. induction s as [|b s IH]; [done |]. simpl. by rewrite IH. Qed.

Lemma length_singles s : length (singles s) = String.length s.
Proof. induction s as [|b s IH]; [done |]. simpl. by rewrite IH. Qed.

Lemma digit_is_ascii c : Py.isdigit c = true -> one c = true.
Proof.
  unfold Py.isdigit, one, between. cbv zeta.
  intros [H1 H2]%andb_true_iff. apply Nat.leb_le in H1, H2.
  apply andb_true_iff. split; apply Nat.leb_le; lia.
Qed.

End Utf8Facts.

Module ReFacts.
Import Re ReSem.

Section Alphabet.
Context {A : Type}.
Implicit Types r : regex A.

Lemma nullable_lang r : nullable r = true <-> lang r [].
Proof.
  induction r as [| |p|r1 IH1 r2 IH2|r1 IH1 r2 IH2]; simpl.
  - split; [discriminate | done].
  - done.
  - split; [discriminate | by intros (c & ? & _)].
  - rewrite andb_true_iff, IH1, IH2. split.
    + intros [H1 H2]. by exists [], [].
    + intros (s1 & s2 & Hs & H1 & H2). symmetry in Hs.
      apply app_eq_nil in Hs as [-> ->]. done.
  - by rewrite orb_true_iff, IH1, IH2.
Qed.

Lemma deriv_lang r : forall c s, lang (deriv c r) s <-> lang r (c :: s).
Proof.
  induction r as [| |p|r1 IH1 r2 IH2|r1 IH1 r2 IH2]; intros c s; simpl.
  - done.
  - split; [done | discriminate].
  - destruct (p c) eqn:Hp; simpl.
    + split.
      * intros ->. by exists c.
      * by intros (c' & [= <- ->] & _).
    + split; [done |]. intros (c' & [= <- ->] & Hp'). congruence.
  - assert (Hcat : lang (Cat (deriv c r1) r2) s <->
              exists s1 s2, s = s1 ++ s2 /\ lang r1 (c :: s1) /\ lang r2 s2).
    { simpl. split; intros (s1 & s2 & Hs & H1 & H2); exists s1, s2;
        (split; [done |]); (split; [by apply IH1 | done]). }
    destruct (nullable r1) eqn:Hn.
    + change (lang (Cat (deriv c r1) r2) s \/ lang (deriv c r2) s <->
              exists s1 s2, c :: s = s1 ++ s2 /\ lang r1 s1 /\ lang r2 s2).
      rewrite Hcat, IH2. apply nullable_lang in Hn. split.
      * intros [(s1 & s2 & -> & H1 & H2) | H2].
        -- by exists (c :: s1), s2.
        -- by exists [], (c :: s).
      * intros (s1 & s2 & Hs & H1 & H2). destruct s1 as [|c' s1].
        -- right. simpl in Hs. by subst.
        -- left. injection Hs as <- ->. by exists s1, s2.
    + rewrite Hcat. split.
      * intros (s1 & s2 & -> & H1 & H2). by exists (c :: s1), s2.
      * intros (s1 & s2 & Hs & H1 & H2). destruct s1 as [|c' s1].
        -- apply nullable_lang in H1. congruence.
        -- injection Hs as <- ->. by exists s1, s2.
  - by rewrite IH1, IH2.
Qed.

(** the matcher decides the words of the expression *)
Lemma fullmatch_lang s : forall r, fullmatch r s = true <-> lang r s.
Proof.
  induction s as [|c s IH]; intros r; simpl.
  - apply nullable_lang.
  - rewrite IH. apply deriv_lang.
Qed.

Lemma lang_Opt r s : lang (Opt r) s <-> lang r s \/ s = [].
Proof. reflexivity. Qed.

(** [p{n}]: the words of [n] characters of the class *)
Lemma lang_Rep (p : A -> bool) n : forall s : list A,
  lang (Rep n (Chr p)) s <-> length s = n /\ forallb p s = true.
Proof.
  induction n as [|n IH]; intros s; simpl.
  - split; [by intros -> | intros [H _]; by destruct s].
  - split.
    + intros (s1 & s2 & -> & (c & -> & Hc) & H2). apply IH in H2 as [<- H2].
      simpl. by rewrite Hc, H2.
    + intros [Hl Hp]. destruct s as [|c s]; [discriminate |].
      simpl in Hl, Hp. apply andb_true_iff in Hp as [Hc Hp].
      exists [c], s. split; [done |]. split; [by exists c |].
      apply IH. split; [lia | done].
Qed.

End Alphabet.

Lemma lang_Lit c s : lang (Lit c) s <-> s = [c].
Proof.
  unfold Lit. simpl. split.
  - intros (d & -> & Hd). apply String.eqb_eq in Hd. by subst.
  - intros ->. exists c. by rewrite String.eqb_refl.
Qed.

End ReFacts.

Module GcaFacts.
Import Py Utf8 Re ReSem Utf8Facts ReFacts Api PathFacts.

Lemma text_app l1 l2 : text (l1 ++ l2) = text l1 +:+ text l2.
Proof.
  induction l1 as [|c l1 IH]; [done |]. simpl. by rewrite IH, append_assoc.
Qed.

Lemma text_one d : text [d] = d.
Proof. simpl. induction d as [|b d IH]; [done |]. by rewrite append_cons, IH. Qed.

(** every element of the characters of a text is a character *)
Lemma chars_each cs : forall s,
  chars s = Some cs -> Forall (fun c => chars c = Some [c]) cs.
Proof.
  induction cs as [|c cs IH]; intros s Hs; [constructor |].
  apply chars_cons in Hs as (r & _ & Hr & Hc). constructor; [done | by eapply IH].
Qed.

(** characters that are ASCII digits, as a text *)
Lemma digits_text ds :
  forallb ascii_digit ds = true ->
  String.length (text ds) = length ds
  /\ string_forallb isdigit (text ds) = true.
Proof.
  induction ds as [|c ds IH]; [done |]. simpl.
  intros [Hc Hds]%andb_true_iff. destruct (IH Hds) as [Hl Hd].
  destruct c as [|b [|? ?]]; try discriminate. simpl in Hc.
  rewrite append_cons, append_nil_l. simpl. by rewrite Hl, Hc, Hd.
Qed.

Lemma singles_digits s :
  string_forallb isdigit s = true -> forallb ascii_digit (singles s) = true.
Proof.
  induction s as [|b s IH]; [done |]. simpl.
  intros [Hb Hs]%andb_true_iff. by rewrite Hb, IH.
Qed.

Lemma digits_are_ascii s :
  string_forallb isdigit s = true -> string_forallb one s = true.
Proof.
  induction s as [|b s IH]; [done |]. simpl.
  intros [Hb Hs]%andb_true_iff. by rewrite (digit_is_ascii _ Hb), IH.
Qed.

(** the words of [GCACODE_PATTERN], spelled out *)
Lemma gca_code_words decimal s :
  validate_gca_code decimal s = true <->
  exists a digits version eol,
    s = "GC" +:+ String a "" +:+ "_" +:+ digits +:+ version +:+ eol
    /\ (a = "A"%char \/ a = "F"%char)
    /\ String.length digits = 9
    /\ string_forallb isdigit digits = true
    /\ (version = "" \/
        exists d, chars d = Some [d] /\ unicode_digit decimal d = true
                  /\ version = "." +:+ d)
    /\ (eol = "" \/ eol = nl).
Proof.
  unfold validate_gca_code. split.
  - destruct (chars s) as [cs|] eqn:Hcs; [| discriminate].
    rewrite fullmatch_lang. unfold GCACODE_PATTERN.
    cbn [lang]. setoid_rewrite lang_Lit. setoid_rewrite lang_Opt.
    setoid_rewrite lang_Rep. setoid_rewrite lang_Lit. cbn [lang].
    intros (g & r1 & -> & -> & c & r2 & -> & -> & a & r3 & -> & (a' & -> & Ha)
            & u & r4 & -> & -> & ds & r5 & -> & [Hl Hd]
            & ver & eolc & -> & Hv & He).
    pose proof (chars_each _ _ Hcs) as Hall.
    apply chars_text in Hcs as <-.
    destruct (digits_text _ Hd) as [Hlen Hdig].
    assert (Ha' : exists x, a' = String x "" /\ (x = "A"%char \/ x = "F"%char)).
    { apply orb_true_iff in Ha as [Ha | Ha]; apply String.eqb_eq in Ha;
        subst a'; eexists; (split; [reflexivity |]); auto. }
    destruct Ha' as (x & -> & Hx).
    exists x, (text ds), (text ver), (text eolc).
    split.
    { rewrite !text_app. reflexivity. }
    split; [done |]. split; [by rewrite Hlen |]. split; [done |]. split.
    + destruct Hv as [(p & dd & -> & ->%lang_Lit & d & -> & Hdd) | ->]; [| by left].
      right. exists d. split; [| split; [done | by rewrite text_app, !text_one]].
      rewrite Forall_forall in Hall. apply Hall.
      rewrite !elem_of_app, !list_elem_of_singleton. tauto.
    + destruct He as [-> | ->]; [by right | by left].
  - intros (a & digits & version & eol & -> & Ha & Hl & Hd & Hv & He).
    assert (Hver : exists vc, chars version = Some vc
                     /\ (vc = [] \/ exists d, vc = ["."; d]
                                     /\ unicode_digit decimal d = true)).
    { destruct Hv as [-> | (d & Hc & Hdd & ->)].
      - exists []. split; [done | by left].
      - exists ["."; d]. split; [| right; by exists d].
        change ("." +:+ d) with (String "." "" +:+ d).
        by rewrite (chars_step "." d eq_refl), Hc. }
    destruct Hver as (vc & Hvc & Hvc').
    assert (Heol : exists ec, chars eol = Some ec /\ (ec = [] \/ ec = [nl])).
    { destruct He as [-> | ->]; [exists []; auto | exists [nl]; auto]. }
    destruct Heol as (ec & Hec & Hec').
    assert (Hhead : chars ("GC" +:+ String a "" +:+ "_")
                    = Some ["G"; "C"; String a ""; "_"]).
    { destruct Ha as [-> | ->]; reflexivity. }
    assert (Hcs : chars ("GC" +:+ String a "" +:+ "_" +:+ digits +:+ version +:+ eol)
                  = Some (["G"; "C"; String a ""; "_"] ++ singles digits ++ vc ++ ec)).
    { rewrite <- !append_assoc. rewrite !append_assoc.
      change ("GC" +:+ String a "" +:+ "_" +:+ digits +:+ version +:+ eol)
        with (("GC" +:+ String a "" +:+ "_") +:+ digits +:+ version +:+ eol).
      apply chars_app; [done |]. apply chars_app.
      { apply chars_singles. by apply digits_are_ascii. }
      by apply chars_app. }
    rewrite Hcs, fullmatch_lang. unfold GCACODE_PATTERN.
    cbn [lang]. setoid_rewrite lang_Lit. setoid_rewrite lang_Opt.
    setoid_rewrite lang_Rep. setoid_rewrite lang_Lit. cbn [lang].
    exists ["G"], (["C"; String a ""; "_"] ++ singles digits ++ vc ++ ec).
    split; [reflexivity |]. split; [reflexivity |].
    exists ["C"], ([String a ""; "_"] ++ singles digits ++ vc ++ ec).
    split; [reflexivity |]. split; [reflexivity |].
    exists [String a ""], (["_"] ++ singles digits ++ vc ++ ec).
    split; [reflexivity |]. split.
    { exists (String a ""). split; [done |]. destruct Ha as [-> | ->]; reflexivity. }
    exists ["_"], (singles digits ++ vc ++ ec).
    split; [reflexivity |]. split; [reflexivity |].
    exists (singles digits), (vc ++ ec). split; [reflexivity |].
    split; [split; [by rewrite length_singles | by apply singles_digits] |].
    exists vc, ec. split; [reflexivity |]. split.
    + destruct Hvc' as [-> | (d & -> & Hdd)]; [by right |]. left.
      exists ["."], [d]. split; [reflexivity |]. split; [by apply lang_Lit |].
      by exists d.
    + destruct Hec' as [-> | ->]; [by right | by left].
Qed.

(** a code that is accepted starts with the character [G] *)
Lemma valid_first decimal s :
  validate_gca_code decimal s = true -> exists cs, chars s = Some ("G" :: cs).
Proof.
  unfold validate_gca_code. destruct (chars s) as [cs|]; [| discriminate].
  rewrite fullmatch_lang. unfold GCACODE_PATTERN. cbn [lang].
  intros (g & r1 & -> & ->%lang_Lit & _). by eexists.
Qed.

(** X1. [validate_gca_code] accepts exactly: [GC], then [A] or [F], an
    underscore, nine ASCII digits, at most one version of a dot and one
    character that is a decimal digit of the Unicode database (an ASCII
    digit or one that [decimal] knows), and at most one line feed at the
    very end. *)
Theorem validate_gca_code_shape decimal s :
  validate_gca_code decimal s = true <->
  exists a digits version eol,
    s = "GC" +:+ String a "" +:+ "_" +:+ digits +:+ version +:+ eol
    /\ (a = "A"%char \/ a = "F"%char)
    /\ String.length digits = 9
    /\ string_forallb isdigit digits = true
    /\ (version = "" \/
        exists d, chars d = Some [d] /\ unicode_digit decimal d = true
                  /\ version = "." +:+ d)
    /\ (eol = "" \/ eol = nl).
Proof. exact (gca_code_words decimal s). Qed.

End GcaFacts.

Module AbsFacts.
Import Py PosixPath PathFacts.

Lemma split_sepfree c s :
  Forall (fun w => string_forallb (fun d => negb (Ascii.eqb d c)) w = true)
    (split c s).
Proof.
  induction s as [|d s IH]; simpl; [by repeat constructor |].
  destruct (Ascii.eqb d c) eqn:Hd; [by constructor |].
  destruct (split c s) as [|w ws]; [by repeat constructor; simpl; rewrite Hd |].
  apply Forall_cons in IH as [Hw Hws]. constructor; [| done].
  simpl. by rewrite Hd, Hw.
Qed.

Lemma is_name_intro n :
  n <> "" -> n <> "." -> n <> ".." ->
  string_forallb (fun c => negb (Ascii.eqb c sep)) n = true -> is_name n = true.
Proof.
  intros H1 H2 H3 H4. unfold is_name. rewrite H4.
  destruct (String.eqb_spec n ""); [done |].
  destruct (String.eqb_spec n "."); [done |].
  by destruct (String.eqb_spec n "..").
Qed.

(** on a rooted path the loop of [normpath] walks as the kernel does *)
Lemma norm_fold_rooted comps : forall acc,
  Forall (fun w => string_forallb (fun d => negb (Ascii.eqb d sep)) w = true) comps ->
  Forall (fun n => is_name n = true) acc ->
  fold_left (norm_step true) comps acc = fold_left step comps acc
  /\ Forall (fun n => is_name n = true) (fold_left step comps acc).
Proof.
  induction comps as [|c cs IH]; intros acc Hsf Hacc; simpl; [done |].
  apply Forall_cons in Hsf as [Hc Hcs].
  assert (Hstep : norm_step true acc c = step acc c
                  /\ Forall (fun n => is_name n = true) (step acc c)).
  { unfold norm_step, step.
    destruct (String.eqb c "" || String.eqb c ".") eqn:He; [done |].
    apply orb_false_iff in He as [He1 He2].
    destruct (String.eqb_spec c "..") as [-> | Hne]; cbn [negb orb andb].
    - assert (Hl : last acc <> Some "..").
      { intros Hl. apply last_Some in Hl as [l' ->].
        apply Forall_app in Hacc as [_ Hx]. by apply Forall_cons in Hx as [Hx _]. }
      rewrite bool_decide_eq_false_2 by done. split; [done |].
      destruct (decide (acc = [])) as [-> | Hn]; [done |].
      destruct (exists_last Hn) as (l & x & ->). rewrite removelast_last.
      by apply Forall_app in Hacc as [Hacc _].
    - split; [done |]. apply Forall_app. split; [done |].
      constructor; [| done]. apply is_name_intro; try done.
      + by apply String.eqb_neq.
      + by apply String.eqb_neq. }
  destruct Hstep as [-> Hn]. by apply IH.
Qed.

Lemma fold_step_names comps : forall acc,
  Forall (fun n => is_name n = true) comps ->
  fold_left step comps acc = acc ++ comps.
Proof.
  induction comps as [|c cs IH]; intros acc H; simpl; [by rewrite app_nil_r |].
  apply Forall_cons in H as [Hc Hcs].
  rewrite step_name by done. rewrite IH by done. by rewrite <- app_assoc.
Qed.

(** splitting what [join] put together gives the parts back *)
Lemma split_join comps :
  Forall (fun n => is_name n = true) comps -> comps <> [] ->
  split sep (Py.join "/" comps) = comps.
Proof.
  induction comps as [|c cs IH]; intros H Hne; [done |].
  apply Forall_cons in H as [Hc Hcs].
  destruct cs as [|c' cs'].
  - simpl. by apply is_name_split.
  - change (Py.join "/" (c :: c' :: cs'))
      with (c +:+ String sep (Py.join "/" (c' :: cs'))).
    rewrite split_app_sep, IH by done. by rewrite (is_name_split c Hc).
Qed.

Lemma fold_step_split_join comps acc :
  Forall (fun n => is_name n = true) comps ->
  fold_left step (split sep (Py.join "/" comps)) acc = acc ++ comps.
Proof.
  intros H. destruct comps as [|c cs].
  - simpl. by rewrite app_nil_r.
  - rewrite split_join by done. by apply fold_step_names.
Qed.

Lemma count_leading_abs p : isabs p = true -> 1 <= count_leading sep p.
Proof.
  destruct p as [|c p]; [discriminate |]. unfold isabs. simpl.
  intros ->. lia.
Qed.

(** what [normpath] makes of an absolute path *)
Lemma normpath_abs p :
  isabs p = true ->
  exists k, (k = 1 \/ k = 2)
    /\ k = (if count_leading sep p =? 2 then 2 else 1)
    /\ normpath p
       = repeat_char sep k +:+ Py.join "/" (fold_left step (split sep p) [])
    /\ Forall (fun n => is_name n = true) (fold_left step (split sep p) []).
Proof.
  intros Habs. unfold normpath.
  destruct (String.eqb_spec p "") as [-> | Hne]; [discriminate |].
  rewrite Habs.
  set (k := if count_leading sep p =? 2 then 2 else 1).
  assert (Hk : k = 1 \/ k = 2) by (unfold k; destruct (_ =? 2); auto).
  assert (Hz : (k =? 0) = false) by (destruct Hk as [-> | ->]; done).
  rewrite Hz. cbn [negb].
  destruct (norm_fold_rooted (split sep p) [] (split_sepfree sep p) ltac:(done))
    as [-> Hnames].
  exists k. split; [done |]. split; [done |]. split; [| done].
  destruct Hk as [-> | ->]; reflexivity.
Qed.

(** [normpath] names the place the path names *)
Lemma locate_normpath cwd p :
  isabs p = true -> locate cwd (normpath p) = locate cwd p
                    /\ isabs (normpath p) = true.
Proof.
  intros Habs. destruct (normpath_abs p Habs) as (k & Hk & _ & -> & Hn).
  unfold locate at 2. rewrite Habs.
  set (comps := fold_left step (split sep p) []) in *.
  destruct Hk as [-> | ->]; cbn [repeat_char]; rewrite !append_cons, append_nil_l.
  - split; [| reflexivity]. unfold locate. cbn [isabs startswith_char].
    rewrite Ascii.eqb_refl.
    change (String sep (Py.join "/" comps)) with ("" +:+ String sep (Py.join "/" comps)).
    rewrite split_app_sep. cbn [split app fold_left]. 
    change (step [] "") with (@nil string).
    by rewrite fold_step_split_join.
  - split; [| reflexivity]. unfold locate. cbn [isabs startswith_char].
    rewrite Ascii.eqb_refl.
    change (String sep (String sep (Py.join "/" comps)))
      with ("" +:+ String sep ("" +:+ String sep (Py.join "/" comps))).
    rewrite !split_app_sep. cbn [split app fold_left].
    change (step [] "") with (@nil string).
    by rewrite fold_step_split_join.
Qed.

Lemma isabs_join a b : isabs a = true -> isabs b = false -> isabs (join a b) = true.
Proof.
  intros Ha Hb. rewrite join_rel by done.
  destruct a as [|c a]; [discriminate |].
  destruct (String.eqb (String c a) "" || endswith_char sep (String c a));
    by rewrite ?append_cons.
Qed.

(** [abspath] names the place the path names from the working directory *)
Lemma locate_abspath getcwd p :
  isabs getcwd = true ->
  locate (locate [] getcwd) (abspath getcwd p) = locate (locate [] getcwd) p
  /\ isabs (abspath getcwd p) = true.
Proof.
  intros Hcwd. unfold abspath. destruct (isabs p) eqn:Hp.
  - by apply locate_normpath.
  - pose proof (isabs_join _ _ Hcwd Hp) as Hj.
    destruct (locate_normpath (locate [] getcwd) _ Hj) as [-> ->].
    split; [| done]. rewrite locate_join by done.
    assert (Hc : locate (locate [] getcwd) getcwd = locate [] getcwd)
      by (unfold locate; by rewrite Hcwd).
    rewrite Hc.
    change (locate (locate [] getcwd) p)
      with (fold_left step (split sep p)
              (if isabs p then [] else locate [] getcwd)).
    by rewrite Hp.
Qed.

Lemma append_nil_r (a : string) : a +:+ "" = a.
Proof. induction a as [|x a IH]; [done |]. by rewrite append_cons, IH. Qed.

Lemma count_leading_join comps :
  Forall (fun n => is_name n = true) comps ->
  count_leading sep (Py.join "/" comps) = 0.
Proof.
  intros H. destruct comps as [|c cs]; [reflexivity |].
  apply Forall_cons in H as [Hn _]. pose proof (is_name_rel _ Hn) as Hc.
  assert (Hj : exists r, Py.join "/" (c :: cs) = c +:+ r).
  { destruct cs; [exists ""; simpl; by rewrite append_nil_r | by eexists]. }
  destruct Hj as [r ->]. destruct c as [|x c]; [discriminate |].
  unfold isabs in Hc. simpl in Hc. rewrite append_cons. simpl. by rewrite Hc.
Qed.

(** normalising twice is normalising once *)
Lemma normpath_idem p : isabs p = true -> normpath (normpath p) = normpath p.
Proof.
  intros Habs.
  destruct (locate_normpath [] p Habs) as [Hloc Habs'].
  destruct (normpath_abs p Habs) as (k & Hk & _ & Hp & Hn).
  destruct (normpath_abs _ Habs') as (k' & _ & Hk' & Hp' & _).
  assert (Hcomps : fold_left step (split sep (normpath p)) []
                   = fold_left step (split sep p) []).
  { unfold locate in Hloc. by rewrite Habs, Habs' in Hloc. }
  rewrite Hp', Hcomps, Hp. f_equal. rewrite Hk', Hp.
  pose proof (count_leading_join _ Hn) as Hc.
  destruct Hk as [-> | ->]; cbn [repeat_char]; rewrite !append_cons, append_nil_l;
    cbn [count_leading]; rewrite ?Ascii.eqb_refl;
    fold (count_leading sep (Py.join "/" (fold_left step (split sep p) [])));
    by rewrite Hc.
Qed.

Lemma abspath_idem getcwd p :
  isabs getcwd = true -> abspath getcwd (abspath getcwd p) = abspath getcwd p.
Proof.
  intros Hcwd. destruct (locate_abspath getcwd p Hcwd) as [_ Habs].
  unfold abspath at 1. rewrite Habs. unfold abspath.
  destruct (isabs p) eqn:Hp; apply normpath_idem; [done |].
  by apply isabs_join.
Qed.

End AbsFacts.

Module FrameFacts.
Import Eff Frame PathFacts FsFacts EffFacts.

Section Rules.
Context (R : world -> world -> Prop).
Context (R_refl : forall w, R w w).
Context (R_trans : forall w1 w2 w3, R w1 w2 -> R w2 w3 -> R w1 w3).

Lemma steps_ret {A} (a : A) : steps R (ret a).
Proof. intros w w' r [= <- _]. apply R_refl. Qed.

Lemma steps_raise {A} e : steps R (@raise A e).
Proof. intros w w' r [= <- _]. apply R_refl. Qed.

Lemma steps_bind {A B} (m : M A) (k : A -> M B) :
  steps R m -> (forall a, steps R (k a)) -> steps R (bind m k).
Proof.
  intros Hm Hk w w' r. unfold bind.
  destruct (m w) as [w1 [a|e]] eqn:H1.
  - intros H2. eapply R_trans; [by eapply Hm | by eapply Hk].
  - intros [= <- _]. by eapply Hm.
Qed.

Lemma steps_try_except {A} (m : M A) h :
  steps R m -> (forall e, steps R (h e)) -> steps R (try_except m h).
Proof.
  intros Hm Hh w w' r. unfold try_except.
  destruct (m w) as [w1 [a|e]] eqn:H1.
  - intros [= <- _]. by eapply Hm.
  - intros H2. eapply R_trans; [by eapply Hm | by eapply Hh].
Qed.

Lemma steps_try_or_return {A} (m : M A) h k :
  steps R m -> (forall e, steps R (h e)) -> (forall a, steps R (k a)) ->
  steps R (try_or_return m h k).
Proof.
  intros Hm Hh Hk w w' r. unfold try_or_return.
  destruct (m w) as [w1 [a|e]] eqn:H1; intros H2;
    (eapply R_trans; [by eapply Hm |]); [by eapply Hk | by eapply Hh].
Qed.

Lemma steps_try_finally {A} (m : M A) c :
  steps R m -> steps R c -> steps R (try_finally m c).
Proof.
  intros Hm Hc w w' r. unfold try_finally.
  destruct (m w) as [w1 r1] eqn:H1. destruct (c w1) as [w2 [[]|e]] eqn:H2;
    intros [= <- _]; (eapply R_trans; [by eapply Hm | by eapply Hc]).
Qed.

End Rules.

(** *** the trace *)

Lemma emits_refl P w : emits P w w.
Proof. exists []. by rewrite app_nil_r. Qed.

Lemma emits_trans P w1 w2 w3 : emits P w1 w2 -> emits P w2 w3 -> emits P w1 w3.
Proof.
  intros (e1 & H1 & F1) (e2 & H2 & F2). exists (e1 ++ e2).
  split; [by rewrite H2, H1, app_assoc | by apply Forall_app].
Qed.

Lemma emits_impl (P Q : event -> Prop) w w' :
  (forall ev, P ev -> Q ev) -> emits P w w' -> emits Q w w'.
Proof. intros H (e & He & F). exists e. split; [done |]. by eapply Forall_impl. Qed.

Lemma emits_emitted P w w' : emits P w w' -> Forall P (emitted w w').
Proof. intros (e & He & F). by rewrite (emitted_app _ _ _ He). Qed.

Section Prims.
Context (E : env) (P : event -> Prop).

Lemma emits_makedirs path : P (EvMkdir path) -> steps (emits P) (makedirs E path).
Proof.
  intros HP w w' r. unfold makedirs. destruct (os_error E _); intros [= <- _].
  - apply emits_refl.
  - exists [EvMkdir path]. by repeat constructor.
Qed.

Lemma emits_run cmd : P (EvRun cmd) -> steps (emits P) (run E cmd).
Proof.
  intros HP w w' r. unfold run, log.
  destruct (subprocess_run E _); intros [= <- _];
    exists [EvRun cmd]; by repeat constructor.
Qed.

Lemma emits_open_w path text : P (EvCreate path) -> steps (emits P) (open_w E path text).
Proof.
  intros HP w w' r. unfold open_w. destruct (os_error E _); intros [= <- _].
  - apply emits_refl.
  - exists [EvCreate path]. by repeat constructor.
Qed.

Lemma emits_open_a path text : P (EvAppend path) -> steps (emits P) (open_a E path text).
Proof.
  intros HP w w' r. unfold open_a. destruct (os_error E _); intros [= <- _].
  - apply emits_refl.
  - exists [EvAppend path]. by repeat constructor.
Qed.

End Prims.

(** *** the files *)

Lemma fold_mkdir1_lookup ps : forall m k,
  fold_left Fs.mkdir1 ps m !! k
  = match m !! k with
    | Some n => Some n
    | None => if decide (k ∈ ps) then Some Fs.Dir else None
    end.
Proof.
  induction ps as [|p ps IH]; intros m k; simpl.
  - by destruct (m !! k).
  - rewrite IH. unfold Fs.mkdir1 at 1.
    destruct (m !! p) eqn:Hp.
    + destruct (m !! k) eqn:Hk; [done |].
      destruct (decide (k ∈ ps)) as [Hin | Hin].
      * rewrite decide_True; [done | by right].
      * destruct (decide (k = p)) as [-> | Hne]; [congruence |].
        rewrite decide_False; [done |].
        by intros [?|?]%elem_of_cons.
    + destruct (decide (k = p)) as [-> | Hne].
      * rewrite lookup_insert_eq, Hp. rewrite decide_True; [done | by left].
      * rewrite lookup_insert_ne by done. destruct (m !! k); [done |].
        destruct (decide (k ∈ ps)) as [Hin | Hin].
        -- rewrite decide_True; [done | by right].
        -- rewrite decide_False; [done |]. by intros [?|?]%elem_of_cons.
Qed.

(** [os.makedirs]: what is there stays, what is missing on the way is made *)
Lemma makedirs_lookup t loc k :
  Fs.makedirs t loc !! k
  = match t !! k with
    | Some n => Some n
    | None => if decide (k ∈ Fs.ancestors loc) then Some Fs.Dir else None
    end.
Proof. apply fold_mkdir1_lookup. Qed.

Lemma ancestors_prefix loc k : k ∈ Fs.ancestors loc -> k `prefix_of` loc /\ k <> [].
Proof.
  revert k. induction loc as [|c r IH]; intros k; simpl.
  - by intros ?%elem_of_nil.
  - intros [-> | Hk]%elem_of_cons.
    + split; [by exists r | done].
    + apply list_elem_of_fmap in Hk as (k' & -> & Hk').
      destruct (IH _ Hk') as [[x ->] _]. split; [by exists x | done].
Qed.

Lemma prefix_cases (d k rest : list string) :
  k `prefix_of` d ++ rest -> k `prefix_of` d \/ (d `prefix_of` k /\ k <> d).
Proof.
  intros Hk.
  destruct (prefix_weak_total _ _ _ Hk (prefix_app_r d d rest (reflexivity d)))
    as [H | H]; [by left |].
  destruct (decide (k = d)) as [-> | Hne]; [by left | by right].
Qed.

Lemma confined_refl d w : confined d w w.
Proof. split; [done | by left]. Qed.

Lemma confined_trans d w1 w2 w3 :
  confined d w1 w2 -> confined d w2 w3 -> confined d w1 w3.
Proof.
  intros [K1 O1] [K2 O2]. split; [eauto |].
  intros k Hk. destruct (O1 k Hk) as [E1 | (N1 & D1 & P1)],
    (O2 k Hk) as [E2 | (N2 & D2 & P2)].
  - left. congruence.
  - right. rewrite <- E1. done.
  - right. rewrite E2. done.
  - congruence.
Qed.

Section FilePrims.
Context (E : env) (d : list string).

Lemma confined_makedirs path :
  d `prefix_of` loc_of E path -> steps (confined d) (makedirs E path).
Proof.
  intros [rest Hloc] w w' r. unfold makedirs.
  destruct (os_error E _); intros [= <- _]; [apply confined_refl |].
  split; cbn [files].
  - intros k Hk. by apply makedirs_keep_some.
  - intros k Hk. rewrite makedirs_lookup.
    destruct (files w !! k) eqn:Hw; [by left |].
    destruct (decide (k ∈ Fs.ancestors (loc_of E path))) as [Hin | Hin]; [| by left].
    right. repeat split; try done.
    apply ancestors_prefix in Hin as [Hp _]. rewrite Hloc in Hp.
    destruct (prefix_cases _ _ _ Hp) as [? | Hb]; [done |]. by destruct Hk.
Qed.

Lemma confined_run cmd : steps (confined d) (run E cmd).
Proof.
  intros w w' r. unfold run, log.
  destruct (subprocess_run E _); intros [= <- _]; (split; [done | by left]).
Qed.

Lemma below_snoc n : below d (d ++ [n]).
Proof.
  split; [by exists [n] |]. intros H. apply (f_equal length) in H.
  rewrite length_app in H. simpl in H. lia.
Qed.

Lemma confined_open_w path text :
  below d (loc_of E path) -> steps (confined d) (open_w E path text).
Proof.
  intros Hb w w' r. unfold open_w.
  destruct (os_error E _); intros [= <- _]; [apply confined_refl |].
  split; cbn [files].
  - intros k Hk. by apply write_keep.
  - intros k Hk. left. unfold Fs.write. apply lookup_insert_ne. by intros <-.
Qed.

Lemma confined_open_a path text :
  below d (loc_of E path) -> steps (confined d) (open_a E path text).
Proof.
  intros Hb w w' r. unfold open_a.
  destruct (os_error E _); intros [= <- _]; [apply confined_refl |].
  split; cbn [files].
  - intros k Hk. by apply append_keep.
  - intros k Hk. left. unfold Fs.append. apply lookup_insert_ne. by intros <-.
Qed.

End FilePrims.
End FrameFacts.

Module StatFacts.
Import Py PosixPath Fs PathFacts FsFacts AbsFacts FrameFacts.

Lemma walk_app t c1 : forall loc c2,
  walk t loc (c1 ++ c2)
  = match walk t loc c1 with
    | Some l => walk t l c2
    | None => None
    end.
Proof.
  induction c1 as [|c cs IH]; intros loc c2; simpl; [done |].
  destruct (is_dir t loc); [apply IH | done].
Qed.

(** the components of a directory joined with a name *)
Lemma split_join_name d n :
  d <> "" -> is_name n = true ->
  exists comps,
    split sep (join d n) = comps ++ [n]
    /\ (split sep d = comps \/ split sep d = comps ++ [""]).
Proof.
  intros Hd Hn. rewrite join_rel by by apply is_name_rel.
  destruct (String.eqb_spec d "") as [-> | _]; [done |]. rewrite orb_false_l.
  destruct (endswith_char sep d) eqn:He.
  - apply endswith_char_inv in He as [a ->]. exists (split sep a).
    rewrite append_assoc, append_cons, append_nil_l.
    rewrite !split_app_sep, (is_name_split _ Hn). split; [done |]. by right.
  - exists (split sep d).
    change ((d +:+ "/") +:+ n) with ((d +:+ String sep "") +:+ n).
    rewrite append_assoc, append_cons, append_nil_l.
    rewrite split_app_sep, (is_name_split _ Hn). split; [done | by left].
Qed.

Lemma isabs_join_name d n :
  d <> "" -> is_name n = true -> isabs (join d n) = isabs d.
Proof.
  intros Hd Hn. rewrite join_rel by by apply is_name_rel.
  destruct d as [|c d]; [done |].
  destruct (String.eqb (String c d) "" || endswith_char sep (String c d));
    by rewrite ?append_cons.
Qed.

Lemma join_ne_empty d n : is_name n = true -> join d n <> "".
Proof.
  intros Hn. rewrite join_rel by by apply is_name_rel.
  destruct n as [|c n]; [done |].
  destruct (String.eqb d "" || endswith_char sep d);
    intros H; apply (f_equal String.length) in H;
    rewrite ?JobIdFacts.length_append in H; simpl in H; lia.
Qed.

(** [os.stat] of a name in a directory: the directory has to be one, and
    the name is looked up in it *)
Lemma stat_join_name t cwd d n :
  d <> "" -> is_name n = true ->
  stat t cwd (join d n)
  = if isdir t cwd d then node_at t (locate cwd d ++ [n]) else None.
Proof.
  intros Hd Hn. unfold isdir, stat, resolve.
  destruct (String.eqb_spec (join d n) "") as [He | _];
    [by apply join_ne_empty in He |].
  destruct (String.eqb_spec d "") as [-> | _]; [done |].
  rewrite (isabs_join_name d n Hd Hn).
  destruct (split_join_name d n Hd Hn) as (comps & -> & Hs).
  set (start := if isabs d then [] else cwd).
  assert (Hloc : locate cwd d = fold_left step comps start).
  { unfold locate. fold start. destruct Hs as [-> | ->]; [done |].
    by rewrite fold_left_app. }
  rewrite walk_app.
  assert (Hw : walk t start (split sep d)
               = match walk t start comps with
                 | Some l => if is_dir t l then Some l else None
                 | None => None
                 end
               \/ walk t start (split sep d) = walk t start comps).
  { destruct Hs as [-> | ->]; [by right |]. left. rewrite walk_app.
    destruct (walk t start comps) as [l|]; [| done]. simpl.
    by destruct (is_dir t l). }
  destruct (walk t start comps) as [l|] eqn:Hwalk.
  - pose proof (walk_fold _ _ _ _ Hwalk) as ->. rewrite <- Hloc.
    simpl. rewrite step_name by done.
    destruct Hw as [-> | ->]; unfold is_dir;
      repeat case_bool_decide; try done; congruence.
  - destruct Hw as [-> | ->]; by rewrite bool_decide_eq_false_2.
Qed.

(** [os.stat] of a single name *)
Lemma stat_name t cwd n :
  is_name n = true ->
  stat t cwd n = if is_dir t cwd then node_at t (cwd ++ [n]) else None.
Proof.
  intros Hn. unfold stat, resolve.
  destruct (String.eqb_spec n "") as [-> | _]; [done |].
  rewrite (is_name_rel _ Hn), (is_name_split _ Hn). simpl.
  rewrite step_name by done. by destruct (is_dir t cwd).
Qed.

Lemma locate_name cwd n : is_name n = true -> locate cwd n = cwd ++ [n].
Proof.
  intros Hn. unfold locate.
  rewrite (is_name_rel _ Hn), (is_name_split _ Hn). simpl. by apply step_name.
Qed.

Lemma ancestors_self loc : loc <> [] -> loc ∈ ancestors loc.
Proof.
  intros Hne. destruct (exists_last Hne) as (l & x & ->).
  rewrite ancestors_snoc. apply elem_of_app. right. by left.
Qed.

Lemma node_at_snoc t (k : list string) x : node_at t (k ++ [x]) = t !! (k ++ [x]).
Proof. unfold node_at. by destruct k. Qed.

End StatFacts.

Module RunnerFacts.
Import Eff Pipeline Frame PathFacts FsFacts EffFacts PipelineFacts FrameFacts AbsFacts.
#[local] Opaque PosixPath.join PosixPath.abspath.

Section Rules.
Context (E : env) (jd : string).
Context (R : world -> world -> Prop).
Context (R_refl : forall w, R w w).
Context (R_trans : forall w1 w2 w3, R w1 w2 -> R w2 w3 -> R w1 w3).

Lemma run_stages_steps ss :
  Forall (fun s => steps R (body s)) ss ->
  (forall s e, steps R (log_failure E jd s e)) ->
  steps R (finalize E jd) ->
  steps R (run_stages E jd ss).
Proof.
  intros Hss Hlog Hfin. induction Hss as [|s rest Hs _ IH]; simpl; [done |].
  by apply steps_try_or_return.
Qed.

Lemma parseHits_steps : steps R (parseHits_body E jd).
Proof.
  intros w w' r. unfold parseHits_body.
  destruct (read_csv E _) as [[|hd rows]|e]; [| destruct (hits_loop rows None) |];
    intros [= <- _]; apply R_refl.
Qed.

End Rules.

Ltac by_rules trans :=
  repeat first
    [ apply (steps_bind _ trans); [| intros ?]
    | apply emits_makedirs
    | apply emits_run
    | apply emits_open_w
    | apply emits_open_a
    | apply confined_run
    | apply confined_makedirs;
      first [ rewrite loc_name by reflexivity; by eexists ]
    | apply confined_open_w; rewrite loc_name by reflexivity; apply below_snoc
    | apply confined_open_a; rewrite loc_name by reflexivity; apply below_snoc
    | exact I | discriminate ].

Ltac unfold_bodies :=
  cbv beta iota zeta delta
    [body tax_stage query_stage allelic_stage cgmlst_stage dendro_stage
     simple_stage parse_stage taxAssign_body queryProfile_body
     abProfilesCmp_body cgProfiles_body DendroPlot_body simpleCmp_body
     ensure_dir finalize log_failure error_log].

Section Runs.
Context (E : env) (jd : string).

Lemma bodies_emit : Forall (fun s => steps (emits body_event) (body s)) (stages E jd).
Proof.
  unfold stages. destruct (is_known (resolve_organism E jd));
    repeat (apply Forall_cons; split); try apply Forall_nil.
  all: first [ apply (parseHits_steps E jd _ (emits_refl _))
             | unfold_bodies;
               by_rules (emits_trans body_event) ].
Qed.

Lemma bodies_confined :
  Forall (fun s => steps (confined (dir_loc E jd)) (body s)) (stages E jd).
Proof.
  unfold stages. destruct (is_known (resolve_organism E jd));
    repeat (apply Forall_cons; split); try apply Forall_nil.
  all: first [ apply (parseHits_steps E jd _ (confined_refl _))
             | unfold_bodies;
               by_rules (confined_trans (dir_loc E jd)) ].
Qed.

Ltac write_rules trans :=
  repeat first
    [ apply (steps_bind _ trans); [| intros ?]
    | apply emits_run; exact I
    | apply emits_makedirs; cbn [writes_below];
      rewrite loc_name by reflexivity; apply below_snoc
    | apply emits_open_w; cbn [writes_below];
      rewrite loc_name by reflexivity; apply below_snoc
    | apply emits_open_a; cbn [writes_below];
      rewrite loc_name by reflexivity; apply below_snoc
    | exact I ].

Lemma bodies_write :
  Forall (fun s => steps (emits (writes_below E (dir_loc E jd))) (body s))
    (stages E jd).
Proof.
  unfold stages. destruct (is_known (resolve_organism E jd));
    repeat (apply Forall_cons; split); try apply Forall_nil.
  all: first [ apply (parseHits_steps E jd _ (emits_refl _))
             | unfold_bodies;
               write_rules (emits_trans (writes_below E (dir_loc E jd))) ].
Qed.

Lemma run_stages_write :
  steps (emits (writes_below E (dir_loc E jd))) (run_stages E jd (stages E jd)).
Proof.
  apply run_stages_steps; [apply emits_trans | | |].
  - apply bodies_write.
  - intros s e. unfold log_failure. destruct (mode s); unfold_bodies;
      write_rules (emits_trans (writes_below E (dir_loc E jd))).
  - unfold_bodies.
    write_rules (emits_trans (writes_below E (dir_loc E jd))).
Qed.

Lemma run_stages_emit : steps (emits pipeline_event) (run_stages E jd (stages E jd)).
Proof.
  apply run_stages_steps; [apply emits_trans | | |].
  - eapply Forall_impl; [apply bodies_emit |]. intros s Hs w w' r Hr.
    eapply emits_impl; [| by eapply Hs]. by intros [].
  - intros s e. unfold log_failure. destruct (mode s);
      by_rules (emits_trans pipeline_event).
  - unfold_bodies.
    by_rules (emits_trans pipeline_event).
Qed.

Lemma run_stages_confined :
  steps (confined (dir_loc E jd)) (run_stages E jd (stages E jd)).
Proof.
  apply run_stages_steps; [apply confined_trans | | |].
  - apply bodies_confined.
  - intros s e. unfold log_failure. destruct (mode s); unfold_bodies;
      by_rules (confined_trans (dir_loc E jd)).
  - unfold_bodies.
    by_rules (confined_trans (dir_loc E jd)).
Qed.

End Runs.
End RunnerFacts.

Module RunnerTheorems.
Import Eff Pipeline Frame PathFacts FsFacts EffFacts PipelineFacts FrameFacts
  AbsFacts RunnerFacts.
#[local] Opaque PosixPath.join PosixPath.abspath.

Section Attempt.
Context (R : world -> world -> Prop).
Context (R_refl : forall w, R w w).
Context (R_trans : forall w1 w2 w3, R w1 w2 -> R w2 w3 -> R w1 w3).

Lemma attempt_steps ss : Forall (fun s => steps R (body s)) ss ->
  forall w w1 passed f, attempt ss w = (w1, passed, f) -> R w w1.
Proof.
  induction 1 as [|s rest Hs _ IH]; intros w w1 passed f; simpl.
  - by intros [= <- _ _].
  - destruct (body s w) as [w0 [[]|e]] eqn:Hb.
    + destruct (attempt rest w0) as [[w2 p'] f'] eqn:Hat. intros [= <- _ _].
      eapply R_trans; [by eapply Hs | by eapply IH].
    + intros [= <- _ _]. by eapply Hs.
Qed.
End Attempt.

Ltac listed := repeat first [by left | right].
Ltac unlisted :=
  let H := fresh in
  intros H; repeat (apply elem_of_cons in H as [H | H]; [discriminate H |]);
  by apply elem_of_nil in H.

Section Runner.
Context (E : env) (job_dir : string).
Local Abbreviation jd := (PosixPath.abspath (getcwd E) job_dir).

(** the last two lines of [run_pipeline] *)
Lemma finalize_cases w w' r :
  finalize E jd w = (w', r) ->
  match os_error E (OpenW (PosixPath.join jd "complete_ok")),
        os_error E (OpenW (PosixPath.join jd "country")) with
  | Some x, _ => w' = w /\ r = Raised x
  | None, Some x =>
      trace w' = trace w ++ [EvCreate (PosixPath.join jd "complete_ok")]
      /\ r = Raised x
  | None, None =>
      trace w' = trace w ++ [EvCreate (PosixPath.join jd "complete_ok");
                             EvCreate (PosixPath.join jd "country")]
      /\ r = Done tt
  end.
Proof.
  unfold finalize, bind, open_w.
  destruct (os_error E (OpenW (PosixPath.join jd "complete_ok")));
    [by intros [= <- <-] |].
  destruct (os_error E (OpenW (PosixPath.join jd "country")));
    intros [= <- <-]; cbn [trace]; [done |]. by rewrite <- app_assoc.
Qed.

(** a name that is no stage marker is not among the files the stages
    create *)
Lemma not_a_marker n passed rest :
  PosixPath.isabs n = false ->
  n ∉ ["taxAssign_ok"; "queryProfile_ok"; "abProfilesCmp_ok"; "cgProfiles_ok";
       "DendroPlot_ok"] ->
  stages E jd = passed ++ rest ->
  PosixPath.join jd n ∉ marker_paths jd passed.
Proof.
  intros Hn Hno Hss Hin.
  assert (Hall : PosixPath.join jd n ∈ marker_paths jd (stages E jd)).
  { rewrite Hss. unfold marker_paths. rewrite omap_app, map_app.
    apply elem_of_app. by left. }
  unfold marker_paths in Hall. rewrite markers_stages in Hall.
  apply list_elem_of_fmap in Hall as (m & Hm & Hin').
  assert (Hname : PosixPath.isabs m = false /\ m ∈
            ["taxAssign_ok"; "queryProfile_ok"; "abProfilesCmp_ok";
             "cgProfiles_ok"; "DendroPlot_ok"]).
  { destruct (is_known (resolve_organism E jd));
      repeat (apply elem_of_cons in Hin' as [-> | Hin'];
              [split; [reflexivity | listed] |]);
      by apply elem_of_nil in Hin'. }
  destruct Hname as [Hrel Hm']. apply Hno.
  by rewrite (join_inj jd n m Hn Hrel Hm).
Qed.


(** X4. No failure of a tool leaves [run_pipeline]: when the function
    raises, the exception is the [OSError] of opening [error.log],
    [complete_ok] or [country]. *)
Theorem run_pipeline_raises_only_on_open w w' e :
  run_pipeline E job_dir w = (w', Raised e) ->
  exists op,
    op ∈ [OpenW (error_log jd); OpenA (error_log jd);
          OpenW (PosixPath.join jd "complete_ok");
          OpenW (PosixPath.join jd "country")]
    /\ os_error E op = Some e.
Proof.
  rewrite run_pipeline_stages, run_stages_attempt.
  destruct (attempt (stages E jd) w) as [[w1 passed] [[s x]|]]; intros Hrun.
  - apply log_failure_sound in Hrun. unfold log_op in Hrun.
    destruct (mode s); destruct (os_error E _) eqn:Ho;
      try (by destruct Hrun as [[=] _]);
      destruct Hrun as [_ [= ->]]; eexists; (split; [| exact Ho]); listed.
  - apply finalize_cases in Hrun.
    destruct (os_error E (OpenW (PosixPath.join jd "complete_ok"))) eqn:H1.
    { destruct Hrun as [_ [= ->]]. eexists; (split; [| exact H1]); listed. }
    destruct (os_error E (OpenW (PosixPath.join jd "country"))) eqn:H2.
    { destruct Hrun as [_ [= ->]]. eexists; (split; [| exact H2]); listed. }
    by destruct Hrun as [_ [=]].
Qed.

(** X5. A run of [run_pipeline] that returns has written exactly one of the
    two terminal files: it has created [complete_ok] and not touched
    [error.log], or it has written [error.log] and not created
    [complete_ok]. *)
Theorem run_pipeline_writes_one_terminal_file w w' :
  run_pipeline E job_dir w = (w', Done tt) ->
  (EvCreate (PosixPath.join jd "complete_ok") ∈ emitted w w'
   /\ (EvCreate (error_log jd) ∉ emitted w w')
   /\ (EvAppend (error_log jd) ∉ emitted w w'))
  \/ ((EvCreate (PosixPath.join jd "complete_ok") ∉ emitted w w')
      /\ (EvCreate (error_log jd) ∈ emitted w w'
          \/ EvAppend (error_log jd) ∈ emitted w w')).
Proof.
  rewrite run_pipeline_stages, run_stages_attempt.
  destruct (attempt (stages E jd) w) as [[w1 passed] f] eqn:Hat.
  destruct (attempt_sound E jd _ (stages_sound E jd) _ _ _ _ Hat)
    as (evs & Ht & Hc & _ & _ & _ & _ & Hss).
  pose proof (attempt_steps _ (emits_refl body_event) (emits_trans body_event)
                _ (bodies_emit E jd) _ _ _ _ Hat) as (evs' & Ht' & Hquiet).
  assert (evs' = evs) as -> by (rewrite Ht in Ht'; by apply app_inv_head in Ht').
  assert (Hrest : exists rest, stages E jd = passed ++ rest).
  { destruct f as [[s x]|]; [destruct Hss as [rest ->]; by eexists |].
    exists []. by rewrite app_nil_r. }
  destruct Hrest as [rest Hrest].
  assert (Hno_c : EvCreate (PosixPath.join jd "complete_ok") ∉ evs).
  { rewrite elem_of_created, Hc.
    apply (not_a_marker "complete_ok" passed rest); [done | unlisted | done]. }
  assert (Hno_l : EvCreate (error_log jd) ∉ evs).
  { rewrite elem_of_created, Hc.
    apply (not_a_marker "error.log" passed rest); [done | unlisted | done]. }
  assert (Hno_a : EvAppend (error_log jd) ∉ evs).
  { intros Hin. rewrite Forall_forall in Hquiet. exact (Hquiet _ Hin). }
  destruct f as [[s x]|]; intros Hrun.
  - right. apply log_failure_sound in Hrun.
    destruct (os_error E (log_op jd s)); [by destruct Hrun as [_ [=]] |].
    destruct Hrun as (_ & Ht2 & _). rewrite Ht, <- app_assoc in Ht2.
    rewrite (emitted_app _ _ _ Ht2). split.
    + intros [? | Hin]%elem_of_app; [done |].
      apply list_elem_of_singleton in Hin. by apply (log_event_not_complete jd s).
    + destruct (mode s); [left | right]; apply elem_of_app; right; by left.
  - left. apply finalize_cases in Hrun.
    destruct (os_error E (OpenW (PosixPath.join jd "complete_ok")));
      [by destruct Hrun as [_ [=]] |].
    destruct (os_error E (OpenW (PosixPath.join jd "country")));
      [by destruct Hrun as [_ [=]] |].
    destruct Hrun as [Ht2 _]. rewrite Ht, <- app_assoc in Ht2.
    rewrite (emitted_app _ _ _ Ht2). split; [| split].
    + apply elem_of_app. right. by left.
    + intros [? | Hin]%elem_of_app; [done |].
      apply elem_of_cons in Hin as [[= Hin] | Hin];
        [by apply (join_inj jd) in Hin |].
      apply list_elem_of_singleton in Hin. injection Hin as Hin.
      by apply (join_inj jd) in Hin.
    + intros [? | Hin]%elem_of_app; [done |].
      apply elem_of_cons in Hin as [[=] | Hin].
      by apply list_elem_of_singleton in Hin.
Qed.

(** X6. [run_pipeline] does the same for a folder given relative to the
    working directory and for its absolute path. *)
Theorem run_pipeline_accepts_relative_folder w :
  PosixPath.isabs (getcwd E) = true ->
  run_pipeline E jd w = run_pipeline E job_dir w.
Proof.
  intros Hcwd. unfold run_pipeline. by rewrite abspath_idem.
Qed.

End Runner.
End RunnerTheorems.

Module WorkerTheorems.
Import Eff Pipeline Api Frame PathFacts FsFacts EffFacts PipelineFacts FrameFacts
  AbsFacts RunnerFacts RunnerTheorems.
#[local] Opaque PosixPath.join PosixPath.abspath.

Section Worker.
Context (E : env) (folder : string).
Local Abbreviation jd := (PosixPath.abspath (getcwd E) folder).
Local Abbreviation complete_ok := (PosixPath.join folder "complete_ok").
Local Abbreviation pipeline_error := (PosixPath.join folder "pipeline_error.log").

(** lines 311-318: the [try] block with its handler *)
Local Abbreviation guarded :=
  (try_except
     (bind (run_pipeline E folder) (fun _ => open_w E complete_ok ""))
     (fun e => open_w E pipeline_error e)).

Lemma run_pipeline_emits : steps (emits pipeline_event) (run_pipeline E folder).
Proof.
  intros w w' r Hrun. rewrite run_pipeline_stages in Hrun.
  by apply (run_stages_emit E jd _ _ _ Hrun).
Qed.

Lemma guarded_emits : steps (emits pipeline_event) guarded.
Proof.
  apply steps_try_except; [apply emits_trans | | intros e].
  - apply steps_bind; [apply emits_trans | apply run_pipeline_emits | intros _].
    by apply emits_open_w.
  - by apply emits_open_w.
Qed.

Lemma worker_unfold w :
  analysis_worker E folder w
  = (log EvTaskDone (guarded w).1, (guarded w).2).
Proof.
  unfold analysis_worker, try_finally. by destruct (guarded w) as [w1 r1].
Qed.

(** X7. Whatever happens in it, a turn of the worker calls [task_done] once,
    as the last thing it does. *)
Theorem worker_calls_task_done_once w :
  exists evs,
    trace (analysis_worker E folder w).1 = trace w ++ evs ++ [EvTaskDone]
    /\ EvTaskDone ∉ evs.
Proof.
  rewrite worker_unfold. cbn [fst]. destruct (guarded w) as [w1 r1] eqn:Hg.
  destruct (guarded_emits _ _ _ Hg) as (evs & Ht & Hev).
  exists evs. cbn [fst log trace]. split; [by rewrite Ht, app_assoc |].
  intros Hin. rewrite Forall_forall in Hev. by apply (Hev _ Hin).
Qed.

(** X8. A turn of the worker raises only when [pipeline_error.log] cannot be
    opened: every other exception, of [run_pipeline] or of creating
    [complete_ok], ends in that file. *)
Theorem worker_raises_only_without_log w :
  (analysis_worker E folder w).2 = Done tt
  \/ exists e, (analysis_worker E folder w).2 = Raised e
               /\ os_error E (OpenW pipeline_error) = Some e.
Proof.
  rewrite worker_unfold. cbn [snd]. unfold try_except, bind, open_w.
  destruct (run_pipeline E folder w) as [w1 [[]|e]].
  - destruct (os_error E (OpenW complete_ok)); [| by left].
    destruct (os_error E (OpenW pipeline_error)) eqn:Hl; [right; by eexists | by left].
  - destruct (os_error E (OpenW pipeline_error)) eqn:Hl; [right; by eexists | by left].
Qed.

(** X9. When [run_pipeline] or the creation of [complete_ok] raises and
    [pipeline_error.log] can be opened, the turn of the worker returns,
    [pipeline_error.log] holds the text of the exception and nothing else,
    and it is the last file the turn creates. *)
Theorem worker_logs_what_escapes w e :
  (bind (run_pipeline E folder) (fun _ => open_w E complete_ok "") w).2 = Raised e ->
  os_error E (OpenW pipeline_error) = None ->
  (analysis_worker E folder w).2 = Done tt
  /\ Fs.text_at (files (analysis_worker E folder w).1) (loc_of E pipeline_error) = e
  /\ last (created (emitted w (analysis_worker E folder w).1)) = Some pipeline_error.
Proof.
  intros Hraise Hopen. rewrite worker_unfold. cbn [fst snd].
  destruct (guarded w) as [w2 r2] eqn:Hg.
  destruct (guarded_emits _ _ _ Hg) as (evs & Ht & _).
  unfold try_except in Hg.
  destruct (bind _ _ w) as [w1 r1] eqn:Hb. cbn [snd] in Hraise. subst r1.
  pose proof (steps_bind _ (emits_trans pipeline_event) _ _ run_pipeline_emits
                (fun _ => emits_open_w E pipeline_event complete_ok ""
                            ltac:(discriminate)) _ _ _ Hb)
    as (evs1 & Ht1 & _).
  unfold open_w in Hg. rewrite Hopen in Hg. injection Hg as <- <-.
  cbn [fst snd log files trace]. split; [done |]. split; [apply text_write_eq |].
  match goal with
  | |- last (created (emitted w ?w2)) = _ =>
      assert (Hem : emitted w w2 = evs1 ++ [EvCreate pipeline_error; EvTaskDone])
  end.
  { apply emitted_app. cbn [trace log]. by rewrite Ht1, <- !app_assoc. }
  rewrite Hem, created_app. cbn. by rewrite last_snoc.
Qed.

Lemma loc_of_folder_name n :
  PosixPath.is_name n = true ->
  loc_of E (PosixPath.join folder n) = loc_of E folder ++ [n].
Proof. intros Hn. unfold loc_of. by apply locate_join_name. Qed.

Lemma worker_confined :
  PosixPath.isabs (getcwd E) = true ->
  steps (confined (loc_of E folder)) (analysis_worker E folder).
Proof.
  intros Hcwd.
  assert (Hd : dir_loc E jd = loc_of E folder).
  { unfold dir_loc, loc_of, cwd_loc. by apply locate_abspath. }
  unfold analysis_worker.
  apply steps_try_finally; [apply confined_trans | |].
  - apply steps_try_except; [apply confined_trans | | intros e].
    + apply steps_bind; [apply confined_trans | | intros _].
      * intros w w' r Hrun. rewrite run_pipeline_stages in Hrun.
        rewrite <- Hd. by apply (run_stages_confined E jd _ _ _ Hrun).
      * apply confined_open_w. rewrite loc_of_folder_name by done.
        apply below_snoc.
    + apply confined_open_w. rewrite loc_of_folder_name by done.
      apply below_snoc.
  - intros w w' r [= <- _]. split; [done | by left].
Qed.

Lemma worker_writes :
  PosixPath.isabs (getcwd E) = true ->
  steps (emits (writes_below E (loc_of E folder))) (analysis_worker E folder).
Proof.
  intros Hcwd.
  assert (Hd : dir_loc E jd = loc_of E folder).
  { unfold dir_loc, loc_of, cwd_loc. by apply locate_abspath. }
  unfold analysis_worker.
  apply steps_try_finally; [apply emits_trans | |].
  - apply steps_try_except; [apply emits_trans | | intros e].
    + apply steps_bind; [apply emits_trans | | intros _].
      * intros w w' r Hrun. rewrite run_pipeline_stages in Hrun.
        rewrite <- Hd. by apply (run_stages_write E jd _ _ _ Hrun).
      * apply emits_open_w. cbn [writes_below].
        rewrite loc_of_folder_name by done. apply below_snoc.
    + apply emits_open_w. cbn [writes_below].
      rewrite loc_of_folder_name by done. apply below_snoc.
  - intros w w' r [= <- _]. exists [EvTaskDone]. by repeat constructor.
Qed.


End Worker.
End WorkerTheorems.

Module JobIdTheorems.
Import Py Api PathFacts JobIdFacts UploadFacts.

(** X11. [generate_random_keys(length)] has [length] characters, all of
    [[0-9A-Za-z]], and its [i]-th character is the one of the pool that the
    [i]-th draw of the generator points at. *)
Theorem generate_random_keys_draws draw pos n :
  String.length (generate_random_keys draw pos n) = n
  /\ string_forallb isalnum (generate_random_keys draw pos n) = true
  /\ forall i, i < n ->
       String.get i (generate_random_keys draw pos n)
       = Some (random_choice (draw (pos + i))).
Proof.
  destruct (generate_random_keys_spec draw n pos) as [Hl Ha].
  split; [done |]. split; [done |]. clear Hl Ha.
  revert pos. induction n as [|n IH]; intros pos i Hi; [lia |].
  destruct i as [|i]; simpl.
  - by rewrite Nat.add_0_r.
  - rewrite IH by lia. do 3 f_equal. lia.
Qed.

Lemma str_of_nat_inj n m : str_of_nat n = str_of_nat m -> n = m.
Proof.
  unfold str_of_nat. intros H. apply Unsigned.to_uint_inj.
  apply (f_equal NilEmpty.uint_of_string) in H. rewrite !NilEmpty.usu in H.
  by injection H.
Qed.

Lemma format_02d_big n : 10 <= n -> format_02d n = str_of_nat n.
Proof.
  intros Hn. unfold format_02d. pose proof (str_of_nat_bound n) as Hb.
  destruct (String.length (str_of_nat n)) as [|[|k]] eqn:Hl; simpl in Hb; [lia.. |].
  reflexivity.
Qed.

(** [:02d] gives different texts for different numbers *)
Lemma format_02d_inj n m : format_02d n = format_02d m -> n = m.
Proof.
  intros H.
  destruct (le_lt_dec 100 n) as [Hn | Hn], (le_lt_dec 100 m) as [Hm | Hm].
  - rewrite !format_02d_big in H by lia. by apply str_of_nat_inj.
  - pose proof (format_02d_long n Hn). pose proof (format_02d_two m Hm).
    rewrite H in *. lia.
  - pose proof (format_02d_long m Hm). pose proof (format_02d_two n Hn).
    rewrite H in *. lia.
  - assert (Hz : forallb (fun n => forallb (fun m =>
                   implb (String.eqb (format_02d n) (format_02d m)) (n =? m))
                   (seq 0 100)) (seq 0 100) = true) by (vm_compute; reflexivity).
    rewrite forallb_forall in Hz. specialize (Hz n ltac:(apply in_seq; lia)).
    rewrite forallb_forall in Hz. specialize (Hz m ltac:(apply in_seq; lia)).
    apply String.eqb_eq in H. rewrite H in Hz. by apply Nat.eqb_eq.
Qed.

Lemma append_inj_length (a b x y : string) :
  String.length a = String.length b -> a +:+ x = b +:+ y -> a = b /\ x = y.
Proof.
  revert b. induction a as [|c a IH]; intros [|d b] Hl H; try discriminate.
  - done.
  - rewrite !append_cons in H. injection H as -> H. simpl in Hl.
    destruct (IH b ltac:(lia) H) as [-> ->]. done.
Qed.

Section Generate.
Context (src : sources).

Local Abbreviation candidate := (Parts.candidate src).

Lemma generate_job_id_unfold t cwd fuel g :
  generate_job_id src t cwd (S fuel) g
  = if negb (Fs.exists_ t cwd (jobs_folder (candidate g)))
    then (tick src g, Some (candidate g))
    else generate_job_id src t cwd fuel (tick src g).
Proof.
  cbn [generate_job_id]. cbv zeta. unfold Parts.candidate, tick, next_seq.
  destruct (serial_counters g !! today_at src (clock_pos g)) as [v|] eqn:Hv;
    cbn [default].
  - rewrite Hv. cbn [default]. reflexivity.
  - rewrite lookup_insert_eq. cbn [default]. by rewrite insert_insert_same.
Qed.

(** the sequence number of an identifier that is returned lies between the
    counter of its day before the call and the counter after it *)
Lemma generate_job_id_number t cwd fuel : forall g g' job_id,
  generate_job_id src t cwd fuel g = (g', Some job_id) ->
  exists day n rest,
    job_id = day +:+ format_02d n +:+ "-" +:+ rest
    /\ (exists k, day = today_at src k)
    /\ next_seq g day <= n < next_seq g' day.
Proof.
  induction fuel as [|fuel IH]; intros g g' job_id; [discriminate |].
  rewrite generate_job_id_unfold.
  destruct (Fs.exists_ t cwd _) eqn:Hex; cbn [negb].
  - intros Hgen. destruct (IH _ _ _ Hgen) as (day & n & rest & -> & Hk & Hlo & Hhi).
    exists day, n, rest. split; [done |]. split; [done |]. split; [| done].
    etrans; [apply (next_seq_tick src g day) | exact Hlo].
  - intros [= <- <-]. eexists _, _, _. split; [reflexivity |].
    split; [by eexists |]. split; [done |]. apply (next_seq_tick src g "").
Qed.

(** X12. Two identifiers of one process are different: whatever the file
    system and however many retries, an identifier handed out is not handed
    out again by a later call. *)
Theorem job_ids_never_repeat t1 cwd1 fuel1 t2 cwd2 fuel2 g0 g1 g g2 id1 id2 :
  (forall k, String.length (today_at src k) = 8) ->
  generate_job_id src t1 cwd1 fuel1 g0 = (g1, Some id1) ->
  (forall day, next_seq g1 day <= next_seq g day) ->
  generate_job_id src t2 cwd2 fuel2 g = (g2, Some id2) ->
  id1 <> id2.
Proof.
  intros Hday H1 Hlater H2 Heq.
  destruct (generate_job_id_number _ _ _ _ _ _ H1)
    as (d1 & n1 & r1 & -> & [k1 ->] & _ & Hhi1).
  destruct (generate_job_id_number _ _ _ _ _ _ H2)
    as (d2 & n2 & r2 & -> & [k2 ->] & Hlo2 & _).
  apply append_inj_length in Heq as [Hd Heq]; [| by rewrite !Hday].
  rewrite Hd in *.
  assert (Hsplit : forall n r, split "-" (format_02d n +:+ "-" +:+ r)
                               = format_02d n :: split "-" r).
  { intros n r. apply split_dash_head.
    pose proof (format_02d_digits n) as Hdg. revert Hdg.
    apply forallb_impl, digit_is_alnum. }
  apply (f_equal (split "-")) in Heq. rewrite !Hsplit in Heq.
  injection Heq as Hn _. apply format_02d_inj in Hn. subst n2.
  specialize (Hlater (today_at src k2)). lia.
Qed.

End Generate.
End JobIdTheorems.

Module SpeciesTheorems.
Import Py Eff Pipeline PathFacts FsFacts EffFacts FrameFacts.

Lemma split1_spec c s :
  split1 c s = [s]
  \/ exists p0 p1, split1 c s = [p0; p1] /\ s = p0 +:+ String c p1.
Proof.
  induction s as [|d s IH]; simpl; [by left |].
  destruct (Ascii.eqb_spec d c) as [-> | Hne].
  - right. by exists "", s.
  - destruct IH as [-> | (p0 & p1 & -> & ->)]; [by left |].
    right. by exists (String d p0), p1.
Qed.

(** X13. Lines 101-104: the key that is looked up in the species table is
    the first tab-separated field of the stripped first line of
    [taxAssign.result]; splitting it at the first underscore and joining the
    two parts again changes nothing. *)
Theorem species_key_is_first_field text :
  species_key text = hd "" (split tab (strip (readline text))).
Proof.
  unfold species_key. cbv zeta.
  destruct (split1_spec "_" (hd "" (split tab (strip (readline text)))))
    as [-> | (p0 & p1 & -> & Heq)]; [done |].
  by rewrite Heq.
Qed.

Lemma known_iff_listed k :
  is_known (dict_get mapping k) = true <-> k ∈ map fst mapping.
Proof.
  unfold mapping. cbn [map fst dict_get].
  repeat match goal with
         | |- context [String.eqb ?a k] =>
             destruct (String.eqb_spec a k) as [<- | ?];
             [split; [intros _; repeat first [by left | right] | reflexivity] |]
         end.
  split; [discriminate |].
  intros H. repeat (apply elem_of_cons in H as [-> | H]; [done |]).
  by apply elem_of_nil in H.
Qed.

(** X14. Lines 98-118: the run takes the branch of the five organisms
    exactly when [taxAssign.result] can be read and its key is one of the
    five names of the species table; the organism handed to the tools is
    then the abbreviation the table gives. *)
Theorem branch_A_iff_listed_species E job_dir :
  is_known (resolve_organism E job_dir) = true
  <-> exists text,
        read_text E (PosixPath.join3 job_dir "1.taxAssign" "taxAssign.result")
        = Done text
        /\ species_key text ∈ map fst mapping
        /\ resolve_organism E job_dir = dict_get mapping (species_key text).
Proof.
  unfold resolve_organism. cbv zeta.
  destruct (read_text E _) as [text|e].
  - rewrite known_iff_listed. split.
    + intros H. by exists text.
    + by intros (t & [= <-] & H & _).
  - split; [discriminate | by intros (t & [=] & _)].
Qed.

End SpeciesTheorems.

Module UploadTheorems.
Import Py Eff Api Frame FsTree PathFacts FsFacts EffFacts JobIdFacts UploadFacts
  FrameFacts AbsFacts StatFacts GcaFacts.
#[local] Opaque PosixPath.join.

Lemma rstrip_keeps c r : isspace c = false -> exists r', rstrip (c :: r) = c :: r'.
Proof. intros Hc. simpl. rewrite Hc. destruct (rstrip r); by eexists. Qed.

(** a code that is accepted is not blank *)
Lemma valid_not_blank decimal s :
  validate_gca_code decimal s = true -> truthy (strip s) = true.
Proof.
  intros [cs Hcs]%GcaFacts.valid_first.
  apply truthy_nonempty. unfold strip. rewrite Hcs. cbn [lstrip].
  change (isspace "G") with false. cbv iota.
  by destruct (rstrip_keeps "G" cs eq_refl) as [r' ->].
Qed.

Section Upload.
Context (V : services) (email : option string) (gcaCode : string)
  (location : option string) (country : string) (file : option UploadFile)
  (s : server).
Local Abbreviation E := (base V).

Local Abbreviation form_data :=
  (Parts.form_data email gcaCode location country file).

(** how a call that returns went *)
Lemma upload_return_inv s' out :
  upload_file V email gcaCode location country file s = (s', Return out) ->
  exists g job_id w1 w2 w3,
    generate_job_id (ids V) (files (sys s)) (cwd_loc E) (recursion_limit V)
      (counters s) = (g, Some job_id)
    /\ makedirs E (jobs_folder job_id) (sys s) = (w1, Done tt)
    /\ (gcaCode = "" \/ validate_gca_code (unicode_decimal V) gcaCode = true)
    /\ open_w E (PosixPath.join (jobs_folder job_id) "formData.json")
         (json_dump V form_data) w1 = (w2, Done tt)
    /\ match file with
       | Some f => exists contents,
           read f = Done contents
           /\ open_w E (PosixPath.join (jobs_folder job_id) "contigFile.fa")
                contents w2 = (w3, Done tt)
       | None => w3 = w2
       end
    /\ s' = {| sys := w3; counters := g;
               analysis_queue := analysis_queue s ++ [jobs_folder job_id] |}
    /\ out_job_id out = job_id
    /\ file_saved_path out = jobs_folder job_id.
Proof.
  unfold upload_file, jobs_folder, Parts.form_data.
  destruct (generate_job_id _ _ _ _ _) as [g [job_id|]] eqn:Hg; [| discriminate].
  destruct (makedirs _ _ _) as [w1 [[]|e]] eqn:Hm; [| discriminate].
  destruct (truthy gcaCode && negb (validate_gca_code (unicode_decimal V) gcaCode)) eqn:Hv;
    [discriminate |].
  destruct (open_w _ _ _ w1) as [w2 [[]|e]] eqn:Hf; [| discriminate].
  assert (Hcode : gcaCode = "" \/ validate_gca_code (unicode_decimal V) gcaCode = true).
  { unfold truthy in Hv. destruct (String.eqb_spec gcaCode ""); [by left |].
    right. by destruct (validate_gca_code _ gcaCode). }
  destruct file as [f|].
  - destruct (read f) as [contents|e] eqn:Hr; [| discriminate].
    destruct (open_w _ _ _ w2) as [w3 [[]|e]] eqn:Hw; [| discriminate].
    destruct email as [addr|].
    + destruct (truthy addr).
      * destruct (send_email _ _ _ _); [discriminate |]. intros [= <- <-].
        exists g, job_id, w1, w2, w3. split_and!; try done. by exists contents.
      * intros [= <- <-].
        exists g, job_id, w1, w2, w3. split_and!; try done. by exists contents.
    + intros [= <- <-].
      exists g, job_id, w1, w2, w3. split_and!; try done. by exists contents.
  - destruct (download_genome_seq _ _ _); [| discriminate].
    destruct email as [addr|].
    + destruct (truthy addr).
      * destruct (send_email _ _ _ _); [discriminate |]. intros [= <- <-].
        exists g, job_id, w1, w2, w2. by split_and!.
      * intros [= <- <-]. exists g, job_id, w1, w2, w2. by split_and!.
    + intros [= <- <-]. exists g, job_id, w1, w2, w2. by split_and!.
Qed.

(** X16. The job is put on the queue exactly when the request is accepted,
    or is answered 502 because the notice could not be mailed; it is then
    the last of the queue. Every other answer leaves the queue as it was. *)
Theorem upload_queues_the_job :
  match (upload_file V email gcaCode location country file s).2 with
  | Return out =>
      analysis_queue (upload_file V email gcaCode location country file s).1
      = analysis_queue s ++ [file_saved_path out]
  | HTTPException code _ =>
      if code =? 502
      then exists job_id,
             analysis_queue
               (upload_file V email gcaCode location country file s).1
             = analysis_queue s ++ [jobs_folder job_id]
      else analysis_queue
             (upload_file V email gcaCode location country file s).1
           = analysis_queue s
  | Unhandled _ =>
      analysis_queue (upload_file V email gcaCode location country file s).1
      = analysis_queue s
  end.
Proof.
  unfold upload_file, jobs_folder.
  destruct (generate_job_id _ _ _ _ _) as [g [job_id|]]; [| done].
  destruct (makedirs _ _ _) as [w1 [[]|e]]; [| done].
  destruct (truthy gcaCode && negb (validate_gca_code (unicode_decimal V) gcaCode)); [done |].
  destruct (open_w _ _ _ w1) as [w2 [[]|e]]; [| done].
  destruct file as [f|].
  - destruct (read f) as [contents|e]; [| done].
    destruct (open_w _ _ _ w2) as [w3 [[]|e]]; [| done].
    destruct email as [addr|]; [| done].
    destruct (truthy addr); [| done].
    destruct (send_email _ _ _ _); [| done]. cbn. by eexists.
  - destruct (download_genome_seq _ _ _); [| done].
    destruct email as [addr|]; [| done].
    destruct (truthy addr); [| done].
    destruct (send_email _ _ _ _); [| done]. cbn. by eexists.
Qed.

Lemma open_w_done p text w w' :
  open_w E p text w = (w', Done tt) ->
  files w' = Fs.write (files w) (loc_of E p) text.
Proof. unfold open_w. destruct (os_error E _); by intros [= <-]. Qed.

Lemma makedirs_done p w w' :
  makedirs E p w = (w', Done tt) ->
  files w' = Fs.makedirs (files w) (loc_of E p).
Proof. unfold makedirs. destruct (os_error E _); by intros [= <-]. Qed.

Lemma loc_in_folder d n :
  PosixPath.is_name n = true -> loc_of E (PosixPath.join d n) = loc_of E d ++ [n].
Proof. intros Hn. unfold loc_of. by apply locate_join_name. Qed.

(** X17. A request that is accepted with a file has stored it: the folder of
    the job is new, [contigFile.fa] holds what was uploaded, and
    [formData.json] holds the form, with the name of the file as its
    [gcaCode] when the code was left empty. *)
Theorem accepted_upload_is_stored f s' out :
  file = Some f ->
  upload_file V email gcaCode location country file s = (s', Return out) ->
  file_saved_path out = jobs_folder (out_job_id out)
  /\ Fs.exists_ (files (sys s)) (cwd_loc E) (file_saved_path out) = false
  /\ read f
     = Done (Fs.text_at (files (sys s'))
               (loc_of E (PosixPath.join (file_saved_path out) "contigFile.fa")))
  /\ Fs.text_at (files (sys s'))
       (loc_of E (PosixPath.join (file_saved_path out) "formData.json"))
     = json_dump V form_data
  /\ dict_get form_data "gcaCode"
     = Some (if String.eqb gcaCode "" then filename f else gcaCode).
Proof.
  intros Hfile Hup.
  destruct (upload_return_inv _ _ Hup)
    as (g & job_id & w1 & w2 & w3 & Hgen & Hmk & Hcode & Hform & Hsave & -> & -> & ->).
  rewrite Hfile in Hsave. destruct Hsave as (contents & Hread & Hfa).
  apply open_w_done in Hform, Hfa. cbn [sys].
  split; [done |]. split; [apply (generate_job_id_shape _ _ _ _ _ _ _ Hgen) |].
  split; [by rewrite Hread, Hfa, text_write_eq |].
  split.
  - rewrite Hfa, !loc_in_folder by done.
    rewrite text_write_other
      by (intros H; apply app_inj_tail in H as [_ H]; discriminate H).
    by rewrite Hform, loc_in_folder, text_write_eq.
  - unfold Parts.form_data. rewrite Hfile. cbn. f_equal.
    destruct Hcode as [-> | Hv]; [done |].
    rewrite (valid_not_blank _ _ Hv).
    destruct (String.eqb_spec gcaCode "") as [-> | _]; done.
Qed.

(** X18. Without a file the genome is fetched by the script; when the script
    exits with an error the request is answered 500, with the prefix of the
    message twice, once from [download_genome_seq] and once from the
    handler; the folder and [formData.json] stay behind and nothing is put
    on the queue. *)
Theorem failed_download_is_reported g job_id stderr :
  file = None ->
  generate_job_id (ids V) (files (sys s)) (cwd_loc E) (recursion_limit V)
    (counters s) = (g, Some job_id) ->
  os_error E (MakeDirs (jobs_folder job_id)) = None ->
  gcaCode = "" \/ validate_gca_code (unicode_decimal V) gcaCode = true ->
  os_error E (OpenW (PosixPath.join (jobs_folder job_id) "formData.json")) = None ->
  subprocess_capture V
    ["perl"; "/home/chieh/antibiogram_platform/bin/0.Download-GenomeSeq.pl";
     "-i"; gcaCode; "-o"; jobs_folder job_id] = CalledProcessError stderr ->
  exists s',
    upload_file V email gcaCode location country file s
    = (s', HTTPException 500
             ("Genome download failed: Genome download failed: " +:+ stderr))
    /\ analysis_queue s' = analysis_queue s
    /\ counters s' = g
    /\ Fs.text_at (files (sys s'))
         (loc_of E (PosixPath.join (jobs_folder job_id) "formData.json"))
       = json_dump V form_data.
Proof.
  intros Hfile Hgen Hmk Hcode Hform Hperl.
  unfold upload_file. rewrite Hgen. fold (jobs_folder job_id).
  unfold makedirs. rewrite Hmk.
  assert (Hv : truthy gcaCode && negb (validate_gca_code (unicode_decimal V) gcaCode) = false).
  { destruct Hcode as [-> | ->]; [done | apply andb_false_r]. }
  rewrite Hv. unfold open_w at 1. rewrite Hform. rewrite Hfile.
  unfold download_genome_seq. rewrite Hperl.
  eexists. split; [reflexivity |]. cbn [analysis_queue counters sys files].
  split; [done |]. split; [done |]. apply text_write_eq.
Qed.

Lemma idchar_name x :
  string_forallb (fun c => isalnum c || Ascii.eqb c "-") x = true ->
  x <> "" -> PosixPath.is_name x = true.
Proof.
  intros Hx Hne. apply is_name_intro; try done.
  - by intros ->.
  - by intros ->.
  - revert Hx. apply forallb_impl. intros c Hc.
    destruct (Ascii.eqb_spec c PosixPath.sep) as [-> | _]; done.
Qed.

(** an identifier is a directory name: no slash in it, and not [.] or
    [..] *)
Lemma job_id_is_name t cwd fuel g g' job_id :
  (forall k, string_forallb isdigit (today_at (ids V) k) = true) ->
  generate_job_id (ids V) t cwd fuel g = (g', Some job_id) ->
  PosixPath.is_name job_id = true.
Proof.
  intros Hday Hgen.
  destruct (generate_job_id_shape _ _ _ _ _ _ _ Hgen) as (_ & k & n & p & _ & ->).
  set (idchar := fun c => isalnum c || Ascii.eqb c "-").
  assert (Hal : forall x, string_forallb isalnum x = true ->
                          string_forallb idchar x = true).
  { intros x. apply forallb_impl. intros c Hc. unfold idchar. by rewrite Hc. }
  assert (Hdg : forall x, string_forallb isdigit x = true ->
                          string_forallb idchar x = true).
  { intros x Hx. apply Hal. revert Hx. apply forallb_impl, digit_is_alnum. }
  apply idchar_name.
  - fold idchar. rewrite !forallb_append.
    rewrite (Hdg _ (Hday k)), (Hdg _ (format_02d_digits n)).
    rewrite !(Hal _ (proj2 (generate_random_keys_spec _ _ _))). done.
  - intros H. apply (f_equal String.length) in H.
    rewrite !length_append in H. simpl in H. lia.
Qed.

Lemma node_at_write t loc text k :
  k <> loc -> Fs.node_at (Fs.write t loc text) k = Fs.node_at t k.
Proof.
  intros Hne. unfold Fs.node_at, Fs.write. destruct k; [done |].
  by rewrite lookup_insert_ne.
Qed.

Lemma node_at_makedirs t loc k n :
  Fs.node_at t k = Some n -> Fs.node_at (Fs.makedirs t loc) k = Some n.
Proof. unfold Fs.node_at. destruct k; [done |]. apply makedirs_keep. Qed.

Ltac by_length H :=
  apply (f_equal length) in H; rewrite ?length_app in H; simpl in H; lia.

Lemma snoc_ne {A} (l : list A) x : l <> l ++ [x].
Proof.
  intros H. apply (f_equal length) in H. rewrite length_app in H. simpl in H. lia.
Qed.

Lemma snoc2_ne {A} (l : list A) x y : l <> l ++ [x] ++ [y].
Proof.
  intros H. apply (f_equal length) in H. rewrite !length_app in H. simpl in H. lia.
Qed.

(** X19. A job that was just accepted is reported as running: on a file
    system that is a tree, with the jobs folder in the working directory,
    the status of the identifier that [upload_file] returned is [running]. *)
Theorem accepted_job_is_running s' out :
  upload_file V email gcaCode location country file s = (s', Return out) ->
  (forall k, string_forallb isdigit (today_at (ids V) k) = true) ->
  Fs.isdir (files (sys s)) (cwd_loc E) "anti_form_jobs" = true ->
  tree (files (sys s)) ->
  check_status (files (sys s')) (cwd_loc E) (out_job_id out)
  = Return [("status", "running"); ("job_id", out_job_id out)].
Proof.
  intros Hup Hday Hroot Htree.
  destruct (upload_return_inv _ _ Hup)
    as (g & job_id & w1 & w2 & w3 & Hgen & Hmk & _ & Hform & Hsave & -> & -> & _).
  pose proof (job_id_is_name _ _ _ _ _ _ Hday Hgen) as Hname.
  destruct (generate_job_id_shape _ _ _ _ _ _ _ Hgen) as (Hnew & _).
  set (t0 := files (sys s)) in *. set (cwd := cwd_loc E) in *.
  set (jobs := cwd ++ ["anti_form_jobs"]).
  set (floc := jobs ++ [job_id]).
  assert (Hjobs : PosixPath.locate cwd "anti_form_jobs" = jobs)
    by by apply locate_name.
  assert (Hfloc : loc_of E (jobs_folder job_id) = floc).
  { unfold loc_of, jobs_folder. rewrite locate_join_name by done.
    fold cwd. by rewrite Hjobs. }
  (* the jobs folder before the call *)
  unfold Fs.isdir in Hroot. rewrite stat_name in Hroot by done.
  destruct (Fs.is_dir t0 cwd) eqn:Hcwd; [| done].
  apply bool_decide_eq_true in Hroot. fold jobs in Hroot.
  (* the folder of the job did not exist *)
  assert (Hnone : t0 !! floc = None).
  { unfold Fs.exists_, jobs_folder in Hnew.
    rewrite stat_join_name in Hnew by done.
    unfold Fs.isdir in Hnew. rewrite stat_name, Hcwd in Hnew by done.
    fold jobs in Hnew. rewrite Hroot in Hnew.
    rewrite (bool_decide_eq_true_2 (Some Fs.Dir = Some Fs.Dir)) in Hnew by done.
    rewrite Hjobs in Hnew. fold floc in Hnew.
    apply bool_decide_eq_false in Hnew.
    unfold floc in *. rewrite node_at_snoc in Hnew.
    destruct (t0 !! (jobs ++ [job_id])); [| done]. exfalso. by apply Hnew. }
  assert (Hchild : forall x, t0 !! (floc ++ [x]) = None).
  { intros x. destruct (t0 !! (floc ++ [x])) eqn:Hx; [| done].
    apply Htree in Hx. rewrite removelast_last in Hx.
    unfold Fs.is_dir in Hx. apply bool_decide_eq_true in Hx.
    unfold floc in *. rewrite node_at_snoc in Hx. congruence. }
  (* the file system after the call *)
  apply makedirs_done in Hmk. rewrite Hfloc in Hmk. fold t0 in Hmk.
  apply open_w_done in Hform. rewrite loc_in_folder, Hfloc in Hform by done.
  assert (H3 : files w3 = files w2
               \/ exists c, files w3
                   = Fs.write (files w2) (floc ++ ["contigFile.fa"]) c).
  { destruct file as [f|]; [| left; by subst].
    destruct Hsave as (c & _ & Hfa). apply open_w_done in Hfa.
    rewrite loc_in_folder, Hfloc in Hfa by done. right. by exists c. }
  assert (Hnode : forall k n, (forall x, k <> floc ++ [x]) ->
            Fs.node_at t0 k = Some n -> Fs.node_at (files w3) k = Some n).
  { intros k n Hk Hn.
    assert (H2 : Fs.node_at (files w2) k = Some n).
    { rewrite Hform, node_at_write by apply Hk. rewrite Hmk.
      by apply node_at_makedirs. }
    destruct H3 as [-> | [c ->]]; [done |]. by rewrite node_at_write by apply Hk. }
  assert (Hcwd3 : Fs.is_dir (files w3) cwd = true).
  { unfold Fs.is_dir in *. apply bool_decide_eq_true in Hcwd.
    apply bool_decide_eq_true. apply Hnode; [| done].
    intros x H. unfold floc, jobs in H. by_length H. }
  assert (Hjobs3 : Fs.node_at (files w3) jobs = Some Fs.Dir).
  { apply Hnode; [| done]. intros x H. unfold floc in H. by_length H. }
  assert (Hlook : forall k, (forall x, k <> floc ++ [x]) ->
            files w3 !! k = Fs.makedirs t0 floc !! k).
  { intros k Hk.
    assert (H2 : files w2 !! k = Fs.makedirs t0 floc !! k).
    { rewrite Hform, Hmk. unfold Fs.write. apply lookup_insert_ne.
      intros H. by apply (Hk "formData.json"). }
    destruct H3 as [-> | [c ->]]; [done |]. unfold Fs.write.
    rewrite lookup_insert_ne; [done |]. intros H. by apply (Hk "contigFile.fa"). }
  assert (Hfne : floc <> []) by (unfold floc; by destruct jobs).
  assert (Hdir3 : Fs.node_at (files w3) floc = Some Fs.Dir).
  { unfold floc at 1. rewrite node_at_snoc. fold floc.
    rewrite Hlook by (intros x; apply snoc_ne).
    rewrite makedirs_lookup, Hnone. rewrite decide_True; [done |].
    by apply ancestors_self. }
  assert (Hok3 : files w3 !! (floc ++ ["complete_ok"]) = None).
  { assert (H2 : files w2 !! (floc ++ ["complete_ok"]) = None).
    { rewrite Hform, Hmk. unfold Fs.write.
      rewrite lookup_insert_ne
        by (intros H; apply app_inj_tail in H as [_ H]; discriminate H).
      rewrite makedirs_lookup, Hchild. rewrite decide_False; [done |].
      intros [Hp _]%ancestors_prefix. apply prefix_length in Hp.
      rewrite length_app in Hp. simpl in Hp. lia. }
    destruct H3 as [-> | [c ->]]; [done |]. unfold Fs.write.
    rewrite lookup_insert_ne; [done |].
    intros H; apply app_inj_tail in H as [_ H]; discriminate H. }
  (* the answer *)
  cbn [sys]. unfold check_status. fold (jobs_folder job_id).
  assert (Hisdir : Fs.isdir (files w3) cwd (jobs_folder job_id) = true).
  { unfold Fs.isdir, jobs_folder. rewrite stat_join_name by done.
    unfold Fs.isdir. rewrite stat_name, Hcwd3 by done. fold jobs.
    rewrite Hjobs3.
    rewrite (bool_decide_eq_true_2 (Some Fs.Dir = Some Fs.Dir)) by done.
    rewrite Hjobs. fold floc. by rewrite Hdir3, bool_decide_eq_true_2. }
  rewrite Hisdir. cbn [negb].
  assert (Hex : Fs.exists_ (files w3) cwd
                  (PosixPath.join (jobs_folder job_id) "complete_ok") = false).
  { unfold Fs.exists_. rewrite stat_join_name, Hisdir; [| | done].
    - change (PosixPath.locate cwd (jobs_folder job_id))
        with (loc_of E (jobs_folder job_id)). rewrite Hfloc.
      rewrite node_at_snoc, Hok3.
      apply bool_decide_eq_false. by intros [? ?].
    - by apply join_ne_empty. }
  by rewrite Hex.
Qed.

End Upload.
End UploadTheorems.

Module StatusTheorems.
Import Py Eff Pipeline Api Frame PathFacts FsFacts EffFacts PipelineFacts
  WorkerFacts FrameFacts AbsFacts StatFacts RunnerFacts WorkerTheorems
  UploadTheorems.
#[local] Opaque PosixPath.join PosixPath.abspath.

Lemma not_below_prefix (d k : list string) : k `prefix_of` d -> ~ below d k.
Proof.
  intros Hk [Hd Hne]. apply Hne. by apply (anti_symm prefix).
Qed.

(** a directory at or above the place a run is confined to stays one *)
Lemma is_dir_confined d w w' k :
  confined d w w' -> k `prefix_of` d ->
  Fs.is_dir (files w) k = true -> Fs.is_dir (files w') k = true.
Proof.
  intros [_ Hout] Hk. unfold Fs.is_dir, Fs.node_at. destruct k as [|c k]; [done |].
  intros H%bool_decide_eq_true. apply bool_decide_eq_true.
  destruct (Hout (c :: k) (not_below_prefix _ _ Hk)) as [-> | (Hn & _)];
    [done | congruence].
Qed.

Section Status.
Context (E : env) (job_id : string).
Local Abbreviation folder := (jobs_folder job_id).
Local Abbreviation cwd := (cwd_loc E).

(** X20. When [run_pipeline] has returned and the worker could create
    [complete_ok], the status of the job is [done] after the turn of the
    worker, whatever [run_pipeline] did. *)
Theorem finished_job_is_done w w1 :
  PosixPath.isabs (getcwd E) = true ->
  PosixPath.is_name job_id = true ->
  Fs.isdir (files w) cwd folder = true ->
  run_pipeline E folder w = (w1, Done tt) ->
  os_error E (OpenW (PosixPath.join folder "complete_ok")) = None ->
  check_status (files (analysis_worker E folder w).1) cwd job_id
  = Return [("status", "done"); ("job_id", job_id)].
Proof.
  intros Hcwd Hname Hdir Hrun Hopen.
  destruct (worker_marks_every_return E folder _ _ Hrun Hopen)
    as (w' & Hw & _ & Hok & _).
  pose proof (worker_confined E folder Hcwd _ _ _ Hw) as Hconf.
  rewrite Hw. cbn [fst].
  set (jobs := cwd ++ ["anti_form_jobs"]).
  assert (Hjobs : PosixPath.locate cwd "anti_form_jobs" = jobs)
    by by apply locate_name.
  assert (Hfloc : loc_of E folder = jobs ++ [job_id]).
  { unfold loc_of, jobs_folder. rewrite locate_join_name by done.
    by rewrite Hjobs. }
  (* the folder before the turn *)
  unfold Fs.isdir, jobs_folder in Hdir. rewrite stat_join_name in Hdir by done.
  destruct (Fs.isdir (files w) cwd "anti_form_jobs") eqn:Hroot;
    [| by apply bool_decide_eq_true in Hdir].
  apply bool_decide_eq_true in Hdir. rewrite Hjobs in Hdir.
  unfold Fs.isdir in Hroot. rewrite stat_name in Hroot by done.
  destruct (Fs.is_dir (files w) cwd) eqn:Hc; [| done].
  apply bool_decide_eq_true in Hroot. fold jobs in Hroot.
  (* and after it *)
  assert (Hc' : Fs.is_dir (files w') cwd = true).
  { apply (is_dir_confined _ _ _ _ Hconf); [| done]. rewrite Hfloc.
    unfold jobs. rewrite <- app_assoc. by apply prefix_app_r. }
  assert (Hj' : Fs.is_dir (files w') jobs = true).
  { apply (is_dir_confined _ _ _ _ Hconf).
    - rewrite Hfloc. by apply prefix_app_r.
    - unfold Fs.is_dir. by apply bool_decide_eq_true. }
  assert (Hf' : Fs.is_dir (files w') (jobs ++ [job_id]) = true).
  { apply (is_dir_confined _ _ _ _ Hconf); [by rewrite Hfloc |].
    unfold Fs.is_dir. by apply bool_decide_eq_true. }
  unfold Fs.is_dir in Hj', Hf'. apply bool_decide_eq_true in Hj', Hf'.
  assert (Hisdir : Fs.isdir (files w') cwd folder = true).
  { unfold Fs.isdir, jobs_folder. rewrite stat_join_name by done.
    unfold Fs.isdir. rewrite stat_name, Hc' by done. fold jobs. rewrite Hj'.
    rewrite (bool_decide_eq_true_2 (Some Fs.Dir = Some Fs.Dir)) by done.
    rewrite Hjobs. by rewrite Hf', bool_decide_eq_true_2. }
  unfold check_status. fold folder. rewrite Hisdir. cbn [negb].
  assert (Hex : Fs.exists_ (files w') cwd (PosixPath.join folder "complete_ok")
                = true).
  { unfold Fs.exists_. rewrite stat_join_name, Hisdir;
      [| by apply join_ne_empty | done].
    change (PosixPath.locate cwd folder) with (loc_of E folder).
    rewrite node_at_snoc. apply bool_decide_eq_true.
    unfold present in Hok. by rewrite loc_of_folder_name in Hok. }
  by rewrite Hex.
Qed.

End Status.
End StatusTheorems.

Module PoolTheorems.
Import Pool PoolFacts.

(** X21. The executor has as many threads as there are workers, and a
    worker hands over one call at a time.  So a call that stands in the
    work queue of the executor never waits for a thread: fewer than five
    pipelines run, and the first call of the queue can start at once. *)
Theorem submitted_pipeline_starts_at_once s it rest :
  system_reachable s ->
  work_queue s = it :: rest ->
  executing s < Api.ANALYSIS_WORKER_COUNT
  /\ step Api.ANALYSIS_WORKER_COUNT s
       {| analysis_queue := analysis_queue s;
          workers := workers s;
          work_queue := rest;
          running := running s ++ [it];
          finished := finished s |}.
Proof.
  intros Hr Hq.
  assert (He : executing s < Api.ANALYSIS_WORKER_COUNT).
  { destruct (pool_is_bounded _ _ _ Hr) as (_ & _ & Hfl & _).
    unfold in_flight in Hfl. rewrite Hq, !length_app in Hfl.
    unfold executing. simpl in Hfl. lia. }
  split; [done |]. by apply step_start.
Qed.

End PoolTheorems.

Module SearchTheorems.
Import Py PosixPath Fs Api Search PathFacts FsFacts AbsFacts StatFacts.

(** a leading [./] changes nothing for the kernel *)
Lemma stat_dot_slash t cwd p :
  p <> "" -> isabs p = false -> stat t cwd ("./" +:+ p) = stat t cwd p.
Proof.
  intros Hne Hrel. unfold stat, resolve.
  destruct (String.eqb_spec p "") as [-> | _]; [done |].
  change ("./" +:+ p) with ("." +:+ String sep p).
  rewrite split_app_sep. cbn [String.eqb Ascii.eqb isabs startswith_char].
  change (isabs ("." +:+ String sep p)) with false. rewrite Hrel.
  change (split sep ".") with ["."]. cbn [app walk].
  pose proof (split_not_nil sep p) as Hs.
  destruct (split sep p) as [|c cs]; [done |]. cbn [walk].
  change (step cwd ".") with cwd. by destruct (is_dir t cwd).
Qed.

Lemma join_dot_base job_id :
  join BASE_FOLDER job_id
  = if isabs job_id then job_id else "./" +:+ join "anti_form_jobs" job_id.
Proof.
  unfold BASE_FOLDER. destruct (isabs job_id) eqn:Habs.
  - unfold join at 1. by rewrite Habs.
  - rewrite (join_rel _ job_id Habs), (join_rel "anti_form_jobs" job_id Habs).
    reflexivity.
Qed.

(** X22. The search endpoint and the status endpoint agree on which jobs
    there are: [check_job_id] answers that the folder does not exist exactly
    when [check_status] answers 404, for every identifier. *)
Theorem check_job_id_agrees_with_status t cwd job_id :
  exists_ (check_job_id t cwd job_id) = false
  <-> check_status t cwd job_id = HTTPException 404 "Job ID not found.".
Proof.
  unfold check_job_id, check_status. cbn [exists_].
  assert (Heq : isdir t cwd (join BASE_FOLDER job_id)
                = isdir t cwd (join "anti_form_jobs" job_id)).
  { rewrite join_dot_base. destruct (isabs job_id) eqn:Habs.
    - unfold join. by rewrite Habs.
    - unfold isdir. rewrite stat_dot_slash; [done | |].
      + rewrite join_rel by done. discriminate.
      + rewrite join_rel by done. reflexivity. }
  rewrite Heq. destruct (isdir t cwd (join "anti_form_jobs" job_id)); cbn [negb].
  - split; [discriminate |]. by destruct (Fs.exists_ _ _ _).
  - done.
Qed.

End SearchTheorems.

Module ListingFacts.
Import Py PosixPath Fs FsTree Api Listing PathFacts FsFacts AbsFacts StatFacts.

Lemma endswith_iff s suffix :
  endswith s suffix = true <-> exists pre, s = pre +:+ suffix.
Proof.
  induction s as [|c s IH]; cbn [endswith].
  - rewrite orb_false_r. split.
    + intros ->%String.eqb_eq. by exists "".
    + intros [pre H]. destruct pre; [| discriminate].
      rewrite append_nil_l in H. subst. reflexivity.
  - rewrite orb_true_iff, IH. split.
    + intros [->%String.eqb_eq | [pre ->]]; [by exists "" |].
      by exists (String c pre).
    + intros [[|d pre] H].
      * left. rewrite append_nil_l in H. rewrite H. apply String.eqb_refl.
      * right. rewrite append_cons in H. injection H as _ ->. by exists pre.
Qed.

(** what the directory at [loc] holds *)
Lemma entries_spec t loc n nd :
  (n, nd) ∈ entries t loc <-> t !! (loc ++ [n]) = Some nd.
Proof.
  unfold entries. rewrite list_elem_of_omap. split.
  - intros ([k x] & Hin & H). apply elem_of_map_to_list in Hin. cbn in H.
    destruct (last k) as [m|]; [| done].
    destruct (decide (k = loc ++ [m])) as [-> | _]; [| done].
    by injection H as -> ->.
  - intros H. exists (loc ++ [n], nd). split; [by apply elem_of_map_to_list |].
    cbn. rewrite last_snoc. by rewrite decide_True.
Qed.

Lemma entries_NoDup t loc : NoDup (map fst (entries t loc)).
Proof.
  unfold entries.
  pose proof (NoDup_fst_map_to_list t) as Hnd.
  induction (map_to_list t) as [|[k x] l IH]; [constructor |].
  cbn in Hnd. apply NoDup_cons in Hnd as [Hk Hnd]. cbn.
  destruct (last k) as [m|] eqn:Hl; [| by apply IH].
  destruct (decide (k = loc ++ [m])) as [-> | _]; [| by apply IH].
  cbn. apply NoDup_cons. split; [| by apply IH].
  intros Hin. apply Hk. apply list_elem_of_fmap in Hin as ([m' x'] & Hm & Hin).
  cbn in Hm. subst m'. apply list_elem_of_omap in Hin as ([k' y] & Hin & H).
  cbn in H. destruct (last k') as [m''|]; [| done].
  destruct (decide (k' = loc ++ [m''])) as [-> | _]; [| done].
  injection H as -> ->. apply list_elem_of_fmap. by exists (loc ++ [m], x').
Qed.

(** the kernel on a name in a directory *)
Lemma resolve_join_name t cwd d n :
  d <> "" -> is_name n = true ->
  resolve t cwd (join d n)
  = if isdir t cwd d then Some (locate cwd d ++ [n]) else None.
Proof.
  intros Hd Hn. unfold isdir, stat, resolve.
  destruct (String.eqb_spec (join d n) "") as [He | _];
    [by apply join_ne_empty in He |].
  destruct (String.eqb_spec d "") as [-> | _]; [done |].
  rewrite (isabs_join_name d n Hd Hn).
  destruct (split_join_name d n Hd Hn) as (comps & -> & Hs).
  set (start := if isabs d then [] else cwd).
  assert (Hloc : locate cwd d = fold_left step comps start).
  { unfold locate. fold start. destruct Hs as [-> | ->]; [done |].
    by rewrite fold_left_app. }
  rewrite walk_app.
  assert (Hw : walk t start (split sep d)
               = match walk t start comps with
                 | Some l => if is_dir t l then Some l else None
                 | None => None
                 end
               \/ walk t start (split sep d) = walk t start comps).
  { destruct Hs as [-> | ->]; [by right |]. left. rewrite walk_app.
    destruct (walk t start comps) as [l|]; [| done]. simpl.
    by destruct (is_dir t l). }
  destruct (walk t start comps) as [l|] eqn:Hwalk.
  - pose proof (walk_fold _ _ _ _ Hwalk) as ->. rewrite <- Hloc.
    simpl. rewrite step_name by done.
    destruct Hw as [-> | ->]; unfold is_dir;
      repeat case_bool_decide; try done; congruence.
  - destruct Hw as [-> | ->]; by rewrite bool_decide_eq_false_2.
Qed.

Section Walk.
Context (t : fs) (cwd : list string).
Hypothesis Hnamed : named t.

Local Abbreviation dirs_at := (Listing.dirs_at t).
Local Abbreviation files_at := (Listing.files_at t).

Lemma dirs_at_spec loc n : n ∈ dirs_at loc <-> t !! (loc ++ [n]) = Some Dir.
Proof.
  unfold Listing.dirs_at. rewrite list_elem_of_fmap. split.
  - intros ([m nd] & -> & [Hd Hin]%list_elem_of_filter).
    apply entries_spec in Hin. cbn in *. by destruct nd.
  - intros H. exists (n, Dir). split; [done |].
    apply list_elem_of_filter. split; [done | by apply entries_spec].
Qed.

Lemma files_at_spec loc n :
  n ∈ files_at loc <-> exists c, t !! (loc ++ [n]) = Some (File c).
Proof.
  unfold Listing.files_at. rewrite list_elem_of_fmap. split.
  - intros ([m nd] & -> & [Hd Hin]%list_elem_of_filter).
    apply entries_spec in Hin. cbn in *. destruct nd as [|c]; [done |].
    by exists c.
  - intros [c H]. exists (n, File c). split; [done |].
    apply list_elem_of_filter. split; [done | by apply entries_spec].
Qed.

Lemma stored_name loc n nd : t !! (loc ++ [n]) = Some nd -> is_name n = true.
Proof.
  intros H. apply Hnamed in H. cbn in H.
  rewrite forallb_app in H. apply andb_true_iff in H as [_ H].
  cbn in H. by rewrite andb_true_r in H.
Qed.

Lemma scandir_dir top loc :
  resolve t cwd top = Some loc -> is_dir t loc = true ->
  scandir t cwd top = Some (entries t loc).
Proof. intros Hr Hd. unfold scandir. by rewrite Hr, Hd. Qed.

Lemma isdir_resolved top loc :
  resolve t cwd top = Some loc -> is_dir t loc = true -> isdir t cwd top = true.
Proof.
  intros Hr Hd. unfold isdir, stat. rewrite Hr. unfold is_dir in Hd.
  apply bool_decide_eq_true in Hd. by apply bool_decide_eq_true.
Qed.

Lemma resolve_child top loc d :
  top <> "" -> resolve t cwd top = Some loc -> is_dir t loc = true ->
  is_name d = true ->
  resolve t cwd (join top d) = Some (loc ++ [d]).
Proof.
  intros Hne Hr Hd Hn. rewrite resolve_join_name by done.
  rewrite (isdir_resolved _ _ Hr Hd). by rewrite <- (resolve_locate _ _ _ _ Hr).
Qed.

(** what [os.walk] yields: directories of the tree below [top], each with
    its own directories and files *)
Lemma os_walk_sound fuel : forall top loc root dirs fnames,
  top <> "" -> resolve t cwd top = Some loc ->
  (root, dirs, fnames) ∈ os_walk fuel t cwd top ->
  exists ds,
    Forall (fun n => is_name n = true) ds
    /\ root = fold_left join ds top
    /\ root <> ""
    /\ resolve t cwd root = Some (loc ++ ds)
    /\ is_dir t (loc ++ ds) = true
    /\ (forall i, 1 <= i <= length ds -> t !! (loc ++ take i ds) = Some Dir)
    /\ dirs = dirs_at (loc ++ ds)
    /\ fnames = files_at (loc ++ ds).
Proof.
  induction fuel as [|fuel IH]; intros top loc root dirs fnames Hne Hr;
    cbn [os_walk]; [by intros ?%elem_of_nil |].
  unfold scandir. rewrite Hr. destruct (is_dir t loc) eqn:Hd;
    [| by intros ?%elem_of_nil]. cbv zeta.
  intros [[= -> -> ->] | Hin]%elem_of_cons.
  - exists []. rewrite app_nil_r. split_and!; try done.
    intros i Hi. simpl in Hi. lia.
  - apply list_elem_of_In, in_flat_map in Hin as (d & Hd' & Hin).
    apply list_elem_of_In in Hd', Hin.
    fold (dirs_at loc) in Hd'. apply dirs_at_spec in Hd'.
    pose proof (stored_name _ _ _ Hd') as Hn.
    pose proof (resolve_child _ _ _ Hne Hr Hd Hn) as Hr'.
    destruct (IH _ _ _ _ _ (join_ne_empty top d Hn) Hr' Hin)
      as (ds & Hds & -> & Hne' & Hres & Hdir & Hpre & -> & ->).
    exists (d :: ds). rewrite <- !app_assoc in *. cbn [app] in *.
    split_and!; try done; [by constructor |].
    intros [|i] Hi; [lia |]. rewrite firstn_cons.
    destruct i as [|i]; [by rewrite take_0 |].
    specialize (Hpre (S i) ltac:(simpl in Hi; lia)).
    by rewrite <- app_assoc in Hpre.
Qed.

Lemma os_walk_complete ds : forall fuel top loc,
  top <> "" -> resolve t cwd top = Some loc ->
  (forall i, i <= length ds -> t !! (loc ++ take i ds) = Some Dir \/ (i = 0 /\ is_dir t loc = true)) ->
  length ds < fuel ->
  (fold_left join ds top, dirs_at (loc ++ ds), files_at (loc ++ ds))
  ∈ os_walk fuel t cwd top.
Proof.
  induction ds as [|d ds IH]; intros fuel top loc Hne Hr Hdirs Hfuel;
    (destruct fuel as [|fuel]; [simpl in Hfuel; lia |]); cbn [os_walk].
  - assert (Hd : is_dir t loc = true).
    { destruct (Hdirs 0 ltac:(simpl; lia)) as [H | [_ H]]; [| done].
      rewrite take_0, app_nil_r in H. unfold is_dir, node_at.
      destruct loc; by apply bool_decide_eq_true. }
    rewrite (scandir_dir _ _ Hr Hd). cbv zeta. rewrite app_nil_r. by left.
  - assert (Hd : is_dir t loc = true).
    { destruct (Hdirs 0 ltac:(simpl; lia)) as [H | [_ H]]; [| done].
      rewrite take_0, app_nil_r in H. unfold is_dir, node_at.
      destruct loc; by apply bool_decide_eq_true. }
    assert (Hchild : t !! (loc ++ [d]) = Some Dir).
    { destruct (Hdirs 1 ltac:(simpl; lia)) as [H | [? _]]; [| done].
      by rewrite firstn_cons, take_0 in H. }
    rewrite (scandir_dir _ _ Hr Hd). cbv zeta. right.
    apply list_elem_of_In, in_flat_map. exists d.
    split; [apply list_elem_of_In; fold (dirs_at loc); by apply dirs_at_spec |].
    apply list_elem_of_In.
    pose proof (stored_name _ _ _ Hchild) as Hn.
    replace (loc ++ d :: ds) with ((loc ++ [d]) ++ ds) by by rewrite <- app_assoc.
    apply IH; [by apply join_ne_empty | by apply resolve_child | | simpl in Hfuel; lia].
    intros i Hi. left. destruct (Hdirs (S i) ltac:(simpl; lia)) as [H | [? _]]; [| done].
    rewrite firstn_cons in H. by rewrite <- app_assoc.
Qed.

(** the depth of a chain of directories that are stored is at most the
    size of the map *)
Lemma chain_size loc ds :
  (forall i, 1 <= i <= length ds -> is_Some (t !! (loc ++ take i ds))) ->
  length ds <= size t.
Proof.
  intros H.
  set (l := map (fun i => loc ++ take i ds) (seq 1 (length ds))).
  assert (Hl : length l = length ds) by (unfold l; by rewrite length_map, length_seq).
  rewrite <- Hl, <- (length_map_to_list t), <- (length_map fst (map_to_list t)).
  apply submseteq_length, NoDup_submseteq.
  - unfold l. apply NoDup_fmap_2_strong; [| apply NoDup_seq].
    intros i j Hi Hj Heq. apply elem_of_seq in Hi, Hj.
    apply app_inv_head in Heq. apply (f_equal length) in Heq.
    rewrite !length_take in Heq. lia.
  - intros k Hk. unfold l in Hk. apply list_elem_of_fmap in Hk as (i & -> & Hi).
    apply elem_of_seq in Hi. destruct (H i ltac:(lia)) as [nd Hnd].
    apply list_elem_of_fmap. exists (loc ++ take i ds, nd).
    split; [done |]. by apply elem_of_map_to_list.
Qed.

End Walk.
(** *** [relpath] *)

Lemma endswith_char_app c a b :
  b <> "" -> endswith_char c (a +:+ b) = endswith_char c b.
Proof.
  intros Hb. induction a as [|x a IH]; [done |].
  rewrite append_cons. cbn [endswith_char]. rewrite IH.
  destruct (a +:+ b) eqn:Hab; [| done].
  destruct a; [by rewrite append_nil_l in Hab | discriminate].
Qed.

Lemma name_no_trailing_sep n : is_name n = true -> endswith_char sep n = false.
Proof.
  unfold is_name. intros H. apply andb_true_iff in H as [_ H].
  induction n as [|c n IH]; [done |]. cbn in H.
  apply andb_true_iff in H as [Hc Hn]. cbn [endswith_char].
  destruct n; [| by apply IH].
  apply negb_true_iff in Hc. by rewrite Ascii.eqb_sym.
Qed.

Lemma name_ne_empty n : is_name n = true -> n <> "".
Proof. by intros H ->. Qed.

(** joining a name to a path that is not empty and does not end in a
    slash puts a slash between them *)
Lemma join_plain a n :
  a <> "" -> endswith_char sep a = false -> is_name n = true ->
  join a n = a +:+ "/" +:+ n.
Proof.
  intros Ha He Hn. rewrite join_rel by by apply is_name_rel.
  destruct (String.eqb_spec a ""); [done |]. rewrite He. cbn [orb].
  by rewrite append_assoc.
Qed.

Lemma join_sep_snoc (l : list string) x :
  l <> [] -> Py.join "/" (l ++ [x]) = Py.join "/" l +:+ "/" +:+ x.
Proof.
  induction l as [|a l IH]; [done |]. intros _.
  destruct l as [|b l]; [done |].
  change (Py.join "/" ((a :: b :: l) ++ [x]))
    with (a +:+ "/" +:+ Py.join "/" ((b :: l) ++ [x])).
  rewrite IH by done.
  change (Py.join "/" (a :: b :: l)) with (a +:+ "/" +:+ Py.join "/" (b :: l)).
  by rewrite !append_assoc.
Qed.

Lemma join_sep_plain l :
  Forall (fun n => is_name n = true) l -> l <> [] ->
  Py.join "/" l <> "" /\ endswith_char sep (Py.join "/" l) = false
  /\ isabs (Py.join "/" l) = false.
Proof.
  induction l as [|a l IH] using rev_ind; [done |]. intros H _.
  apply Forall_app in H as [Hl Ha]. apply Forall_cons in Ha as [Ha _].
  destruct l as [|b l].
  - cbn. split_and!; [by apply name_ne_empty | by apply name_no_trailing_sep
                      | by apply is_name_rel].
  - rewrite join_sep_snoc by done.
    destruct (IH Hl ltac:(done)) as (Hne & _ & Hrel). split_and!.
    + intros H. destruct (Py.join "/" (b :: l)); [done | discriminate].
    + change (Py.join "/" (b :: l) +:+ "/" +:+ a)
        with (Py.join "/" (b :: l) +:+ ("/" +:+ a)).
      rewrite !endswith_char_app; [by apply name_no_trailing_sep | | ].
      * by apply name_ne_empty.
      * discriminate.
    + by rewrite isabs_app.
Qed.

(** [os.path.join] of names is the names with slashes between them *)
Lemma join_all_names l :
  Forall (fun n => is_name n = true) l -> l <> [] ->
  join_all l = Py.join "/" l.
Proof.
  induction l as [|a l IH] using rev_ind; [done |]. intros H _.
  apply Forall_app in H as [Hl Ha]. apply Forall_cons in Ha as [Ha _].
  destruct l as [|b l]; [done |].
  specialize (IH Hl ltac:(done)).
  rewrite (join_sep_snoc (b :: l) a) by done.
  change (join_all ((b :: l) ++ [a])) with (fold_left join (l ++ [a]) b).
  change (join_all (b :: l)) with (fold_left join l b) in IH.
  rewrite fold_left_app. cbn [fold_left]. rewrite IH.
  destruct (join_sep_plain (b :: l) Hl ltac:(done)) as (Hne & He & _).
  by rewrite join_plain.
Qed.

(** joining to a folder name by name, or all at once *)
Lemma join_fold_names folder l :
  folder <> "" ->
  Forall (fun n => is_name n = true) l -> l <> [] ->
  fold_left join l folder = join folder (Py.join "/" l).
Proof.
  intros Hf. induction l as [|a l IH] using rev_ind; [done |]. intros H _.
  apply Forall_app in H as [Hl Ha]. apply Forall_cons in Ha as [Ha _].
  rewrite fold_left_app. cbn [fold_left].
  destruct l as [|b l]; [done |].
  rewrite IH by done. rewrite join_sep_snoc by done.
  destruct (join_sep_plain (b :: l) Hl ltac:(done)) as (Hne & He & Hrel).
  set (x := Py.join "/" (b :: l)) in *.
  assert (Hrel' : isabs (x +:+ "/" +:+ a) = false) by by rewrite isabs_app.
  rewrite (join_rel folder x Hrel), (join_rel folder _ Hrel').
  set (pre := if String.eqb folder "" || endswith_char sep folder
              then folder else folder +:+ "/").
  rewrite join_plain; [by rewrite !append_assoc | | | done].
  - intros H. destruct pre; [| discriminate]. by rewrite append_nil_l in H.
  - by rewrite endswith_char_app.
Qed.

Lemma filter_names l :
  Forall (fun n => is_name n = true) l -> filter (fun x => x <> "") l = l.
Proof.
  induction 1 as [|a l Ha _ IH]; [done |].
  rewrite filter_cons, decide_True by by apply name_ne_empty. by rewrite IH.
Qed.

(** the parts of [abspath(p)] are the place [p] names *)
Lemma abs_parts_locate getcwd p :
  isabs getcwd = true ->
  abs_parts getcwd p = locate (locate [] getcwd) p.
Proof.
  intros Hcwd. destruct (locate_abspath getcwd p Hcwd) as [Hloc Habs].
  rewrite <- Hloc. unfold abs_parts.
  assert (Hq : exists q, abspath getcwd p = normpath q /\ isabs q = true).
  { unfold abspath. destruct (isabs p) eqn:Hp; eexists; (split; [done |]);
      [done | by apply isabs_join]. }
  destruct Hq as (q & Hq & Hqa). rewrite Hq in *.
  destruct (normpath_abs q Hqa) as (k & Hk & _ & Hn & Hnames).
  unfold locate. rewrite Habs, Hn.
  set (comps := fold_left step (split sep q) []) in *.
  assert (Hs : filter (fun x => x <> "") (split sep (Py.join "/" comps)) = comps
               /\ fold_left step (split sep (Py.join "/" comps)) [] = comps).
  { split; [| by rewrite fold_step_split_join].
    destruct comps as [|c cs] eqn:Hc; [done |].
    rewrite split_join by done. by apply filter_names. }
  destruct Hs as [Hs1 Hs2].
  destruct Hk as [-> | ->]; cbn [repeat_char]; rewrite !append_cons, append_nil_l.
  - change (String sep (Py.join "/" comps))
      with ("" +:+ String sep (Py.join "/" comps)).
    rewrite split_app_sep. cbn [split app fold_left].
    change (step [] "") with (@nil string).
    rewrite filter_cons, decide_False by (intros H; by apply H).
    etrans; [exact Hs1 | symmetry; exact Hs2].
  - change (String sep (String sep (Py.join "/" comps)))
      with ("" +:+ String sep ("" +:+ String sep (Py.join "/" comps))).
    rewrite !split_app_sep. cbn [split app fold_left].
    change (step [] "") with (@nil string).
    rewrite !filter_cons, !decide_False by (intros H; by apply H).
    etrans; [exact Hs1 | symmetry; exact Hs2].
Qed.

Lemma commonprefix_len_app l xs : commonprefix_len l (l ++ xs) = length l.
Proof.
  induction l as [|a l IH]; [by destruct xs |].
  cbn. by rewrite String.eqb_refl, IH.
Qed.

(** the path of a file below [start], relative to [start] *)
Lemma relpath_below getcwd path start xs :
  isabs getcwd = true -> path <> "" ->
  Forall (fun n => is_name n = true) xs -> xs <> [] ->
  locate (locate [] getcwd) path = locate (locate [] getcwd) start ++ xs ->
  relpath getcwd path start = Some (Py.join "/" xs).
Proof.
  intros Hcwd Hne Hxs Hnn Hloc. unfold relpath.
  destruct (String.eqb_spec path ""); [done |].
  rewrite !abs_parts_locate by done. rewrite Hloc, commonprefix_len_app.
  rewrite Nat.sub_diag, drop_app_length. cbn [replicate app].
  destruct xs as [|x xs]; [done |]. by rewrite join_all_names.
Qed.

(** *** the loop of [get_result] *)

Lemma pick_spec getcwd folder root fnames l :
  pick getcwd folder root fnames = Some l ->
  forall rel, rel ∈ l <->
    exists fname, fname ∈ fnames /\ endswith_any fname extensions = true
                  /\ relpath getcwd (join root fname) folder = Some rel.
Proof.
  revert l. induction fnames as [|f fs IH]; intros l; cbn [pick fold_right].
  - intros [= <-] rel. split; [by intros ?%elem_of_nil |].
    by intros (? & ?%elem_of_nil & _).
  - fold (pick getcwd folder root fs).
    destruct (pick getcwd folder root fs) as [l'|]; [| done].
    specialize (IH l' eq_refl).
    destruct (endswith_any f extensions) eqn:He.
    + destruct (relpath getcwd (join root f) folder) as [r|] eqn:Hr; [| done].
      intros [= <-] rel. rewrite elem_of_cons, IH. split.
      * intros [-> | (x & Hx & H)]; [exists f; split; [by left | done] |].
        exists x. split; [by right | done].
      * intros (x & [-> | Hx]%elem_of_cons & Hxe & Hxr); [left; congruence |].
        right. by exists x.
    + intros [= <-] rel. rewrite IH. split.
      * intros (x & Hx & H). exists x. split; [by right | done].
      * intros (x & [-> | Hx]%elem_of_cons & Hxe & Hxr); [congruence |].
        by exists x.
Qed.

Lemma pick_total getcwd folder root fnames :
  (forall fname, fname ∈ fnames ->
     is_Some (relpath getcwd (join root fname) folder)) ->
  is_Some (pick getcwd folder root fnames).
Proof.
  induction fnames as [|f fs IH]; intros H; cbn [pick fold_right]; [done |].
  fold (pick getcwd folder root fs).
  destruct IH as [l' ->]; [intros x Hx; apply H; by right |].
  destruct (endswith_any f extensions); [| done].
  by destruct (H f ltac:(by left)) as [r ->].
Qed.

Lemma collect_unfold getcwd folder root dirs fnames rest :
  collect getcwd folder ((root, dirs, fnames) :: rest)
  = match pick getcwd folder root fnames, collect getcwd folder rest with
    | Some l, Some r => Some (l ++ r)
    | _, _ => None
    end.
Proof. reflexivity. Qed.

Lemma collect_spec getcwd folder ys : forall l,
  collect getcwd folder ys = Some l ->
  forall rel, rel ∈ l <->
    exists root dirs fnames fname,
      (root, dirs, fnames) ∈ ys /\ fname ∈ fnames
      /\ endswith_any fname extensions = true
      /\ relpath getcwd (join root fname) folder = Some rel.
Proof.
  induction ys as [|[[root dirs] fnames] rest IH]; intros l.
  - intros [= <-] rel. split; [by intros ?%elem_of_nil |].
    by intros (? & ? & ? & ? & ?%elem_of_nil & _).
  - rewrite collect_unfold.
    destruct (pick getcwd folder root fnames) as [l1|] eqn:Hp; [| done].
    destruct (collect getcwd folder rest) as [l2|]; [| done].
    intros [= <-] rel. rewrite elem_of_app, (pick_spec _ _ _ _ _ Hp), (IH _ eq_refl).
    split.
    + intros [(f & Hf & H) | (r & d & fn & f & Hin & H)].
      * exists root, dirs, fnames, f. split; [by left | done].
      * exists r, d, fn, f. split; [by right | done].
    + intros (r & d & fn & f & [[= -> -> ->] | Hin]%elem_of_cons & H).
      * left. by exists f.
      * right. by exists r, d, fn, f.
Qed.

Lemma collect_total getcwd folder ys :
  (forall root dirs fnames fname, (root, dirs, fnames) ∈ ys -> fname ∈ fnames ->
     is_Some (relpath getcwd (join root fname) folder)) ->
  is_Some (collect getcwd folder ys).
Proof.
  induction ys as [|[[root dirs] fnames] rest IH]; intros H; [done |].
  rewrite collect_unfold.
  destruct (pick_total getcwd folder root fnames) as [l1 ->].
  { intros f Hf. eapply H; [by left | done]. }
  destruct IH as [l2 ->]; [| done].
  intros r d fn f Hin Hf. eapply H; [by right | done].
Qed.

Lemma relpath_some getcwd path start :
  path <> "" -> is_Some (relpath getcwd path start).
Proof.
  intros Hne. unfold relpath. destruct (String.eqb_spec path ""); [done |].
  cbv zeta. by destruct (_ ++ _).
Qed.

Lemma locate_fold_names cwd folder ds :
  Forall (fun n => is_name n = true) ds ->
  locate cwd (fold_left join ds folder) = locate cwd folder ++ ds.
Proof.
  induction ds as [|d ds IH] using rev_ind; intros H; [by rewrite app_nil_r |].
  apply Forall_app in H as [Hds Hd]. apply Forall_cons in Hd as [Hd _].
  rewrite fold_left_app. cbn [fold_left].
  rewrite locate_join_name by done. rewrite IH by done. by rewrite app_assoc.
Qed.

Lemma fold_join_ne_empty folder ds :
  folder <> "" -> Forall (fun n => is_name n = true) ds ->
  fold_left join ds folder <> "".
Proof.
  intros Hf. induction ds as [|d ds IH] using rev_ind; intros H; [done |].
  apply Forall_app in H as [Hds Hd]. apply Forall_cons in Hd as [Hd _].
  rewrite fold_left_app. cbn [fold_left]. by apply join_ne_empty.
Qed.

(** the path of a file of the tree, relative to the folder *)
Lemma relpath_of_file getcwd folder ds fname :
  isabs getcwd = true ->
  Forall (fun n => is_name n = true) (ds ++ [fname]) ->
  relpath getcwd (join (fold_left join ds folder) fname) folder
  = Some (Py.join "/" (ds ++ [fname])).
Proof.
  intros Hcwd Hall. pose proof Hall as Hall'.
  apply Forall_app in Hall' as [Hds Hf]. apply Forall_cons in Hf as [Hf _].
  apply relpath_below; [done | by apply join_ne_empty | done | by destruct ds |].
  rewrite locate_join_name by done. rewrite locate_fold_names by done.
  by rewrite app_assoc.
Qed.

Section GetResult.
Context (getcwd : string) (t : fs) (id : string).
Hypothesis Hcwd : isabs getcwd = true.
Hypothesis Hnamed : named t.
Local Abbreviation cwd := (locate [] getcwd).
Local Abbreviation folder := (join "anti_form_jobs" id).
Local Abbreviation floc := (locate cwd folder).

Lemma chain_names loc ds :
  (forall i, 1 <= i <= length ds -> is_Some (t !! (loc ++ take i ds))) ->
  Forall (fun n => is_name n = true) ds.
Proof.
  intros H. destruct (decide (ds = [])) as [-> | Hne]; [done |].
  destruct (H (length ds)) as [nd Hnd].
  { destruct ds; [done | simpl; lia]. }
  rewrite firstn_all in Hnd. apply Hnamed in Hnd. cbn in Hnd.
  rewrite forallb_app in Hnd. apply andb_true_iff in Hnd as [_ Hnd].
  apply Forall_forall. intros n Hn. rewrite forallb_forall in Hnd.
  apply Hnd. by apply list_elem_of_In.
Qed.

Lemma folder_resolved :
  isdir t cwd folder = true ->
  folder <> "" /\ resolve t cwd folder = Some floc /\ is_dir t floc = true.
Proof.
  unfold isdir, stat. intros H%bool_decide_eq_true.
  destruct (resolve t cwd folder) as [loc|] eqn:Hr; [| done].
  pose proof (resolve_locate _ _ _ _ Hr) as ->. split_and!; [| done |].
  - intros He. unfold resolve in Hr. by rewrite He in Hr.
  - unfold is_dir. by apply bool_decide_eq_true.
Qed.

(** what a yielded file is, seen from the folder *)
Lemma yielded_file fuel root dirs fnames fname :
  isdir t cwd folder = true ->
  (root, dirs, fnames) ∈ os_walk fuel t cwd folder -> fname ∈ fnames ->
  exists ds c,
    t !! (floc ++ ds ++ [fname]) = Some (File c)
    /\ (forall i, 1 <= i <= length ds -> t !! (floc ++ take i ds) = Some Dir)
    /\ Forall (fun n => is_name n = true) (ds ++ [fname])
    /\ join root fname = join folder (Py.join "/" (ds ++ [fname]))
    /\ resolve t cwd (join root fname) = Some (floc ++ ds ++ [fname])
    /\ relpath getcwd (join root fname) folder
       = Some (Py.join "/" (ds ++ [fname])).
Proof.
  intros Hdir Hin Hf.
  destruct (folder_resolved Hdir) as (Hne & Hr & Hd).
  destruct (os_walk_sound t cwd Hnamed _ _ _ _ _ _ Hne Hr Hin)
    as (ds & Hds & -> & Hrne & Hres & Hrd & Hpre & _ & ->).
  apply files_at_spec in Hf as [c Hc].
  pose proof (stored_name t Hnamed _ _ _ Hc) as Hn.
  assert (Hall : Forall (fun n => is_name n = true) (ds ++ [fname])).
  { apply Forall_app. split; [done | by constructor]. }
  assert (Hres' : resolve t cwd (join (fold_left join ds folder) fname)
                  = Some (floc ++ ds ++ [fname])).
  { rewrite app_assoc. by apply resolve_child. }
  exists ds, c. rewrite <- app_assoc in Hc. split_and!; try done.
  - rewrite <- join_fold_names; [| done | done | by destruct ds].
    by rewrite fold_left_app.
  - apply relpath_below; [done | by apply join_ne_empty | done | by destruct ds |].
    by rewrite <- (resolve_locate _ _ _ _ Hres').
Qed.

(** X23. For a job whose folder holds [complete_ok], [get_result] lists the
    regular files of the folder, at any depth, whose name ends in one of
    [.tsv], [.png], [.pdf], [.out], [.html], and only these, each by its
    path relative to the folder. *)
Theorem get_result_lists_result_files :
  isdir t cwd folder = true ->
  Fs.exists_ t cwd (join folder "complete_ok") = true ->
  exists r,
    get_result getcwd t id = Return r
    /\ job_id r = id
    /\ forall rel, rel ∈ files r <->
         exists ds fname c,
           rel = Py.join "/" (ds ++ [fname])
           /\ endswith_any fname extensions = true
           /\ t !! (floc ++ ds ++ [fname]) = Some (File c)
           /\ (forall i, 1 <= i <= length ds ->
                 t !! (floc ++ take i ds) = Some Dir).
Proof.
  intros Hdir Hok. unfold get_result. cbv zeta. rewrite Hdir, Hok. cbn [negb].
  destruct (folder_resolved Hdir) as (Hne & Hr & Hd).
  destruct (collect_total getcwd folder (os_walk (S (size t)) t cwd folder))
    as [l Hl].
  { intros root dirs fnames fname Hin Hf.
    destruct (yielded_file _ _ _ _ _ Hdir Hin Hf) as (ds & c & _ & _ & _ & _ & _ & ->).
    by eexists. }
  rewrite Hl. eexists. split; [done |]. split; [done |]. cbn [files].
  intros rel. rewrite (collect_spec _ _ _ _ Hl). split.
  - intros (root & dirs & fnames & fname & Hin & Hf & He & Hrel).
    destruct (yielded_file _ _ _ _ _ Hdir Hin Hf)
      as (ds & c & Hc & Hpre & _ & _ & _ & Hrel').
    exists ds, fname, c. split_and!; try done. congruence.
  - intros (ds & fname & c & -> & He & Hc & Hpre).
    assert (Hchain : forall i, 1 <= i <= length ds ->
                       is_Some (t !! (floc ++ take i ds))).
    { intros i Hi. rewrite (Hpre i Hi). by eexists. }
    pose proof (chain_size t _ _ Hchain) as Hsize.
    assert (Hin : (fold_left join ds folder, Listing.dirs_at t (floc ++ ds),
                   Listing.files_at t (floc ++ ds))
                  ∈ os_walk (S (size t)) t cwd folder).
    { apply os_walk_complete; [done | done | done | | lia].
      intros [|i] Hi; [right; by rewrite ?Hd | left; apply Hpre; lia]. }
    assert (Hf : fname ∈ Listing.files_at t (floc ++ ds)).
    { apply files_at_spec. exists c. by rewrite <- app_assoc. }
    eexists _, _, _, fname. split_and!; [exact Hin | done | done |].
    apply relpath_of_file; [done |].
    apply Forall_app. split; [by apply (chain_names floc) |].
    constructor; [| done]. rewrite app_assoc in Hc.
    by apply (stored_name t Hnamed _ _ _ Hc).
Qed.

Lemma endswith_join_last ds fname suffix :
  endswith fname suffix = true ->
  endswith (Py.join "/" (ds ++ [fname])) suffix = true.
Proof.
  intros [pre ->]%endswith_iff. apply endswith_iff.
  destruct ds as [|d ds]; [by exists pre |].
  rewrite (join_sep_snoc (d :: ds)) by done.
  exists (Py.join "/" (d :: ds) +:+ "/" +:+ pre). by rewrite !append_assoc.
Qed.

(** a path with a slash is no segment *)
Lemma slash_no_segment a b : segment (a +:+ "/" +:+ b) = false.
Proof.
  unfold segment. induction a as [|c a IH]; [done |].
  rewrite append_cons. cbn [string_forallb]. rewrite IH. apply andb_false_r.
Qed.

(** X24. A file that [get_result] lists by a name without a slash, as the
    route [/download/{job_id}/{filename}] takes it, can be fetched: it is a
    regular file directly in the job folder, [download_file] answers with
    it, it is what the answer sends, and its name ends in one of the five
    extensions.  (A file the list takes from a folder below has slashes in
    its path.) *)
Theorem listed_file_can_be_downloaded r rel :
  get_result getcwd t id = Return r ->
  rel ∈ files r ->
  segment rel = true ->
  exists c,
    t !! (floc ++ [rel]) = Some (File c)
    /\ download_file t cwd id rel
       = Return {| path := join folder rel; download_name := rel |}
    /\ served t cwd {| path := join folder rel; download_name := rel |}
       = Some c
    /\ endswith_any rel extensions = true.
Proof.
  unfold get_result. cbv zeta.
  destruct (isdir t cwd folder) eqn:Hdir; [| done].
  destruct (Fs.exists_ t cwd (join folder "complete_ok")); [| done]. cbn [negb].
  destruct (collect getcwd folder _) as [l|] eqn:Hl; [| done].
  intros [= <-]. cbn [files]. rewrite (collect_spec _ _ _ _ Hl).
  intros (root & dirs & fnames & fname & Hin & Hf & He & Hrel) Hseg.
  destruct (yielded_file _ _ _ _ _ Hdir Hin Hf)
    as (ds & c & Hc & _ & _ & Hjoin & Hres & Hrel').
  assert (rel = Py.join "/" (ds ++ [fname])) as -> by congruence.
  assert (ds = []) as ->.
  { destruct ds as [|d ds]; [done |].
    rewrite (join_sep_snoc (d :: ds)) in Hseg by done.
    by rewrite slash_no_segment in Hseg. }
  cbn [app Py.join] in *.
  assert (Hstat : stat t cwd (join folder fname) = Some (File c)).
  { rewrite <- Hjoin. unfold stat. rewrite Hres. by rewrite node_at_snoc. }
  exists c. split_and!.
  - done.
  - unfold download_file. rewrite Hdir. cbn [negb].
    unfold Fs.exists_. rewrite Hstat. by rewrite bool_decide_eq_true_2.
  - unfold served. cbn [path]. by rewrite Hstat.
  - done.
Qed.

End GetResult.
End ListingFacts.

Module QueryPageTheorems.
Import Py Api QueryPage PathFacts AbsFacts.

(** cutting at a character and joining with it gives the text back *)
Lemma join_split c s : Py.join (String c "") (split c s) = s.
Proof.
  induction s as [|d s IH]; [done |]. cbn [split].
  destruct (Ascii.eqb_spec d c) as [-> | Hne].
  - pose proof (split_not_nil c s) as Hs.
    destruct (split c s) as [|w ws] eqn:Hsp; [done |].
    change (Py.join (String c "") ("" :: w :: ws))
      with ("" +:+ String c "" +:+ Py.join (String c "") (w :: ws)).
    by rewrite IH.
  - pose proof (split_not_nil c s) as Hs.
    destruct (split c s) as [|w ws] eqn:Hsp; [done |].
    destruct ws as [|w' ws'].
    + cbn [Py.join] in *. by rewrite IH.
    + change (Py.join (String c "") (String d w :: w' :: ws'))
        with (String d (w +:+ String c "" +:+ Py.join (String c "") (w' :: ws'))).
      change (Py.join (String c "") (w :: w' :: ws'))
        with (w +:+ String c "" +:+ Py.join (String c "") (w' :: ws')) in IH.
      by rewrite IH.
Qed.

Lemma rows_from_spec expected : forall lines idx table,
  rows_from expected idx lines = Return table ->
  table = map (split tab) lines
  /\ Forall (fun row => length row = expected) table.
Proof.
  induction lines as [|ln rest IH]; intros idx table; cbn [rows_from].
  - by intros [= <-].
  - cbv zeta. destruct (length (split tab ln) =? expected) eqn:He; [| done].
    cbn [negb]. destruct (rows_from expected (S idx) rest) as [tb| |] eqn:Hr;
      [| done | done].
    intros [= <-]. destruct (IH _ _ Hr) as [-> Hall]. split; [done |].
    constructor; [by apply Nat.eqb_eq | done].
Qed.

Lemma rows_from_bad expected : forall good idx bad rest,
  Forall (fun ln => length (split tab ln) = expected) good ->
  length (split tab bad) <> expected ->
  rows_from expected idx (good ++ bad :: rest)
  = HTTPException 500
      (ragged_detail (idx + length good) expected (length (split tab bad))).
Proof.
  induction good as [|ln good IH]; intros idx bad rest Hgood Hbad;
    cbn [rows_from app]; cbv zeta.
  - apply Nat.eqb_neq in Hbad. rewrite Hbad. cbn. by rewrite Nat.add_0_r.
  - apply Forall_cons in Hgood as [Hln Hgood].
    apply Nat.eqb_eq in Hln. rewrite Hln. cbn [negb].
    rewrite IH by done. cbn [length]. do 2 f_equal. lia.
Qed.

Section Parse.
Context (BASE_FOLDER : string) (t : Fs.fs) (cwd : list string) (job_id : string).
Local Abbreviation path :=
  (PosixPath.join
     (PosixPath.join (PosixPath.join BASE_FOLDER job_id) "3.abProfilesCmp")
     "query_table.tsv").

(** X25. The table that [parse_query_table] returns is the text of the file
    (its bytes read as UTF-8, line endings translated) cut into lines and
    the lines cut at the tabs: it has a row for every line and at least
    one, every row has as many fields as the first, and joining the fields
    of each row with tabs gives the lines back. *)
Theorem parse_query_table_is_rectangular table :
  parse_query_table BASE_FOLDER t cwd job_id = Return table ->
  exists bytes text,
    Fs.stat t cwd path = Some (Fs.File bytes)
    /\ read_text bytes = Some text
    /\ table = map (split tab) (splitlines text)
    /\ table <> []
    /\ Forall (fun row => length row = length (hd [] table) /\ 1 <= length row)
         table
    /\ map (Py.join tab_s) table = splitlines text.
Proof.
  unfold parse_query_table. cbv zeta.
  destruct (Fs.stat t cwd path) as [[|bytes]|]; [done | | done].
  destruct (read_text bytes) as [text|] eqn:Hread; [| done].
  destruct (splitlines text) as [|first rest] eqn:Hl; [done |].
  intros Hrows. destruct (rows_from_spec _ _ _ _ Hrows) as [-> Hall].
  exists bytes, text. rewrite Hl.
  split; [done |]. split; [done |]. split; [done |]. split; [done |].
  split.
  - cbn [map hd]. eapply Forall_impl; [exact Hall |]. cbn beta.
    intros row ->. split; [done |].
    pose proof (split_not_nil tab first). destruct (split tab first); [done |].
    simpl. lia.
  - rewrite map_map. rewrite <- (map_id (first :: rest)) at 2.
    apply map_ext. intros ln. apply join_split.
Qed.

(** X26. When a line of the text of the file has another number of fields
    than the first line, [parse_query_table] answers 500 and names the
    first such line, counted from one, with the number expected and the
    number found. *)
Theorem parse_query_table_names_first_bad_line bytes text good bad rest :
  Fs.stat t cwd path = Some (Fs.File bytes) ->
  read_text bytes = Some text ->
  splitlines text = good ++ bad :: rest ->
  Forall (fun ln => length (split tab ln) = length (split tab (hd bad good)))
    good ->
  length (split tab bad) <> length (split tab (hd bad good)) ->
  parse_query_table BASE_FOLDER t cwd job_id
  = HTTPException 500
      (ragged_detail (S (length good)) (length (split tab (hd bad good)))
         (length (split tab bad))).
Proof.
  intros Hstat Hread Hl Hgood Hbad. unfold parse_query_table. cbv zeta.
  rewrite Hstat, Hread, Hl.
  destruct good as [|first good]; [done |]. cbn [app hd] in *.
  change (first :: good ++ bad :: rest) with ((first :: good) ++ bad :: rest).
  by rewrite rows_from_bad.
Qed.

End Parse.

End QueryPageTheorems.

(** ** The properties at the concrete cases *)
Module CaseFacts.
Import Py Eff Pipeline Api Scenario Cases.
Import PipelineFacts UploadFacts PoolFacts.

Ltac computed := vm_compute; reflexivity.
Ltac decided := apply (bool_decide_unpack _); vm_compute; exact I.
Ltac apart := let H := fresh in intros [? H]; vm_compute in H; discriminate.

Local Abbreviation first_id := "2025010101-3aho-vCJQ-X4bipwDK".
Local Abbreviation second_id := "2025010102-RY5c-jqxE-LSZ6dkry".
Local Abbreviation after_first :=
  (generate_job_id clock submitted here 1000 first_of_day).1.
Local Abbreviation other_form := (jobs_loc ++ [other_id; "formData.json"]).

(** two calls in a row on the first day *)
Lemma job_ids_never_repeat_witness :
  (forall k, String.length (today_at clock k) = 8)
  /\ generate_job_id clock submitted here 1000 first_of_day
     = (after_first, Some first_id)
  /\ (generate_job_id clock submitted here 1000 after_first).2 = Some second_id
  /\ first_id <> second_id.
Proof.
  assert (H0 : forall k, String.length (today_at clock k) = 8)
    by (intros k; reflexivity).
  assert (H1 : generate_job_id clock submitted here 1000 first_of_day
               = (after_first, Some first_id))
    by (apply pair_outcome; computed).
  assert (H2 : (generate_job_id clock submitted here 1000 after_first).2
               = Some second_id) by computed.
  exact (conj H0 (conj H1 (conj H2
           (JobIdTheorems.job_ids_never_repeat clock submitted here 1000
              submitted here 1000 first_of_day after_first after_first _
              first_id second_id H0 H1 (fun _ => le_n _)
              (pair_outcome _ _ H2))))).
Defined.


(** the classifier fails and [error.log] cannot be opened *)
Lemma run_pipeline_raises_only_on_open_witness :
  (run_pipeline env_log_denied folder start).2 = Raised denied
  /\ exists op,
       op ∈ [OpenW (error_log (PosixPath.abspath cwd folder));
             OpenA (error_log (PosixPath.abspath cwd folder));
             OpenW (PosixPath.join (PosixPath.abspath cwd folder) "complete_ok");
             OpenW (PosixPath.join (PosixPath.abspath cwd folder) "country")]
       /\ os_error env_log_denied op = Some denied.
Proof.
  assert (H : (run_pipeline env_log_denied folder start).2 = Raised denied)
    by computed.
  exact (conj H (RunnerTheorems.run_pipeline_raises_only_on_open env_log_denied
                   folder start _ denied (run_outcome _ _ H))).
Defined.

(** the run of branch A ends with [complete_ok] *)
Lemma run_pipeline_writes_one_terminal_file_witness :
  (run_pipeline env_AB folder start).2 = Done tt
  /\ (EvCreate (error_log (PosixPath.abspath cwd folder))
        ∈ emitted start (run_pipeline env_AB folder start).1
      -> EvCreate (PosixPath.join (PosixPath.abspath cwd folder) "complete_ok")
           ∉ emitted start (run_pipeline env_AB folder start).1).
Proof.
  assert (H : (run_pipeline env_AB folder start).2 = Done tt) by computed.
  split; [exact H |].
  destruct (RunnerTheorems.run_pipeline_writes_one_terminal_file env_AB folder
              start _ (run_outcome _ _ H)) as [(_ & Hno & _) | (Hno & _)].
  - intros Hlog. destruct (Hno Hlog).
  - intros _. exact Hno.
Defined.

(** the folder of the job, relative and absolute *)
Lemma run_pipeline_accepts_relative_folder_witness :
  PosixPath.isabs (getcwd env_AB) = true
  /\ run_pipeline env_AB (PosixPath.abspath (getcwd env_AB) folder) start
     = run_pipeline env_AB folder start.
Proof.
  exact (conj eq_refl
           (RunnerTheorems.run_pipeline_accepts_relative_folder env_AB folder
              start eq_refl)).
Defined.

(** the exception of [run_pipeline] ends in [pipeline_error.log] *)
Lemma worker_logs_what_escapes_witness :
  (bind (run_pipeline env_log_denied folder)
     (fun _ => open_w env_log_denied (PosixPath.join folder "complete_ok") "")
     start).2 = Raised denied
  /\ os_error env_log_denied (OpenW (PosixPath.join folder "pipeline_error.log"))
     = None
  /\ (analysis_worker env_log_denied folder start).2 = Done tt
  /\ Fs.text_at (files (analysis_worker env_log_denied folder start).1)
       (loc_of env_log_denied (PosixPath.join folder "pipeline_error.log"))
     = denied.
Proof.
  assert (H1 : (bind (run_pipeline env_log_denied folder)
                  (fun _ => open_w env_log_denied
                              (PosixPath.join folder "complete_ok") "")
                  start).2 = Raised denied) by computed.
  assert (H2 : os_error env_log_denied
                 (OpenW (PosixPath.join folder "pipeline_error.log")) = None)
    by computed.
  destruct (WorkerTheorems.worker_logs_what_escapes env_log_denied folder start
              denied H1 H2) as (Hdone & Htext & _).
  exact (conj H1 (conj H2 (conj Hdone Htext))).
Defined.


Local Abbreviation accepted :=
  {| out_email := None;
     out_gcaCode := "GCA_000005845.2";
     out_location := None;
     out_job_id := first_id;
     file_saved_path := "anti_form_jobs/" +:+ first_id;
     message := "Your job " +:+ first_id
                +:+ " has been submitted. Please check status later." |}.
Local Abbreviation upload_ok :=
  (upload_file services0 None "GCA_000005845.2" None "-1" (Some upload0) server0).

(** a request with a file and a code *)
Lemma accepted_upload_is_stored_witness :
  upload_ok.2 = Return accepted
  /\ read upload0
     = Done (Fs.text_at (files (sys upload_ok.1))
               (loc_of env_AB
                  (PosixPath.join (file_saved_path accepted) "contigFile.fa")))
  /\ Fs.text_at (files (sys upload_ok.1))
       (loc_of env_AB
          (PosixPath.join (file_saved_path accepted) "formData.json"))
     = "{}".
Proof.
  assert (H : upload_ok.2 = Return accepted) by computed.
  destruct (UploadTheorems.accepted_upload_is_stored services0 None
              "GCA_000005845.2" None "-1" (Some upload0) server0 upload0 _
              accepted eq_refl (pair_outcome _ _ H))
    as (_ & _ & Hfa & Hform & _).
  exact (conj H (conj Hfa Hform)).
Defined.

Local Abbreviation down_job := (jobs_folder first_id).

(** the archive answers 404 *)
Lemma failed_download_is_reported_witness :
  (generate_job_id (ids services_offline) (files (sys server0))
     (cwd_loc (base services_offline)) (recursion_limit services_offline)
     (counters server0)).2 = Some first_id
  /\ validate_gca_code arabic_indic "GCA_000005845.2" = true
  /\ subprocess_capture services_offline
       ["perl"; "/home/chieh/antibiogram_platform/bin/0.Download-GenomeSeq.pl";
        "-i"; "GCA_000005845.2"; "-o"; down_job]
     = CalledProcessError "HTTP 404"
  /\ (upload_file services_offline None "GCA_000005845.2" None "-1" None
        server0).2
     = HTTPException 500
         "Genome download failed: Genome download failed: HTTP 404".
Proof.
  assert (H1 : (generate_job_id (ids services_offline) (files (sys server0))
                  (cwd_loc (base services_offline))
                  (recursion_limit services_offline) (counters server0)).2
               = Some first_id) by computed.
  assert (H2 : validate_gca_code arabic_indic "GCA_000005845.2" = true) by computed.
  assert (H3 : subprocess_capture services_offline
                 ["perl";
                  "/home/chieh/antibiogram_platform/bin/0.Download-GenomeSeq.pl";
                  "-i"; "GCA_000005845.2"; "-o"; down_job]
               = CalledProcessError "HTTP 404") by reflexivity.
  destruct (UploadTheorems.failed_download_is_reported services_offline None
              "GCA_000005845.2" None "-1" None server0 _ first_id "HTTP 404"
              eq_refl (pair_outcome _ _ H1) eq_refl (or_intror H2) eq_refl H3)
    as (s' & Hup & _).
  split; [exact H1 |]. split; [exact H2 |]. split; [exact H3 |].
  rewrite Hup. reflexivity.
Defined.

(** the job of an accepted request, asked for at once *)
Lemma accepted_job_is_running_witness :
  upload_ok.2 = Return accepted
  /\ (forall k, string_forallb isdigit (today_at (ids services0) k) = true)
  /\ Fs.isdir (files (sys server0)) (cwd_loc env_AB) "anti_form_jobs" = true
  /\ FsTree.tree (files (sys server0))
  /\ check_status (files (sys upload_ok.1)) (cwd_loc env_AB) first_id
     = Return [("status", "running"); ("job_id", first_id)].
Proof.
  assert (H1 : upload_ok.2 = Return accepted) by computed.
  assert (H2 : forall k,
             string_forallb isdigit (today_at (ids services0) k) = true)
    by (intros k; reflexivity).
  assert (H3 : Fs.isdir (files (sys server0)) (cwd_loc env_AB) "anti_form_jobs"
               = true) by computed.
  assert (H4 : FsTree.tree (files (sys server0))) by decided.
  exact (conj H1 (conj H2 (conj H3 (conj H4
           (UploadTheorems.accepted_job_is_running services0 None
              "GCA_000005845.2" None "-1" (Some upload0) server0 _ accepted
              (pair_outcome _ _ H1) H2 H3 H4))))).
Defined.

(** the job of branch A after the turn of the worker *)
Lemma finished_job_is_done_witness :
  PosixPath.isabs (getcwd env_AB) = true
  /\ PosixPath.is_name job_id = true
  /\ Fs.isdir (files start) (cwd_loc env_AB) (jobs_folder job_id) = true
  /\ (run_pipeline env_AB (jobs_folder job_id) start).2 = Done tt
  /\ check_status (files (analysis_worker env_AB (jobs_folder job_id) start).1)
       (cwd_loc env_AB) job_id
     = Return [("status", "done"); ("job_id", job_id)].
Proof.
  assert (H1 : PosixPath.isabs (getcwd env_AB) = true) by reflexivity.
  assert (H2 : PosixPath.is_name job_id = true) by computed.
  assert (H3 : Fs.isdir (files start) (cwd_loc env_AB) (jobs_folder job_id)
               = true) by computed.
  assert (H4 : (run_pipeline env_AB (jobs_folder job_id) start).2 = Done tt)
    by computed.
  exact (conj H1 (conj H2 (conj H3 (conj H4
           (StatusTheorems.finished_job_is_done env_AB job_id start _ H1 H2 H3
              (run_outcome _ _ H4) eq_refl))))).
Defined.

Lemma handed_over_is_reachable : Pool.system_reachable handed_over.
Proof.
  pose proof (any_backlog_is_reachable 5 5 ["job1"]) as H. cbn in H.
  exact (Pool.reach_step _ _ _ _ H
           (Pool.step_get 5
              {| Pool.analysis_queue := ["job1"];
                 Pool.workers := replicate 5 Pool.Waiting;
                 Pool.work_queue := []; Pool.running := [];
                 Pool.finished := [] |}
              0 "job1" [] eq_refl eq_refl)).
Qed.

(** a job that the first worker has handed over *)
Lemma submitted_pipeline_starts_at_once_witness :
  Pool.system_reachable handed_over
  /\ Pool.work_queue handed_over
     = [ {| Pool.awaited_by := 0; Pool.folder := "job1" |} ]
  /\ Pool.executing handed_over < ANALYSIS_WORKER_COUNT.
Proof.
  exact (conj handed_over_is_reachable (conj eq_refl
           (proj1 (PoolTheorems.submitted_pipeline_starts_at_once handed_over
                     _ [] handed_over_is_reachable eq_refl)))).
Defined.

Local Abbreviation listed_files :=
  ["report.html"; "3.abProfilesCmp/hits_summary.tsv";
   "3.abProfilesCmp/query_table.tsv"].

(** the folder of a finished job *)
Lemma get_result_lists_result_files_witness :
  PosixPath.isabs cwd = true
  /\ FsTree.named finished
  /\ Fs.isdir finished (PosixPath.locate [] cwd)
       (PosixPath.join "anti_form_jobs" job_id) = true
  /\ Fs.exists_ finished (PosixPath.locate [] cwd)
       (PosixPath.join (PosixPath.join "anti_form_jobs" job_id) "complete_ok")
     = true
  /\ exists r,
       Listing.get_result cwd finished job_id = Return r
       /\ Listing.job_id r = job_id.
Proof.
  assert (H1 : PosixPath.isabs cwd = true) by reflexivity.
  assert (H2 : FsTree.named finished) by decided.
  assert (H3 : Fs.isdir finished (PosixPath.locate [] cwd)
                 (PosixPath.join "anti_form_jobs" job_id) = true) by computed.
  assert (H4 : Fs.exists_ finished (PosixPath.locate [] cwd)
                 (PosixPath.join (PosixPath.join "anti_form_jobs" job_id)
                    "complete_ok") = true) by computed.
  destruct (ListingFacts.get_result_lists_result_files cwd finished job_id
              H1 H2 H3 H4) as (r & Hr & Hid & _).
  exact (conj H1 (conj H2 (conj H3 (conj H4
           (ex_intro _ r (conj Hr Hid)))))).
Defined.

(** the report of the finished job, fetched by its listed name *)
Lemma listed_file_can_be_downloaded_witness :
  Listing.get_result cwd finished job_id
  = Return {| Listing.job_id := job_id; Listing.files := listed_files |}
  /\ segment "report.html" = true
  /\ exists c,
       download_file finished (PosixPath.locate [] cwd) job_id "report.html"
       = Return {| path := PosixPath.join
                             (PosixPath.join "anti_form_jobs" job_id)
                             "report.html";
                   download_name := "report.html" |}
       /\ served finished (PosixPath.locate [] cwd)
            {| path := PosixPath.join (PosixPath.join "anti_form_jobs" job_id)
                         "report.html";
               download_name := "report.html" |} = Some c.
Proof.
  assert (H1 : PosixPath.isabs cwd = true) by reflexivity.
  assert (H2 : FsTree.named finished) by decided.
  assert (H3 : Listing.get_result cwd finished job_id
               = Return {| Listing.job_id := job_id;
                           Listing.files := listed_files |}) by computed.
  assert (H4 : "report.html" ∈ listed_files) by left.
  destruct (ListingFacts.listed_file_can_be_downloaded cwd finished job_id
              H1 H2 _ "report.html" H3 H4 eq_refl) as (c & _ & Hd & Hs & _).
  exact (conj H3 (conj eq_refl (ex_intro _ c (conj Hd Hs)))).
Defined.

(** the table of the finished job *)
Lemma parse_query_table_is_rectangular_witness :
  QueryPage.parse_query_table base_folder finished here job_id
  = Return [["Gene"; "Class"]; ["blaOXA-23"; a_ring]]
  /\ exists bytes text,
       Fs.stat finished here
         (PosixPath.join
            (PosixPath.join (PosixPath.join base_folder job_id) "3.abProfilesCmp")
            "query_table.tsv") = Some (Fs.File bytes)
       /\ QueryPage.read_text bytes = Some text
       /\ map (Py.join tab_s) [["Gene"; "Class"]; ["blaOXA-23"; a_ring]]
          = QueryPage.splitlines text.
Proof.
  assert (H : QueryPage.parse_query_table base_folder finished here job_id
              = Return [["Gene"; "Class"]; ["blaOXA-23"; a_ring]])
    by computed.
  destruct (QueryPageTheorems.parse_query_table_is_rectangular base_folder
              finished here job_id _ H)
    as (bytes & text & Hstat & Hread & _ & _ & _ & Hjoin).
  exact (conj H (ex_intro _ bytes (ex_intro _ text
           (conj Hstat (conj Hread Hjoin))))).
Defined.

Local Abbreviation good_lines :=
  ["Gene" +:+ tab_s +:+ "Class"; "blaOXA-23" +:+ tab_s +:+ "beta-lactam"].

(** a table whose third line has one field *)
Lemma parse_query_table_names_first_bad_line_witness :
  QueryPage.read_text ragged_table = Some ragged_table
  /\ QueryPage.splitlines ragged_table = good_lines ++ ["armA"]
  /\ QueryPage.parse_query_table base_folder finished_ragged here job_id
     = HTTPException 500 (QueryPage.ragged_detail 3 2 1).
Proof.
  assert (H1 : Fs.stat finished_ragged here
                 (PosixPath.join
                    (PosixPath.join (PosixPath.join base_folder job_id)
                       "3.abProfilesCmp") "query_table.tsv")
               = Some (Fs.File ragged_table)) by computed.
  assert (H1' : QueryPage.read_text ragged_table = Some ragged_table)
    by computed.
  assert (H2 : QueryPage.splitlines ragged_table = good_lines ++ ["armA"])
    by computed.
  assert (H3 : Forall (fun ln => length (split tab ln)
                                 = length (split tab (hd "armA" good_lines)))
                 good_lines) by (repeat constructor).
  assert (H4 : length (split tab "armA")
               <> length (split tab (hd "armA" good_lines)))
    by (vm_compute; discriminate).
  exact (conj H1' (conj H2
           (QueryPageTheorems.parse_query_table_names_first_bad_line base_folder
              finished_ragged here job_id ragged_table ragged_table good_lines
              "armA" [] H1 H1' H2 H3 H4))).
Defined.

(** *** characters outside ASCII *)

(** the no-break space U+00A0 and the next line U+0085 are white space: a
    first line of [taxAssign.result] that starts with one is recognised *)
Lemma species_after_no_break_space :
  species_key (Utf8.bytes [194; 160] +:+ "Acinetobacter_baumannii" +:+ tab_s
               +:+ "0.99" +:+ Utf8.bytes [194; 133] +:+ nl)
  = "Acinetobacter_baumannii".
Proof. computed. Qed.

(** the letter U+00C5, whose second byte is 133, is no white space and no
    line boundary *)
Lemma a_ring_is_kept :
  strip (a_ring +:+ " ") = a_ring
  /\ QueryPage.splitlines ("x" +:+ a_ring +:+ nl +:+ "y") = ["x" +:+ a_ring; "y"].
Proof. split; computed. Qed.

(** a version digit outside ASCII, U+0663, is accepted by an interpreter
    whose database knows it, and only there; among the nine digits it is
    not *)
Lemma version_digit_outside_ascii :
  validate_gca_code arabic_indic ("GCA_000005845." +:+ Utf8.bytes [217; 163])
  = true
  /\ validate_gca_code (fun _ => false)
       ("GCA_000005845." +:+ Utf8.bytes [217; 163]) = false
  /\ validate_gca_code arabic_indic
       ("GCA_00000584" +:+ Utf8.bytes [217; 163] +:+ ".2") = false.
Proof. repeat split; computed. Qed.

End CaseFacts.
